(** * gisquick-server: the OWS authorization gateway and the project upload handlers

    A shallow embedding of [internal/server]: the map proxy handler
    [handleMapOws] with its per-request permission cache, and the file
    handlers [handleUpload] (with [ProgressReader] and the [nextFile]
    content provider) and [handleDeleteProjectFiles].

    Go values are modelled as follows.
    - [string] is Go's [string]; [map[string]T] is [gmap string T].
    - [int64] and [time.Duration] (nanoseconds) are [Z]; the counters of
      [ProgressReader], of Go's type [int], are [Z] with the wrap-around of
      64-bit arithmetic written out.
    - an [error] is a value of the inductive type [error]; [nil] is [None].
    - a handler is a function from its inputs and the collaborators of the
      [Server] receiver to the value it returns together with the calls it
      made (a trace of events) and what it wrote. *)

From Stdlib Require Import ZArith Ascii String List Lia.
From stdpp Require Import base option list gmap strings fin_maps.

Local Open Scope string_scope.
Local Open Scope Z_scope.

(** ** Go standard library: [strings] *)

Module strings.

(** [strings.Split(s, sep)] for a one-byte separator: the pieces between
    the separators, always at least one piece. *)
Fixpoint Split (s : string) (sep : ascii) : list string :=
  match s with
  | EmptyString => [EmptyString]
  | String c rest =>
      if Ascii.eqb c sep then EmptyString :: Split rest sep
      else match Split rest sep with
           | [] => [String c EmptyString]
           | p :: ps => String c p :: ps
           end
  end.

(** [strings.Join(elems, sep)]. *)
Fixpoint Join (elems : list string) (sep : string) : string :=
  match elems with
  | [] => ""
  | [e] => e
  | e :: rest => e ++ sep ++ Join rest sep
  end.

(** [strings.HasPrefix(s, prefix)]. *)
Definition HasPrefix (s prefix : string) : bool := String.prefix prefix s.

(** [strings.HasSuffix(s, suffix)]:
    [len(s) >= len(suffix) && s[len(s)-len(suffix):] == suffix]. *)
Definition HasSuffix (s suffix : string) : bool :=
  let ls := String.length s in
  let lx := String.length suffix in
  (lx <=? ls)%nat && String.eqb (String.substring (ls - lx) lx s) suffix.

(** [strings.TrimSuffix(s, suffix)]: [s] without the trailing [suffix],
    [s] itself when it does not end in [suffix]. *)
Definition TrimSuffix (s suffix : string) : string :=
  if HasSuffix s suffix
  then String.substring 0 (String.length s - String.length suffix) s
  else s.

End strings.

(** ** Go standard library: [path/filepath] (Unix separator) *)

Module filepath.

(** The loop of [filepath.Ext], which walks the path from its last byte
    towards the first and stops at a separator; [acc] is the part of the
    path already walked over. *)
Fixpoint Ext_scan (rev_path : list ascii) (acc : string) : string :=
  match rev_path with
  | [] => ""
  | c :: before =>
      if Ascii.eqb c "/" then ""
      else if Ascii.eqb c "." then String c acc
      else Ext_scan before (String c acc)
  end.

(** [filepath.Ext(path)]: the suffix beginning at the final dot in the
    final element of [path]; empty if there is no dot. *)
Definition Ext (path : string) : string :=
  Ext_scan (rev (list_ascii_of_string path)) "".

(** One step of [filepath.Clean] on the elements kept so far (innermost
    first): empty and [.] elements are dropped, [..] removes the element
    before it, is dropped at the root, and is kept in front of a relative
    path. *)
Definition Clean_step (rooted : bool) (kept : list string) (elem : string)
  : list string :=
  if String.eqb elem "" || String.eqb elem "." then kept
  else if String.eqb elem ".." then
    match kept with
    | [] => if rooted then [] else [".."]
    | top :: below =>
        if String.eqb top ".." then elem :: kept else below
    end
  else elem :: kept.

Definition IsAbs (path : string) : bool := strings.HasPrefix path "/".

(** [filepath.Clean(path)]: the shortest path name equivalent to [path]
    by purely lexical processing. *)
Definition Clean (path : string) : string :=
  let rooted := IsAbs path in
  let kept := fold_left (Clean_step rooted) (strings.Split path "/") [] in
  let body := strings.Join (rev kept) "/" in
  if rooted then "/" ++ body
  else if String.eqb body "" then "." else body.

(** [filepath.Join(elem...)]: leading empty elements are ignored, the
    others are joined with the separator and the result is cleaned; the
    result is empty when every element is. *)
Fixpoint Join (elem : list string) : string :=
  match elem with
  | [] => ""
  | e :: rest =>
      if String.eqb e "" then Join rest
      else Clean (strings.Join elem "/")
  end.

End filepath.

(** ** Errors and results *)

(** Go's [error] values that the handlers create, test or pass on. *)
Inductive error : Type :=
| ErrProjectNotExists                       (* domain.ErrProjectNotExists *)
| HTTPError (code : Z) (message : string)   (* *echo.HTTPError *)
| EOF                                       (* io.EOF *)
| ErrBodyTooLarge                           (* "http: request body too large" *)
| ErrOther (message : string)               (* any other error value *)
| Wrapped (message : string) (cause : error) (* fmt.Errorf("...: %w", cause) *)
| Formatted (message : string) (about : error). (* fmt.Errorf("...: %v", about):
                                               a new error with the text of
                                               [about], which it does not wrap *)

#[global] Instance error_eq_dec : EqDecision error.
Proof. solve_decision. Defined.

(** [echo.ErrNotFound] and [echo.ErrUnauthorized]. *)
Definition ErrNotFound : error := HTTPError 404 "Not Found".
Definition ErrUnauthorized : error := HTTPError 401 "Unauthorized".

(** [errors.Is(err, target)]: [err] or an error it wraps is [target]. *)
Fixpoint errors_Is (err target : error) : bool :=
  bool_decide (err = target) ||
  match err with
  | Wrapped _ cause => errors_Is cause target
  | _ => false
  end.

(** A Go call returning [(T, error)]. *)
Inductive result (A : Type) : Type :=
| Ok (a : A)
| Err (err : error).
Arguments Ok {A} a.
Arguments Err {A} err.

(** How a piece of handler code ends: normally with a value, by returning
    an error to the caller, or in a run-time panic. *)
Inductive Res (A : Type) : Type :=
| Val (a : A)
| Fail (err : error)
| Panic (why : string).
Arguments Val {A} a.
Arguments Fail {A} err.
Arguments Panic {A} why.

(** Handler code over a state [St]: the state carries what the Go code
    mutates and the record of the calls it makes. *)
Definition M (St A : Type) : Type := St -> Res A * St.

Definition ret {St A} (a : A) : M St A := fun st => (Val a, st).
Definition throw {St A} (err : error) : M St A := fun st => (Fail err, st).
Definition panic {St A} (why : string) : M St A := fun st => (Panic why, st).
Definition bind {St A B} (m : M St A) (k : A -> M St B) : M St B :=
  fun st =>
    match m st with
    | (Val a, st') => k a st'
    | (Fail err, st') => (Fail err, st')
    | (Panic why, st') => (Panic why, st')
    end.

Notation "'let*' x ':=' m 'in' k" := (bind m (fun x => k))
  (at level 10, x name, m at level 100, k at level 200).
Notation "m >> k" := (bind m (fun _ => k))
  (at level 90, right associativity).

(** [for _, x := range xs { body }] where the body may return early. *)
Fixpoint forM_ {St A} (xs : list A) (body : A -> M St unit) : M St unit :=
  match xs with
  | [] => ret tt
  | x :: rest => body x >> forM_ rest body
  end.

(** ** Package [domain] (the parts the handlers use) *)

Module domain.

Record LayerPermission : Type := {
  View : bool;
  Insert : bool;
  Update : bool;
  Delete : bool
}.

Record User : Type := {
  Username : string;
  IsSuperuser : bool
}.

(** [ProjectInfo]: the fields the handlers read. *)
Record ProjectInfo : Type := {
  QgisFile : string;
  State : string
}.

Record LayersData : Type := {
  LayerNameToID : gmap string string
}.

(** [ProjectSettings] is used only through its method
    [UserLayerPermissions(user, layerId)], whose body is outside the
    handlers' package: settings are represented by that method. *)
Definition ProjectSettings : Type := User -> string -> LayerPermission.

Definition UserLayerPermissions (settings : ProjectSettings) (user : User)
  (id : string) : LayerPermission := settings user id.

Record ProjectFile : Type := {
  Path : string;
  Size : Z
}.

Record FilesChanges : Type := {
  Updates : list ProjectFile;
  Removes : list string
}.

End domain.

#[global] Instance LayerPermission_eq_dec : EqDecision domain.LayerPermission.
Proof. solve_decision. Defined.

(** ** HTTP requests and the echo context *)

(** [url.Values]. *)
Abbreviation Values := (gmap string (list string)).

Record URL : Type := {
  Scheme : string;
  Host : string;
  Path : string;
  RawQuery : string
}.

Record Request : Type := {
  Method : string;
  Url : URL;
  Header : gmap string (list string);
  Body : string
}.

Record Response : Type := {
  StatusCode : Z;
  ResponseBody : string
}.

#[global] Instance URL_eq_dec : EqDecision URL.
Proof. solve_decision. Defined.
#[global] Instance Request_eq_dec : EqDecision Request.
Proof. solve_decision. Defined.
#[global] Instance Response_eq_dec : EqDecision Response.
Proof. solve_decision. Defined.

(** [echo.Context] for the routes [/api/map/ows/:user/:name]: the two path
    parameters and the request. *)
Record Context : Type := {
  Param_user : string;
  Param_name : string;
  Req : Request
}.

(** The query parameters bound by [BindQueryParams]; the declaration of
    [OwsRequestParams] is outside the handlers' file and these are the
    fields [handleMapOws] reads. *)
Record OwsRequestParams : Type := {
  Map : string;
  Service : string;
  Request_ : string
}.

(** The decoded WFS transaction document. The declaration of [Transaction]
    is outside the handlers' file; these are the fields [handleMapOws]
    ranges over. *)
Record TxUpdate : Type := { Update_TypeName : string }.
Record TxObject : Type := { XMLName_Local : string }.
Record TxInsert : Type := { Objects : list TxObject }.
Record TxDelete : Type := { Delete_TypeName : string }.
Record Transaction : Type := {
  Updates : list TxUpdate;
  Inserts : list TxInsert;
  Deletes : list TxDelete
}.

(** Library and environment functions the handler calls, taken as
    parameters: [url.Parse], [URL.Query], [Values.Encode],
    [DefaultBinder.BindQueryParams], [xml.Unmarshal] into a [Transaction],
    and three steps of [httputil.ReverseProxy]:
    - [proxy_Header]: what the proxy makes of the headers of the outgoing
      request once the director has run; it removes the headers named in
      [Connection] and the hop-by-hop headers, restores a protocol
      upgrade, and appends the address of the client to
      [X-Forwarded-For];
    - [RoundTrip]: the transport that carries the request to the backend
      renderer;
    - [copyResponse]: the copy of the backend's response to the client;
      [None] when all of it was written, otherwise the part of the body
      that was written before the copy failed. *)
Record Lib : Type := {
  url_Parse : string -> option URL;
  url_Query : string -> Values;
  Values_Encode : Values -> string;
  BindQueryParams : Context -> result OwsRequestParams;
  xml_Unmarshal : string -> result Transaction;
  proxy_Header : gmap string (list string) -> gmap string (list string);
  RoundTrip : Request -> result Response;
  copyResponse : Response -> option string
}.

(** The receiver [s *Server]: configuration and the services the OWS
    handler calls. *)
Record Server : Type := {
  Config_MapserverURL : string;
  projects_GetProjectInfo : string -> result domain.ProjectInfo;
  projects_GetSettings : string -> result domain.ProjectSettings;
  projects_GetLayersData : string -> result domain.LayersData;
  auth_GetUser : Context -> domain.User * option error
}.

(** ** The OWS handler: [handleMapOws] *)

(** What the handler does that its caller or the services can observe:
    calls to the project and permission services, and requests sent to the
    backend renderer by the reverse proxy; and the returns of its closure
    [getLayerPermissions], with the layer identifier it looked up and the
    permission it returned. *)
Inductive Event : Type :=
| CallGetProjectInfo (projectName : string)
| CallGetSettings (projectName : string)
| CallGetLayersData (projectName : string)
| CallUserLayerPermissions (id : string)
| Resolved (id : string) (perm : domain.LayerPermission)
| CallRoundTrip (outreq : Request).

(** The state of one run of the handler: the map [perms] it allocates, the
    calls made so far (oldest first) and the response written to
    [c.Response()], if any. *)
Record OwsState : Type := {
  perms : gmap string domain.LayerPermission;
  trace : list Event;
  written : option Response
}.

Definition emit (ev : Event) : M OwsState unit :=
  fun st => (Val tt, {| perms := perms st; trace := trace st ++ [ev];
                        written := written st |}).

Definition get_perms : M OwsState (gmap string domain.LayerPermission) :=
  fun st => (Val (perms st), st).

Definition set_perm (id : string) (perm : domain.LayerPermission) : M OwsState unit :=
  fun st => (Val tt, {| perms := <[id := perm]> (perms st); trace := trace st;
                        written := written st |}).

Definition write_response (res : Response) : M OwsState unit :=
  fun st => (Val tt, {| perms := perms st; trace := trace st;
                        written := Some res |}).

(** [getProjectName(c)]. *)
Definition getProjectName (c : Context) : string :=
  let user := Param_user c in
  let name := Param_name c in
  filepath.Join [user; name].

(** The all-false permission returned on the last line of
    [getLayerPermissions]. *)
Definition NoPermission : domain.LayerPermission :=
  {| domain.View := false; domain.Insert := false;
     domain.Update := false; domain.Delete := false |}.

(** The closure [getLayerPermissions] of [handleMapOws]; [layersData],
    [settings] and [user] are the variables it captures, [perms] is in the
    state. A cached permission is returned; otherwise the permission is
    computed and stored, and control falls out of the [if] to the final
    [return] of the all-false permission. *)
Definition getLayerPermissions (layersData : domain.LayersData)
    (settings : domain.ProjectSettings) (user : domain.User)
    (typeName : string) : M OwsState domain.LayerPermission :=
  let parts := strings.Split typeName ":" in
  let lname := List.last parts "" in
  let id := default "" (domain.LayerNameToID layersData !! lname) in
  let* cache := get_perms in
  match cache !! id with
  | Some perm => emit (Resolved id perm) >> ret perm
  | None =>
      emit (CallUserLayerPermissions id) >>
      let perm := domain.UserLayerPermissions settings user id in
      set_perm id perm >>
      emit (Resolved id NoPermission) >>
      ret NoPermission
  end.

(** The three authorization loops of [handleMapOws] over the decoded
    transaction. *)
Definition authorize (getLayerPermissions : string -> M OwsState domain.LayerPermission)
    (wfsTransaction : Transaction) : M OwsState unit :=
  forM_ (Updates wfsTransaction) (fun u =>
    let* perm := getLayerPermissions (Update_TypeName u) in
    if negb (domain.Update perm) then throw ErrUnauthorized else ret tt) >>
  forM_ (Inserts wfsTransaction) (fun i =>
    forM_ (Objects i) (fun o =>
      let* perm := getLayerPermissions (XMLName_Local o) in
      if negb (domain.Insert perm) then throw ErrUnauthorized else ret tt)) >>
  forM_ (Deletes wfsTransaction) (fun d =>
    let* perm := getLayerPermissions (Delete_TypeName d) in
    if negb (domain.Delete perm) then throw ErrUnauthorized else ret tt).

(** The [director] of the reverse proxy. The error of [url.Parse] is
    dropped, so an address that does not parse leaves [target] nil and the
    first field access panics. *)
Definition director (L : Lib) (s : Server) (req : Request) : Res Request :=
  match url_Parse L (Config_MapserverURL s) with
  | None => Panic "invalid memory address or nil pointer dereference"
  | Some target =>
      let url := {| Scheme := Scheme target; Host := Host target;
                    Path := Path target; RawQuery := RawQuery (Url req) |} in
      let header :=
        match Header req !! "User-Agent" with
        | Some _ => Header req
        | None => <["User-Agent" := [""]]> (Header req)
        end in
      Val {| Method := Method req; Url := url; Header := header;
             Body := Body req |}
  end.

(** The response the proxy's default error handler writes when the
    backend cannot be reached. *)
Definition BadGateway : Response := {| StatusCode := 502; ResponseBody := "" |}.

(** The request the proxy hands to the transport: the request the
    director left, with the headers the proxy makes of its headers. *)
Definition outgoing (L : Lib) (outreq : Request) : Request :=
  {| Method := Method outreq; Url := Url outreq;
     Header := proxy_Header L (Header outreq); Body := Body outreq |}.

(** The panic value [http.ErrAbortHandler]. *)
Definition ErrAbortHandler : string := "net/http: abort Handler".

(** [ReverseProxy.ServeHTTP(rw, req)] of a proxy with the given director
    and error handler: the director rewrites the outgoing request, the
    proxy prepares its headers, and the transport carries it to the
    backend. When the round trip fails the error handler is called.
    Otherwise the status and the body of the backend's response are
    copied to the client; when that copy fails, the status and a part of
    the body are written and the proxy panics with
    [http.ErrAbortHandler]. *)
Definition ReverseProxy_ServeHTTP (L : Lib) (director : Request -> Res Request)
    (errorHandler : M OwsState unit) (req : Request) : M OwsState unit :=
  match director req with
  | Val outreq =>
      emit (CallRoundTrip (outgoing L outreq)) >>
      match RoundTrip L (outgoing L outreq) with
      | Ok res =>
          match copyResponse L res with
          | None => write_response res
          | Some copied =>
              write_response {| StatusCode := StatusCode res;
                                ResponseBody := copied |} >>
              panic ErrAbortHandler
          end
      | Err _ => errorHandler
      end
  | Fail err => throw err
  | Panic why => panic why
  end.

(** [reverseProxy.ServeHTTP(c.Response(), req)] in [handleMapOws]: the
    proxy has the director above and the default error handler, which
    answers 502. *)
Definition ServeHTTP (L : Lib) (s : Server) (req : Request) : M OwsState unit :=
  ReverseProxy_ServeHTTP L (director L s) (write_response BadGateway) req.

(** The handler returned by [handleMapOws()]. *)
Definition handleMapOws (L : Lib) (s : Server) (c : Context) : M OwsState unit :=
  match BindQueryParams L c with
  | Err _ => throw (HTTPError 400 "Invalid query parameters")
  | Ok params =>
      let projectName := getProjectName c in
      emit (CallGetProjectInfo projectName) >>
      match projects_GetProjectInfo s projectName with
      | Err err =>
          if errors_Is err ErrProjectNotExists then throw ErrNotFound
          else throw err
      | Ok pInfo =>
          emit (CallGetSettings projectName) >>
          match projects_GetSettings s projectName with
          | Err err => throw err
          | Ok settings =>
              let user := fst (auth_GetUser s c) in
              (if String.eqb (Service params) "WFS" && String.eqb (Request_ params) ""
               then
                 let projectName :=
                   strings.TrimSuffix (Map params) (filepath.Ext (Map params)) in
                 emit (CallGetLayersData projectName) >>
                 match projects_GetLayersData s projectName with
                 | Err err => throw err
                 | Ok layersData =>
                     let bodyBytes := Body (Req c) in
                     match xml_Unmarshal L bodyBytes with
                     | Err err => throw err
                     | Ok wfsTransaction =>
                         authorize (getLayerPermissions layersData settings user)
                                   wfsTransaction
                     end
                 end
               else ret tt) >>
              let owsProject :=
                filepath.Join ["/publish"; projectName; domain.QgisFile pInfo] in
              let query := url_Query L (RawQuery (Url (Req c))) in
              let query := <["MAP" := [owsProject]]> query in
              let url := {| Scheme := Scheme (Url (Req c)); Host := Host (Url (Req c));
                            Path := Path (Url (Req c));
                            RawQuery := Values_Encode L query |} in
              let req := {| Method := Method (Req c); Url := url;
                            Header := Header (Req c); Body := Body (Req c) |} in
              ServeHTTP L s req
          end
      end
  end.

(** A request starts with the empty [perms] map, no call made and nothing
    written. *)
Definition OwsState_init : OwsState :=
  {| perms := ∅; trace := []; written := None |}.

Definition run_handleMapOws (L : Lib) (s : Server) (c : Context) : Res unit * OwsState :=
  handleMapOws L s c OwsState_init.

(** The requests that reached the backend renderer. *)
Definition upstream (tr : list Event) : list Request :=
  omap (fun ev => match ev with CallRoundTrip outreq => Some outreq | _ => None end) tr.

(** The arguments of the calls to [GetLayersData]. *)
Definition layersData_calls (tr : list Event) : list string :=
  omap (fun ev => match ev with CallGetLayersData p => Some p | _ => None end) tr.

(** The layer ids whose permission was computed from the settings. *)
Definition permission_calls (tr : list Event) : list string :=
  omap (fun ev => match ev with CallUserLayerPermissions id => Some id | _ => None end) tr.

(** The returns of [getLayerPermissions], in the order of the calls: the
    layer identifier looked up and the permission returned. *)
Definition lookups (tr : list Event) : list (string * domain.LayerPermission) :=
  omap (fun ev => match ev with Resolved id perm => Some (id, perm) | _ => None end) tr.

(** ** The upload handler: request body, limiter and multipart reader

    The content of the body is modelled by byte counts: a part is its two
    names, the number of bytes its delimiter line, its header block and
    its content take on the wire, and what the decoders make of the
    content. Bytes are taken from the body when the framing or the
    content they belong to is consumed; the look-ahead of the reader's
    buffer is not modelled. *)

(** A part of the multipart body as [reader.NextPart()] yields it. *)
Record Part : Type := {
  FormName : string;              (* part.FormName() *)
  FileName : string;              (* part.FileName() *)
  DelimiterLen : Z;               (* bytes of the delimiter line before the part *)
  HeaderLen : Z;                  (* bytes of the header block *)
  ContentLen : Z;                 (* bytes of the content *)
  AsJSON : result (list domain.ProjectFile); (* the content decoded as upload info *)
  GzipHeaderOk : bool;            (* the content starts with a valid gzip header *)
  Inflated : Z                    (* bytes of the decompressed content, if gzip *)
}.

(** [http.maxBytesReader]: the bytes that may still be delivered and the
    error it has settled on. *)
Record maxBytesReader : Type := {
  mb_n : Z;
  mb_err : option error
}.

(** [s.sws.AppChannel().Send(user, name, payload)]. *)
Record Notification : Type := {
  To : string;
  EventName : string;
  Payload : gmap string Z
}.

(** The state of one upload request. *)
Record UploadState : Type := {
  wire_left : Z;                       (* bytes of the body not yet read from the connection *)
  limiter : option maxBytesReader;     (* the wrapper around [req.Body], if any *)
  pending : list Part;                 (* parts the multipart reader has not reached *)
  current_left : Z;                    (* unread content bytes of the current part *)
  ClosingLen : Z;                      (* bytes of the closing delimiter *)
  uploadProgress : gmap string Z;
  lastNotification : Z;                (* nanoseconds *)
  ticks : nat;                         (* readings of the clock so far *)
  sent : list Notification;            (* notifications sent, oldest first *)
  files : list domain.ProjectFile      (* the project's file manifest *)
}.

Definition set_wire_left (v : Z) (st : UploadState) : UploadState :=
  {| wire_left := v; limiter := limiter st; pending := pending st;
     current_left := current_left st; ClosingLen := ClosingLen st;
     uploadProgress := uploadProgress st; lastNotification := lastNotification st;
     ticks := ticks st; sent := sent st; files := files st |}.

Definition set_limiter (v : option maxBytesReader) (st : UploadState) : UploadState :=
  {| wire_left := wire_left st; limiter := v; pending := pending st;
     current_left := current_left st; ClosingLen := ClosingLen st;
     uploadProgress := uploadProgress st; lastNotification := lastNotification st;
     ticks := ticks st; sent := sent st; files := files st |}.

Definition set_parts (ps : list Part) (left : Z) (st : UploadState) : UploadState :=
  {| wire_left := wire_left st; limiter := limiter st; pending := ps;
     current_left := left; ClosingLen := ClosingLen st;
     uploadProgress := uploadProgress st; lastNotification := lastNotification st;
     ticks := ticks st; sent := sent st; files := files st |}.

Definition set_uploadProgress (v : gmap string Z) (st : UploadState) : UploadState :=
  {| wire_left := wire_left st; limiter := limiter st; pending := pending st;
     current_left := current_left st; ClosingLen := ClosingLen st;
     uploadProgress := v; lastNotification := lastNotification st;
     ticks := ticks st; sent := sent st; files := files st |}.

Definition set_lastNotification (v : Z) (st : UploadState) : UploadState :=
  {| wire_left := wire_left st; limiter := limiter st; pending := pending st;
     current_left := current_left st; ClosingLen := ClosingLen st;
     uploadProgress := uploadProgress st; lastNotification := v;
     ticks := ticks st; sent := sent st; files := files st |}.

Definition set_ticks (v : nat) (st : UploadState) : UploadState :=
  {| wire_left := wire_left st; limiter := limiter st; pending := pending st;
     current_left := current_left st; ClosingLen := ClosingLen st;
     uploadProgress := uploadProgress st; lastNotification := lastNotification st;
     ticks := v; sent := sent st; files := files st |}.

Definition set_sent (v : list Notification) (st : UploadState) : UploadState :=
  {| wire_left := wire_left st; limiter := limiter st; pending := pending st;
     current_left := current_left st; ClosingLen := ClosingLen st;
     uploadProgress := uploadProgress st; lastNotification := lastNotification st;
     ticks := ticks st; sent := v; files := files st |}.

Definition set_files (v : list domain.ProjectFile) (st : UploadState) : UploadState :=
  {| wire_left := wire_left st; limiter := limiter st; pending := pending st;
     current_left := current_left st; ClosingLen := ClosingLen st;
     uploadProgress := uploadProgress st; lastNotification := lastNotification st;
     ticks := ticks st; sent := sent st; files := v |}.

Definition get {St} : M St St := fun st => (Val st, st).
Definition modify {St} (f : St -> St) : M St unit := fun st => (Val tt, f st).

(** Runs [m] and hands its error, if it returned one, to the caller as a
    value: Go's [v, err := m()]. *)
Definition try {St A} (m : M St A) : M St (result A) :=
  fun st =>
    match m st with
    | (Val a, st') => (Val (Ok a), st')
    | (Fail err, st') => (Val (Err err), st')
    | (Panic why, st') => (Panic why, st')
    end.

(** [Read(p)] on the connection's body with [len(p) = k]: the bytes that
    are left, up to [k] of them, and [io.EOF] once none is left. *)
Definition conn_Read (k : Z) : M UploadState (Z * option error) :=
  let* st := get in
  let avail := wire_left st in
  if avail <=? 0 then ret (0, Some EOF)
  else
    let n := Z.min k avail in
    modify (set_wire_left (avail - n)) >> ret (n, None).

Module http.

(** [http.MaxBytesReader(w, r, n)]. *)
Definition MaxBytesReader (n : Z) : maxBytesReader :=
  {| mb_n := n; mb_err := None |}.

(** [maxBytesReader.Read(p)] with [len(p) = k], over the connection's
    body: a request for more than [n+1] bytes is cut to [n+1], and a
    read that gets more than [n] bytes delivers [n] of them and settles
    on the size error. *)
Definition maxBytesReader_Read (l : maxBytesReader) (k : Z)
  : M UploadState (Z * option error) :=
  match mb_err l with
  | Some err => ret (0, Some err)
  | None =>
      if k =? 0 then ret (0, None)
      else
        let k := if mb_n l + 1 <? k then mb_n l + 1 else k in
        let* r := conn_Read k in
        let '(n, err) := r in
        if n <=? mb_n l then
          modify (set_limiter (Some {| mb_n := mb_n l - n; mb_err := err |})) >>
          ret (n, err)
        else
          modify (set_limiter (Some {| mb_n := 0; mb_err := Some ErrBodyTooLarge |})) >>
          ret (mb_n l, Some ErrBodyTooLarge)
  end.

End http.

(** [req.Body.Read(p)] with [len(p) = k]: through the limiter when the
    handler installed one. *)
Definition Body_Read (k : Z) : M UploadState (Z * option error) :=
  let* st := get in
  match limiter st with
  | Some l => http.maxBytesReader_Read l k
  | None => conn_Read k
  end.

(** [io.ErrUnexpectedEOF]. *)
Definition ErrUnexpectedEOF : error := ErrOther "unexpected EOF".

(** The multipart reader pulling [k] bytes of framing or of skipped
    content from the body through its buffer. When the body gives fewer
    the reader meets the error of the body, which is [io.EOF] when the
    body just ends. *)
Definition pull (k : Z) : M UploadState unit :=
  if k <=? 0 then ret tt
  else
    let* r := Body_Read k in
    let '(n, err) := r in
    if n <? k then
      match err with
      | Some e => throw e
      | None => throw EOF
      end
    else ret tt.

Module multipart.

(** The error [Reader.NextPart()] makes of an error it meets while it
    reads a delimiter line: [fmt.Errorf("multipart: NextPart: %v", err)]. *)
Definition NextPartError (err : error) : error :=
  Formatted "multipart: NextPart: " err.

(** [Reader.NextPart()] for a reader with a boundary that is not empty.
    The current part is closed, which discards the rest of its content
    and drops the error of doing so. Then the delimiter line is read: an
    error met there is returned formatted. After the delimiter of a part
    its header block is read, whose error is returned as it is; after
    the closing delimiter the result is [io.EOF]. *)
Definition NextPart : M UploadState Part :=
  let* st := get in
  try (pull (current_left st)) >>
  match pending st with
  | [] =>
      modify (set_parts [] 0) >>
      let* r := try (pull (ClosingLen st)) in
      match r with
      | Ok _ => throw EOF
      | Err err => throw (NextPartError err)
      end
  | p :: rest =>
      modify (set_parts (p :: rest) 0) >>
      let* r := try (pull (DelimiterLen p)) in
      match r with
      | Err err => throw (NextPartError err)
      | Ok _ =>
          pull (HeaderLen p) >>
          modify (set_parts rest (ContentLen p)) >>
          ret p
      end
  end.

(** [Part.Read(p)] with [len(p) = k] on the current part: the last bytes
    of the content come together with [io.EOF], and a body that ends
    inside the content gives [io.ErrUnexpectedEOF]. *)
Definition Part_Read (k : Z) : M UploadState (Z * option error) :=
  let* st := get in
  let unread := current_left st in
  if unread <=? 0 then ret (0, Some EOF)
  else
    let* r := Body_Read (Z.min k unread) in
    let '(n, err) := r in
    modify (set_parts (pending st) (unread - n)) >>
    match err with
    | Some EOF => ret (n, Some ErrUnexpectedEOF)
    | Some e => ret (n, Some e)
    | None => if unread - n <=? 0 then ret (n, Some EOF) else ret (n, None)
    end.

End multipart.

(** ** The upload handler: [ProgressReader], [nextFile], [handleUpload] *)

(** The [io.ReadCloser] values [nextFile] wraps: the part itself, a gzip
    reader over it (with the decompressed bytes still to deliver and
    whether the compressed content was already pulled from the part), a
    gzip reader that has met an error, or the nil reader that
    [gzip.NewReader] returns with an error. *)
Inductive ReadCloser : Type :=
| NilReader
| PartReader
| GzipReader (inflated_left : Z) (pulled : bool)
| BrokenGzip (err : error).

(** [gzip.ErrHeader]. *)
Definition gzip_ErrHeader : error := ErrOther "gzip: invalid header".

(** [gzip.NewReader(part)]: a reader, or nil and an error when the content
    does not start with a gzip header. *)
Definition gzip_NewReader (part : Part) : ReadCloser * option error :=
  if GzipHeaderOk part then (GzipReader (Inflated part) false, None)
  else (NilReader, Some gzip_ErrHeader).

(** [Read(p)] with [len(p) = k] on a reader; the reader may change. A
    method call on the nil reader panics. The gzip reader pulls the
    compressed content from the part before it delivers the first
    decompressed bytes; the last of them come together with [io.EOF]. An
    error of the part, or a content that ends early, is the error of this
    and of every later read. *)
Definition ReadCloser_Read (r : ReadCloser) (k : Z)
  : M UploadState ((Z * option error) * ReadCloser) :=
  match r with
  | NilReader => panic "invalid memory address or nil pointer dereference"
  | PartReader =>
      let* res := multipart.Part_Read k in ret (res, PartReader)
  | GzipReader inflated pulled =>
      let* st := get in
      let* res := (if pulled then ret (0, Some EOF)
                   else multipart.Part_Read (current_left st)) in
      match snd res with
      | Some EOF =>
          if inflated <=? k then ret ((Z.max 0 inflated, Some EOF), GzipReader 0 true)
          else ret ((k, None), GzipReader (inflated - k) true)
      | Some err => ret ((0, Some err), BrokenGzip err)
      | None => ret ((0, Some ErrUnexpectedEOF), BrokenGzip ErrUnexpectedEOF)
      end
  | BrokenGzip err => ret ((0, Some err), BrokenGzip err)
  end.

(** Go's [int] on the 64-bit platforms the server is built for: the sum
    or difference of two values, wrapped around at 64 bits. *)
Definition int_wrap (z : Z) : Z := (z + 2 ^ 63) mod 2 ^ 64 - 2 ^ 63.

(** [ProgressReader]. *)
Record ProgressReader : Type := {
  Reader : ReadCloser;
  Callback : Z -> M UploadState unit;
  Step : Z;
  Progress : Z;
  lastVal : Z
}.

(** [(r *ProgressReader) Read(p)] with [len(p) = k]; the updated reader is
    returned with the result. *)
Definition ProgressReader_Read (r : ProgressReader) (k : Z)
  : M UploadState ((Z * option error) * ProgressReader) :=
  let* res := ReadCloser_Read (Reader r) k in
  let '((n, err), reader) := res in
  let progress := int_wrap (Progress r + n) in
  if (Step r <=? int_wrap (progress - lastVal r)) || bool_decide (err = Some EOF) then
    Callback r progress >>
    ret ((n, err), {| Reader := reader; Callback := Callback r; Step := Step r;
                      Progress := progress; lastVal := progress |})
  else
    ret ((n, err), {| Reader := reader; Callback := Callback r; Step := Step r;
                      Progress := progress; lastVal := lastVal r |}).

(** The services and the environment of the file handlers: the user of
    the request, the project service's [UpdateFiles] (given the project
    name, the changes and the content provider, nil for none), and the
    successive readings of [time.Now()], in nanoseconds. *)
Record FileServer : Type := {
  GetUser : result domain.User;
  projects_UpdateFiles :
    string -> domain.FilesChanges ->
    option (M UploadState (string * ProgressReader)) ->
    M UploadState (list domain.ProjectFile);
  clock : nat -> Z
}.

(** [time.Now()]. *)
Definition time_Now (s : FileServer) : M UploadState Z :=
  let* st := get in
  modify (set_ticks (S (ticks st))) >> ret (clock s (ticks st)).

(** [s.sws.AppChannel().Send(user, name, payload)]. *)
Definition Send (user name : string) (payload : gmap string Z) : M UploadState unit :=
  modify (fun st => set_sent (sent st ++ [{| To := user; EventName := name;
                                              Payload := payload |}]) st).

(** The [Callback] closure that [nextFile] gives to each [ProgressReader]:
    [now.Sub(lastNotification).Seconds() > 0.5] is a duration of more than
    500000000 nanoseconds. *)
Definition progressCallback (s : FileServer) (user : domain.User) (part : Part)
    (p : Z) : M UploadState unit :=
  modify (fun st => set_uploadProgress (<[FormName part := p]> (uploadProgress st)) st) >>
  let* now := time_Now s in
  let* st := get in
  if 500000000 <? now - lastNotification st then
    Send (domain.Username user) "UploadProgress" (uploadProgress st) >>
    modify (set_lastNotification now) >>
    modify (set_uploadProgress ∅)
  else ret tt.

(** The closure [nextFile] of [handleUpload]. *)
Definition nextFile (s : FileServer) (user : domain.User)
  : M UploadState (string * ProgressReader) :=
  let* r := try multipart.NextPart in
  match r with
  | Err err =>
      (if bool_decide (err = EOF) then
         let* st := get in
         Send (domain.Username user) "UploadProgress" (uploadProgress st)
       else ret tt) >>
      throw err
  | Ok part =>
      let partReader :=
        if strings.HasSuffix (FileName part) ".gz"
           && negb (strings.HasSuffix (FormName part) ".gz")
        then fst (gzip_NewReader part)
        else PartReader in
      let pr := {| Reader := partReader; Step := 32 * 1024;
                   Callback := progressCallback s user part;
                   Progress := 0; lastVal := 0 |} in
      ret (FormName part, pr)
  end.

(** What a handler answers when it returns nil. *)
Inductive Reply : Type :=
| NoContent (code : Z)
| JSON (code : Z) (files : list domain.ProjectFile).

(** The request of [handleUpload]: what [mime.ParseMediaType] makes of the
    [Content-Type] header, and the project set by the access middleware. *)
Record UploadRequest : Type := {
  MediaType : result (string * gmap string string);
  project : string
}.

(** [MaxProjectSize] in [handleUpload]. *)
Definition MaxProjectSize : Z := 100 * 1024 * 1024.

(** The step of [handleUpload] that replaces [req.Body]: for a user who
    is not a superuser the body is wrapped in a [MaxBytesReader] of
    [MaxProjectSize] bytes. *)
Definition limitBody (user : domain.User) : M UploadState unit :=
  if negb (domain.IsSuperuser user) then
    modify (set_limiter (Some (http.MaxBytesReader MaxProjectSize)))
  else ret tt.

(** [json.NewDecoder(part).Decode(&info)]: the content of the part is read
    and decoded; an error of the read is returned, and a content that
    ends early gives [io.ErrUnexpectedEOF]. *)
Definition decodeInfo (part : Part) : M UploadState (list domain.ProjectFile) :=
  let* r := multipart.Part_Read (ContentLen part) in
  let '(n, err) := r in
  match err with
  | Some EOF | None =>
      if n <? ContentLen part then throw ErrUnexpectedEOF
      else match AsJSON part with
           | Ok info => ret info
           | Err err => throw err
           end
  | Some err => throw err
  end.

(** The handler returned by [handleUpload()]. *)
Definition handleUpload (s : FileServer) (c : UploadRequest) : M UploadState Reply :=
  match MediaType c with
  | Err _ =>
      throw (HTTPError 400 "request Content-Type isn't multipart/form-data")
  | Ok (ctype, params) =>
      if negb (String.eqb ctype "multipart/form-data") then
        throw (HTTPError 400 "request Content-Type isn't multipart/form-data")
      else
        match params !! "boundary" with
        | None =>
            throw (HTTPError 400 "no multipart boundary param in Content-Type")
        | Some boundary =>
            match GetUser s with
            | Err err => throw err
            | Ok user =>
                limitBody user >>
                let projectName := project c in
                let* part := multipart.NextPart in
                let* info := decodeInfo part in
                modify (set_uploadProgress ∅) >>
                let* now := time_Now s in
                modify (set_lastNotification now) >>
                let changes := {| domain.Updates := info; domain.Removes := [] |} in
                projects_UpdateFiles s projectName changes (Some (nextFile s user)) >>
                ret (NoContent 200)
            end
        end
  end.

(** The handler returned by [handleDeleteProjectFiles()]; [bound] is what
    [BindBody] makes of the request body: an error, or the list under
    the [files] key. *)
Definition handleDeleteProjectFiles (s : FileServer) (projectName : string)
    (bound : result (list string)) : M UploadState Reply :=
  match bound with
  | Err err => throw err
  | Ok data_Files =>
      if (length data_Files <? 1)%nat then
        throw (HTTPError 400 "No files specified")
      else
        let changes := {| domain.Updates := []; domain.Removes := data_Files |} in
        let* files := projects_UpdateFiles s projectName changes None in
        ret (JSON 200 files)
  end.

(** The state in which an upload request arrives: the body with its parts
    and closing delimiter still on the connection, no limiter, and the
    project's manifest. *)
Definition UploadState_init (parts : list Part) (closing : Z)
    (manifest : list domain.ProjectFile) : UploadState :=
  {| wire_left :=
       fold_right (fun p acc => DelimiterLen p + HeaderLen p + ContentLen p + acc)
                  closing parts;
     limiter := None; pending := parts; current_left := 0; ClosingLen := closing;
     uploadProgress := ∅; lastNotification := 0; ticks := 0; sent := [];
     files := manifest |}.

(** ** The file engine behind [projects.UpdateFiles] *)

Module engine.

(** Modelled from the spec: the errors [InvalidPath] and
    [SizeLimitExceeded] of the engine, whose code is outside the
    handlers' package (sections 4.1 and 7). *)
Definition InvalidPath : error := ErrOther "InvalidPath".
Definition SizeLimitExceeded : error := ErrOther "SizeLimitExceeded".

(** Modelled from the spec: a declared path that leaves the project
    root, which the engine refuses (section 4.1). *)
Definition escapesRoot (path : string) : bool :=
  let p := filepath.Clean path in
  filepath.IsAbs path || String.eqb p ".." || strings.HasPrefix p "../".

(** Modelled from the spec: the cap on the declared total of an upload,
    which binds the callers that are not privileged (sections 4.1 and 8);
    the fixed maximum is the one of the upload handler. *)
Definition cap (user : domain.User) : option Z :=
  if domain.IsSuperuser user then None else Some MaxProjectSize.

(** Modelled from the spec: the declared total of a change set, the sum
    of the sizes of its update entries (section 8). *)
Definition declaredTotal (changes : domain.FilesChanges) : Z :=
  fold_right (fun f acc => domain.Size f + acc) 0 (domain.Updates changes).

(** Modelled from the spec: the write of a content stream to a
    temporary location (section 4.1). The stream is read to its end in
    blocks of 32 KiB; the result is the number of bytes written. A
    failed read ends the copy with the error wrapped. [reads] bounds
    the number of reads. *)
Fixpoint copy (reads : nat) (pr : ProgressReader) : M UploadState Z :=
  match reads with
  | O => panic "copy: the stream did not end"
  | S reads' =>
      let* r := ProgressReader_Read pr (32 * 1024) in
      let '((n, err), pr') := r in
      match err with
      | Some EOF => ret (Progress pr')
      | Some e => throw (Wrapped "ContentReadError" e)
      | None => copy reads' pr'
      end
  end.

(** The number of reads that exhaust a stream of [len] bytes. *)
Definition reads_for (len : Z) : nat := (Z.to_nat (len / (32 * 1024)) + 2)%nat.

Definition stream_len (pr : ProgressReader) (st : UploadState) : Z :=
  match Reader pr with
  | GzipReader inflated _ => inflated
  | _ => current_left st
  end.

(** Modelled from the spec: the temporary file is renamed into place
    (section 4.1); the manifest gets the entry of the new file instead
    of an older one of the same path. *)
Definition materialize (path : string) (size : Z) (st : UploadState) : UploadState :=
  set_files
    (filter (fun f => domain.Path f ≠ path) (files st)
       ++ [{| domain.Path := path; domain.Size := size |}]) st.

(** Modelled from the spec: the updates of a change set (sections 4.1
    and 5). The provider is asked for the next stream until it signals
    the end; the streams are processed in the order in which the provider
    yields them, each copied and then materialized; the first failure
    stops the loop and what was materialized stays. The declared paths
    were checked before; a stream that the provider names with a path
    that leaves the root is refused and not written (section 3: every
    entry resolves inside the root). [calls] bounds the number of calls
    of the provider. *)
Fixpoint applyUpdates (calls : nat) (next : M UploadState (string * ProgressReader))
  : M UploadState unit :=
  match calls with
  | O => panic "applyUpdates: the provider did not end"
  | S calls' =>
      let* r := try next in
      match r with
      | Err EOF => ret tt
      | Err err => throw (Wrapped "ContentReadError" err)
      | Ok (path, pr) =>
          if escapesRoot path then throw InvalidPath
          else
            let* st := get in
            let* size := copy (reads_for (stream_len pr st)) pr in
            modify (materialize path size) >>
            applyUpdates calls' next
      end
  end.

(** Modelled from the spec: the removals of a change set delete the
    named paths; a path that is absent is not an error (section 4.1). *)
Definition remove (paths : list string) (st : UploadState) : UploadState :=
  set_files (filter (fun f => domain.Path f ∉ paths) (files st)) st.

(** Modelled from the spec: the project service's [UpdateFiles], whose
    body is outside the handlers' package, after the contract of
    [ApplyChanges(project, changeSet, contentProvider)] in the design
    (sections 4.1, 7 and 8). Before any side effect a change set with a
    declared path that leaves the root is refused with [InvalidPath],
    and one whose declared total exceeds the cap of the caller, [limit],
    with [SizeLimitExceeded]. Then every stream of the provider is
    written to a temporary place and materialized at its path; a failure
    stops further writes and leaves the committed files; removals delete
    the named paths, and the rewritten manifest is returned. *)
Definition UpdateFiles (limit : option Z) (projectName : string)
    (changes : domain.FilesChanges)
    (next : option (M UploadState (string * ProgressReader)))
  : M UploadState (list domain.ProjectFile) :=
  if existsb escapesRoot (map domain.Path (domain.Updates changes))
     || existsb escapesRoot (domain.Removes changes)
  then throw InvalidPath
  else if match limit with
          | Some most => most <? declaredTotal changes
          | None => false
          end
  then throw SizeLimitExceeded
  else
    (match next with
     | Some nextFile =>
         let* st := get in
         applyUpdates (S (S (length (pending st)))) nextFile
     | None => ret tt
     end) >>
    modify (remove (domain.Removes changes)) >>
    let* st := get in
    ret (files st).

End engine.

(** ** Words of the specification *)

(** The layer identifier [getLayerPermissions] looks up for a type name:
    the identifier of the segment after the last colon, empty for a layer
    name the project does not know. *)
Definition layerID (layersData : domain.LayersData) (typeName : string) : string :=
  default "" (domain.LayerNameToID layersData !! List.last (strings.Split typeName ":") "").

(** The kinds of operation of a transaction and the operations in the
    order in which [handleMapOws] visits them. *)
Inductive OpKind : Type := OpUpdate | OpInsert | OpDelete.

Definition operations (tx : Transaction) : list (OpKind * string) :=
  map (fun u => (OpUpdate, Update_TypeName u)) (Updates tx)
  ++ concat (map (fun i => map (fun o => (OpInsert, XMLName_Local o)) (Objects i))
                 (Inserts tx))
  ++ map (fun d => (OpDelete, Delete_TypeName d)) (Deletes tx).

(** The flag an operation of a kind needs. *)
Definition grants (kind : OpKind) (perm : domain.LayerPermission) : bool :=
  match kind with
  | OpUpdate => domain.Update perm
  | OpInsert => domain.Insert perm
  | OpDelete => domain.Delete perm
  end.

(** The permission the project settings give the user on the layer of a
    type name. *)
Definition resolve (layersData : domain.LayersData) (settings : domain.ProjectSettings)
    (user : domain.User) (typeName : string) : domain.LayerPermission :=
  domain.UserLayerPermissions settings user (layerID layersData typeName).

(** The operation lacks the flag it needs. *)
Definition unauthorized (layersData : domain.LayersData)
    (settings : domain.ProjectSettings) (user : domain.User)
    (op : OpKind * string) : bool :=
  negb (grants (fst op) (resolve layersData settings user (snd op))).

(** What the readers of the body leave alone: the progress map, the time
    of the last notification, the clock, the notifications and the
    manifest. *)
Definition same_session (st st' : UploadState) : Prop :=
  uploadProgress st' = uploadProgress st /\
  lastNotification st' = lastNotification st /\
  ticks st' = ticks st /\
  sent st' = sent st /\
  files st' = files st.

(** An error that reports the size limit: the error of the limiter on
    the request body, also inside another error, or the engine's
    [SizeLimitExceeded]. *)
Fixpoint sizeLimitError (err : error) : bool :=
  match err with
  | ErrBodyTooLarge => true
  | Wrapped _ cause => sizeLimitError cause
  | Formatted _ about => sizeLimitError about
  | _ => bool_decide (err = engine.SizeLimitExceeded)
  end.

(** The bytes the body can still deliver: what the limiter allows, or
    what the connection holds when the body is not wrapped. *)
Definition room (st : UploadState) : Z :=
  match limiter st with
  | Some l => mb_n l
  | None => wire_left st
  end.

(** The limiter, if there is one, has not met an error. *)
Definition unsettled (st : UploadState) : Prop :=
  match limiter st with
  | Some l => mb_err l = None
  | None => True
  end /\ 0 <= room st.

(** The limiter has settled on the size error: from now on every read of
    the body fails with it and leaves the connection alone. *)
Definition settled (st : UploadState) : Prop :=
  exists l, limiter st = Some l /\ mb_err l = Some ErrBodyTooLarge.

(** [st'] is [st] after [k] more bytes of the body were read and
    delivered. *)
Definition advanced (k : Z) (st st' : UploadState) : Prop :=
  wire_left st' = wire_left st - k /\ room st' = room st - k /\
  unsettled st' /\ ClosingLen st' = ClosingLen st.

(** [st'] is [st] after the reads ran into the cap: the limiter has
    settled, and one byte more than it allowed was taken from the
    connection. *)
Definition overran (st st' : UploadState) : Prop :=
  settled st' /\ wire_left st - wire_left st' = room st + 1.

(** A piece of the upload that reads [need] bytes of a body that holds
    them: when the limiter allows them it ends in a [good] result with
    the bytes delivered, and otherwise in a [bad] one with the limiter
    settled. *)
Definition reads {A} (need : Z) (m : M UploadState A) (st : UploadState)
    (good : Res A -> UploadState -> Prop) (bad : Res A -> Prop) : Prop :=
  0 <= need <= wire_left st -> unsettled st ->
  exists r st',
    m st = (r, st') /\
    if need <=? room st then good r st' /\ advanced need st st'
    else bad r /\ overran st st'.

(** A result that is an error reporting the size limit. *)
Definition failsOver {A} (r : Res A) : Prop :=
  exists e, r = Fail e /\ sizeLimitError e = true.

(** What the session leaves alone: the connection, the limiter and the
    length of the closing delimiter. *)
Definition same_wire (st st' : UploadState) : Prop :=
  wire_left st' = wire_left st /\ limiter st' = limiter st /\
  ClosingLen st' = ClosingLen st.

(** What the readers of the body leave alone besides the session: the
    parts and the unread content of the current part. *)
Definition same_part (st st' : UploadState) : Prop :=
  pending st' = pending st /\ current_left st' = current_left st.

(** The bytes of a list of parts on the wire, with the closing
    delimiter. *)
Definition wireLen (parts : list Part) (closing : Z) : Z :=
  fold_right (fun p acc => DelimiterLen p + HeaderLen p + ContentLen p + acc)
             closing parts.

(** [nextFile] hands the part to [gzip.NewReader]. *)
Definition compressed (p : Part) : bool :=
  strings.HasSuffix (FileName p) ".gz" && negb (strings.HasSuffix (FormName p) ".gz").

(** A part of a well-formed upload: its lengths are not negative, its
    form name is a path inside the project root, and when it is
    transferred compressed its content starts with a gzip header. *)
Definition wellFormed (p : Part) : Prop :=
  0 <= DelimiterLen p /\ 0 <= HeaderLen p /\ 0 <= ContentLen p /\
  engine.escapesRoot (FormName p) = false /\
  (compressed p = true -> GzipHeaderOk p = true).

(** The file services of a user with the engine of the design. *)
Definition engineServer (user : domain.User) (clock : nat -> Z) : FileServer :=
  {| GetUser := Ok user;
     projects_UpdateFiles := engine.UpdateFiles (engine.cap user);
     clock := clock |}.

(** What the handler of [handleUpload] does once the body is wrapped:
    the info part is decoded and the engine is called. *)
Definition uploadBody (s : FileServer) (user : domain.User) (projectName : string) :
    M UploadState Reply :=
  let* part := multipart.NextPart in
  let* info := decodeInfo part in
  modify (set_uploadProgress ∅) >>
  let* now := time_Now s in
  modify (set_lastNotification now) >>
  let changes := {| domain.Updates := info; domain.Removes := [] |} in
  projects_UpdateFiles s projectName changes (Some (nextFile s user)) >>
  ret (NoContent 200).

(** The snapshot of the progress map sent to the user of the upload. *)
Definition finalSnapshot (user : domain.User) (st : UploadState) : Notification :=
  {| To := domain.Username user; EventName := "UploadProgress";
     Payload := uploadProgress st |}.

(** One check of the authorization loops of [handleMapOws]: the body of
    each of the three loops, for the flag of its kind. *)
Definition check (layersData : domain.LayersData) (settings : domain.ProjectSettings)
    (user : domain.User) (kind : OpKind) (typeName : string) : M OwsState unit :=
  let* perm := getLayerPermissions layersData settings user typeName in
  if negb (grants kind perm) then throw ErrUnauthorized else ret tt.

(** The state in which the authorization loops stop at an operation, when
    they were entered in the state [st] with the empty cache: the
    permission of its layer was computed and stored. *)
Definition stopped_at (layersData : domain.LayersData)
    (settings : domain.ProjectSettings) (user : domain.User)
    (st : OwsState) (op : OpKind * string) : OwsState :=
  {| perms := {[layerID layersData (snd op) :=
                  resolve layersData settings user (snd op)]};
     trace := trace st ++ [CallUserLayerPermissions (layerID layersData (snd op));
                           Resolved (layerID layersData (snd op)) NoPermission];
     written := written st |}.

(** The request [handleMapOws] hands to the reverse proxy: the request of
    the client with the [MAP] parameter set to the path of the project's
    definition file. *)
Definition forwarded (L : Lib) (c : Context) (pInfo : domain.ProjectInfo) : Request :=
  let owsProject :=
    filepath.Join ["/publish"; getProjectName c; domain.QgisFile pInfo] in
  let query := <["MAP" := [owsProject]]> (url_Query L (RawQuery (Url (Req c)))) in
  {| Method := Method (Req c);
     Url := {| Scheme := Scheme (Url (Req c)); Host := Host (Url (Req c));
               Path := Path (Url (Req c)); RawQuery := Values_Encode L query |};
     Header := Header (Req c); Body := Body (Req c) |}.

(** How the proxy ends once the director has produced the outgoing
    request: it returns, unless the copy of the backend's response to the
    client fails. *)
Definition proxyOutcome (L : Lib) (outreq : Request) : Res unit :=
  match RoundTrip L (outgoing L outreq) with
  | Ok res =>
      match copyResponse L res with
      | None => Val tt
      | Some _ => Panic ErrAbortHandler
      end
  | Err _ => Val tt
  end.

(** The block of [handleMapOws] that authorizes a WFS transaction. *)
Definition wfsGate (L : Lib) (s : Server) (c : Context) (params : OwsRequestParams)
    (settings : domain.ProjectSettings) : M OwsState unit :=
  if String.eqb (Service params) "WFS" && String.eqb (Request_ params) "" then
    let projectName := strings.TrimSuffix (Map params) (filepath.Ext (Map params)) in
    emit (CallGetLayersData projectName) >>
    match projects_GetLayersData s projectName with
    | Err err => throw err
    | Ok layersData =>
        match xml_Unmarshal L (Body (Req c)) with
        | Err err => throw err
        | Ok wfsTransaction =>
            authorize (getLayerPermissions layersData settings (fst (auth_GetUser s c)))
                      wfsTransaction
        end
    end
  else ret tt.

(** The state of the handler once the project and its settings are
    loaded. *)
Definition loaded (c : Context) : OwsState :=
  {| perms := ∅;
     trace := [CallGetProjectInfo (getProjectName c);
               CallGetSettings (getProjectName c)];
     written := None |}.

(** ** A published and a draft project behind the gateway

    The concrete services the closed statements below run the handlers
    with: one project [admin/world] with the definition file [world.qgs],
    one known layer [parcels], and settings that grant every user every
    flag on every layer. *)

Module example.

Definition target : URL :=
  {| Scheme := "http"; Host := "qgis-server:90";
     Path := "/cgi-bin/qgis_mapserv.fcgi"; RawQuery := "" |}.

Definition allGranted : domain.LayerPermission :=
  {| domain.View := true; domain.Insert := true;
     domain.Update := true; domain.Delete := true |}.

Definition settings : domain.ProjectSettings := fun _ _ => allGranted.

Definition layersData : domain.LayersData :=
  {| domain.LayerNameToID := {["parcels" := "parcels_7c1"]} |}.

Definition editor : domain.User :=
  {| domain.Username := "editor"; domain.IsSuperuser := false |}.

Definition admin : domain.User :=
  {| domain.Username := "admin"; domain.IsSuperuser := true |}.

(** A transaction with one update of the layer [parcels]. *)
Definition updateParcels : Transaction :=
  {| Updates := [{| Update_TypeName := "public:parcels" |}];
     Inserts := []; Deletes := [] |}.

(** The query is kept as pairs [key=value] joined with [&]. *)
Definition encode (q : Values) : string :=
  strings.Join (map (fun kv => fst kv ++ "=" ++ strings.Join (snd kv) ",")
                    (map_to_list q)) "&".

Definition backendResponse : Response :=
  {| StatusCode := 200; ResponseBody := "<ServiceResponse/>" |}.

Definition lib (params : OwsRequestParams) (tx : Transaction) : Lib :=
  {| url_Parse := fun _ => Some target;
     url_Query := fun _ => {["SERVICE" := [Service params]]};
     Values_Encode := encode;
     BindQueryParams := fun _ => Ok params;
     xml_Unmarshal := fun _ => Ok tx;
     proxy_Header := fun header =>
       <["X-Forwarded-For" := ["10.0.0.7"]]> (delete "Connection" header);
     RoundTrip := fun _ => Ok backendResponse;
     copyResponse := fun _ => None |}.

(** Settings that let every user view every layer and change none. *)
Definition viewOnly : domain.ProjectSettings := fun _ _ =>
  {| domain.View := true; domain.Insert := false;
     domain.Update := false; domain.Delete := false |}.

(** Settings that grant every flag on the layer [parcels] and let every
    user only view any other layer. *)
Definition parcelsOnly : domain.ProjectSettings := fun user id =>
  if String.eqb id "parcels_7c1" then allGranted else viewOnly user id.

(** A transaction with an update of the layer [parcels] and a deletion
    on the layer [roads]. *)
Definition updateThenDelete : Transaction :=
  {| Updates := [{| Update_TypeName := "public:parcels" |}];
     Inserts := [];
     Deletes := [{| Delete_TypeName := "public:roads" |}] |}.

(** The server with the project [admin/world] in the given state and
    with the given settings. *)
Definition server (state : string) (settings : domain.ProjectSettings) : Server :=
  {| Config_MapserverURL := "http://qgis-server:90/cgi-bin/qgis_mapserv.fcgi";
     projects_GetProjectInfo := fun name =>
       if String.eqb name "admin/world"
       then Ok {| domain.QgisFile := "world.qgs"; domain.State := state |}
       else Err ErrProjectNotExists;
     projects_GetSettings := fun _ => Ok settings;
     projects_GetLayersData := fun name =>
       if String.eqb name "admin/world" then Ok layersData
       else Err ErrProjectNotExists;
     auth_GetUser := fun _ => (editor, None) |}.

Definition wfsParams : OwsRequestParams :=
  {| Map := "admin/world.qgs"; Service := "WFS"; Request_ := "" |}.

Definition wmsParams : OwsRequestParams :=
  {| Map := "admin/world.qgs"; Service := "WMS"; Request_ := "GetMap" |}.

(** A request to [/api/map/ows/admin/world]. *)
Definition context (method body : string) : Context :=
  {| Param_user := "admin"; Param_name := "world";
     Req := {| Method := method;
               Url := {| Scheme := ""; Host := ""; Path := "/api/map/ows/admin/world";
                         RawQuery := "SERVICE=WFS" |};
               Header := ∅; Body := body |} |}.

(** An upload of two files: the part with the upload info, a small
    file and a large file. The declared sizes of the two files add up to
    exactly [MaxProjectSize], so that the body, which also holds the
    upload info and the framing, is larger than the cap. *)
Definition infoPart : Part :=
  {| FormName := "info"; FileName := ""; DelimiterLen := 16; HeaderLen := 104;
     ContentLen := 96;
     AsJSON := Ok [{| domain.Path := "data/a.geojson"; domain.Size := 120 |};
                   {| domain.Path := "data/big.tif"; domain.Size := 104857480 |}];
     GzipHeaderOk := false; Inflated := 0 |}.

Definition smallPart : Part :=
  {| FormName := "data/a.geojson"; FileName := "a.geojson";
     DelimiterLen := 18; HeaderLen := 122; ContentLen := 120;
     AsJSON := Err (ErrOther "invalid character"); GzipHeaderOk := false;
     Inflated := 0 |}.

Definition bigPart : Part :=
  {| FormName := "data/big.tif"; FileName := "big.tif";
     DelimiterLen := 18; HeaderLen := 122; ContentLen := 104857480;
     AsJSON := Err (ErrOther "invalid character"); GzipHeaderOk := false;
     Inflated := 0 |}.

(** A part named as a gzip transfer of [data/b.geojson] whose content is
    not a gzip stream. *)
Definition notGzipPart : Part :=
  {| FormName := "data/b.geojson"; FileName := "b.geojson.gz";
     DelimiterLen := 18; HeaderLen := 122; ContentLen := 64;
     AsJSON := Err (ErrOther "invalid character"); GzipHeaderOk := false;
     Inflated := 0 |}.

(** The file services: the given user, the engine of the design with
    the cap that binds this user, and a clock that advances one
    millisecond per reading. *)
Definition fileServer (user : domain.User) : FileServer :=
  {| GetUser := Ok user;
     projects_UpdateFiles := engine.UpdateFiles (engine.cap user);
     clock := fun n => 1000000 * Z.of_nat n |}.

Definition uploadRequest : UploadRequest :=
  {| MediaType := Ok ("multipart/form-data", {["boundary" := "----gisquick"]});
     project := "admin/world" |}.

End example.

(** ** Further words for the properties of the handlers *)

(** [for _, x := range xs { ys = append(ys, f(x)) }]. *)
Fixpoint mapM {St A B} (f : A -> M St B) (xs : list A) : M St (list B) :=
  match xs with
  | [] => ret []
  | x :: rest =>
      let* y := f x in
      let* ys := mapM f rest in
      ret (y :: ys)
  end.

(** The cache of a request agrees with the settings and with the record of
    the permissions computed: every entry is what the settings give for
    its layer, and the layers computed are, once each, the layers in the
    cache. *)
Definition cache_ok (settings : domain.ProjectSettings) (user : domain.User)
    (st : OwsState) : Prop :=
  (forall id p, perms st !! id = Some p ->
                p = domain.UserLayerPermissions settings user id) /\
  NoDup (permission_calls (trace st)) /\
  (forall id, id ∈ permission_calls (trace st) <-> is_Some (perms st !! id)).

(** A path element without a separator that [filepath.Clean] keeps as it
    is: not empty, not [.] and not [..]. *)
Definition plainElem (elem : string) : bool :=
  negb (String.eqb elem "") && negb (String.eqb elem ".")
  && negb (String.eqb elem "..")
  && forallb (fun ch => negb (Ascii.eqb ch "/")) (list_ascii_of_string elem).

(** ** The other handlers of the project routes

    The handlers below talk to the project service only through calls
    whose results they inspect. A handler is a computation over the record
    of the calls made so far; what a call answers may depend on that
    record, since the service keeps the projects. *)

Module project.

(** [domain.ProjectInfo] with the fields that [handleGetProjectFullInfo]
    copies besides the two of [domain.ProjectInfo] above. *)
Record Info : Type := {
  Core : domain.ProjectInfo;
  Title : string;
  Created : Z;
  LastUpdate : Z;
  Size : Z;
  Thumbnail : bool
}.

(** [domain.ScriptModule]: the fields [handleScriptUpload] reads. *)
Record ScriptModule : Type := {
  ScriptPath : string;
  Components : list string
}.

(** [domain.Scripts], a map from module names. *)
Abbreviation Scripts := (gmap string ScriptModule).

(** A value of a [map[string]interface{}]: a number, or any other value
    kept as its JSON text. *)
Inductive Value : Type :=
| Number (n : Z)
| Raw (json : string).

(** The [FullInfo] reply of [handleGetProjectFullInfo]; [Settings] is a
    pointer and [Scripts] a map, both nil when not set. *)
Record FullInfo : Type := {
  Name : string;
  FTitle : string;
  FCreated : Z;
  FLastUpdate : Z;
  FState : string;
  FSize : Z;
  FThumbnail : bool;
  Meta : string;
  Settings : option domain.ProjectSettings;
  FScripts : option Scripts
}.

End project.

(** The calls of the handlers to the project service and to the map
    server. *)
Inductive ServiceCall : Type :=
| SvcGetProjectInfo (projectName : string)
| SvcGetMapConfig (projectName : string) (user : domain.User)
| SvcListProjectFiles (projectName : string) (checksum : bool)
| SvcDelete (projectName : string)
| SvcCreate (username name data : string)
| SvcUpdateMeta (projectName data : string)
| SvcUpdateSettings (projectName data : string)
| SvcGetQgisMetadata (projectName : string)
| SvcGetSettings (projectName : string)
| SvcGetScripts (projectName : string)
| SvcUpdateFiles (projectName : string) (changes : domain.FilesChanges)
| SvcUpdateScripts (projectName : string) (scripts : project.Scripts)
| SvcReload (url : URL).

(** Handler code over the record of the calls made, oldest first. *)
Abbreviation H := (M (list ServiceCall)).

(** A call: it is recorded, and its result is what the service answers
    after the calls made before. *)
Definition invoke {A} (call : ServiceCall) (answer : list ServiceCall -> A) : H A :=
  fun calls => (Val (answer calls), (calls ++ [call])%list).

(** [multipart.File] by its content, and [multipart.FileHeader] with what
    [Open] returns. *)
Record FileHeader : Type := {
  Filename : string;
  FileSize : Z;
  Open : result string
}.

(** The content provider [handleScriptUpload] gives to [UpdateFiles]: a
    computation over the index [findex] it closes over. *)
Abbreviation ScriptProvider := (M nat (string * string)).

(** The project service and the map server behind the handlers of the
    project routes. Each result is a function of the calls made before. *)
Record Projects : Type := {
  svc_GetProjectInfo : list ServiceCall -> string -> result project.Info;
  svc_GetMapConfig :
    list ServiceCall -> string -> domain.User -> result (gmap string project.Value);
  svc_ListProjectFiles :
    list ServiceCall -> string -> bool -> result (list domain.ProjectFile);
  svc_Delete : list ServiceCall -> string -> option error;
  svc_Create : list ServiceCall -> string -> string -> string -> result project.Info;
  svc_UpdateMeta : list ServiceCall -> string -> string -> option error;
  svc_UpdateSettings : list ServiceCall -> string -> string -> option error;
  svc_GetQgisMetadata : list ServiceCall -> string -> result string;
  svc_GetSettings : list ServiceCall -> string -> result domain.ProjectSettings;
  svc_GetScripts : list ServiceCall -> string -> result (option project.Scripts);
  svc_UpdateScripts : list ServiceCall -> string -> project.Scripts -> option error;
  svc_UpdateFiles :
    list ServiceCall -> string -> domain.FilesChanges -> ScriptProvider ->
    M nat (list domain.ProjectFile);
  svc_Reload : list ServiceCall -> URL -> result Response;
  svc_MapserverURL : string;
  svc_url_Parse : string -> result URL
}.

(** What a handler of the project routes answers when it returns nil. *)
Inductive Answer : Type :=
| AnswerNoContent (code : Z)
| AnswerFiles (code : Z) (files : list domain.ProjectFile)
| AnswerInfo (code : Z) (info : project.Info)
| AnswerFullInfo (code : Z) (data : project.FullInfo)
| AnswerScripts (code : Z) (scripts : project.Scripts)
| AnswerMap (code : Z) (data : gmap string project.Value).

(** The error answered for a project that does not exist. *)
Definition ErrProjectMissing : error := HTTPError 400 "Project does not exists".

(** [handleGetProject]; [user] is what [s.auth.GetUser(c)] returns, whose
    error is overwritten unread by the next assignment. *)
Definition handleGetProject (p : Projects) (c : Context) (user : domain.User)
  : H Answer :=
  let projectName := getProjectName c in
  let* r := invoke (SvcGetProjectInfo projectName)
                   (fun calls => svc_GetProjectInfo p calls projectName) in
  match r with
  | Err err =>
      if errors_Is err ErrProjectNotExists then throw ErrNotFound else throw err
  | Ok info =>
      if negb (String.eqb (domain.State (project.Core info)) "published") then
        throw (HTTPError 400 "Project not valid")
      else
        let* r := invoke (SvcGetMapConfig projectName user)
                         (fun calls => svc_GetMapConfig p calls projectName user) in
        match r with
        | Err err => throw err
        | Ok data =>
            let data := <["status" := project.Number 200]> data in
            ret (AnswerMap 200 data)
        end
  end.

(** [handleGetProjectFiles]. *)
Definition handleGetProjectFiles (p : Projects) (projectName : string) : H Answer :=
  let* r := invoke (SvcListProjectFiles projectName true)
                   (fun calls => svc_ListProjectFiles p calls projectName true) in
  match r with
  | Err err =>
      if errors_Is err ErrProjectNotExists then throw ErrProjectMissing
      else throw (Wrapped "handleGetProjectFiles" err)
  | Ok files => ret (AnswerFiles 200 files)
  end.

(** [handleDeleteProject]. *)
Definition handleDeleteProject (p : Projects) (projectName : string) : H Answer :=
  let* r := invoke (SvcDelete projectName) (fun calls => svc_Delete p calls projectName) in
  match r with
  | Some err =>
      if errors_Is err ErrProjectNotExists then throw ErrProjectMissing
      else throw err
  | None => ret (AnswerNoContent 200)
  end.

(** [handleGetProjectInfo]. *)
Definition handleGetProjectInfo (p : Projects) (projectName : string) : H Answer :=
  let* r := invoke (SvcGetProjectInfo projectName)
                   (fun calls => svc_GetProjectInfo p calls projectName) in
  match r with
  | Err err =>
      if errors_Is err ErrProjectNotExists then throw ErrProjectMissing
      else throw (Wrapped "handleGetProjectInfo" err)
  | Ok info => ret (AnswerInfo 200 info)
  end.

(** [domain.ErrProjectAlreadyExists], told from other errors by its
    message. *)
Definition ErrProjectAlreadyExists : error := ErrOther "project already exists".

(** [MB] and [MaxJSONSize]. *)
Definition MB : Z := 1024 * 1024.
Definition MaxJSONSize : Z := 1 * MB.

(** A request body holding a JSON document: the number of bytes the
    decoder reads to get the first JSON value, and what it decodes them
    to. *)
Record JSONBody : Type := {
  DocLen : Z;
  Doc : result string
}.

(** [json.NewDecoder(req.Body).Decode(&data)] into a [json.RawMessage],
    with [req.Body] wrapped in [http.MaxBytesReader(w, req.Body, limit)]:
    the decoder reads the document through the limiter and fails with the
    error of the read when the limiter cuts it short. *)
Definition decodeLimited (limit : Z) (body : JSONBody) : result string :=
  let st := set_limiter (Some (http.MaxBytesReader limit))
              (set_wire_left (DocLen body) (UploadState_init [] 0 [])) in
  match fst (Body_Read (DocLen body) st) with
  | Val (_, Some err) => Err err
  | Val (_, None) => Doc body
  | Fail err => Err err
  | Panic why => Err (ErrOther why)
  end.

(** [handleCreateProject]. *)
Definition handleCreateProject (p : Projects) (c : Context) (body : JSONBody)
  : H Answer :=
  match decodeLimited MaxJSONSize body with
  | Err _ => throw (HTTPError 400 "Invalid request data")
  | Ok data =>
      let username := Param_user c in
      let name := Param_name c in
      let* r := invoke (SvcCreate username name data)
                       (fun calls => svc_Create p calls username name data) in
      match r with
      | Err err =>
          if errors_Is err ErrProjectAlreadyExists
          then throw (HTTPError 409 "Project already exists")
          else throw err
      | Ok info => ret (AnswerInfo 200 info)
      end
  end.

(** [handleUpdateProjectMeta]. *)
Definition handleUpdateProjectMeta (p : Projects) (projectName : string)
    (body : JSONBody) : H Answer :=
  match decodeLimited MaxJSONSize body with
  | Err _ => throw (HTTPError 400 "Invalid request data")
  | Ok data =>
      let* r := invoke (SvcUpdateMeta projectName data)
                       (fun calls => svc_UpdateMeta p calls projectName data) in
      match r with
      | Some err =>
          if errors_Is err ErrProjectNotExists
          then throw (HTTPError 409 "Project does not exists")
          else throw err
      | None => ret (AnswerNoContent 200)
      end
  end.

(** [handleSaveProjectSettings]: the handler returns what [UpdateSettings]
    returns, so a nil return leaves the response unwritten. *)
Definition handleSaveProjectSettings (p : Projects) (projectName : string)
    (body : JSONBody) : H (option Answer) :=
  match decodeLimited MaxJSONSize body with
  | Err _ => throw (HTTPError 400 "Invalid request data")
  | Ok data =>
      let* r := invoke (SvcUpdateSettings projectName data)
                       (fun calls => svc_UpdateSettings p calls projectName data) in
      match r with
      | Some err => throw err
      | None => ret None
      end
  end.

(** [handleGetProjectFullInfo]. *)
Definition handleGetProjectFullInfo (p : Projects) (projectName : string) : H Answer :=
  let* r := invoke (SvcGetProjectInfo projectName)
                   (fun calls => svc_GetProjectInfo p calls projectName) in
  match r with
  | Err err =>
      if errors_Is err ErrProjectNotExists then throw ErrProjectMissing
      else throw (Wrapped "[handleGetProjectInfo] loading project info" err)
  | Ok info =>
      let* r := invoke (SvcGetQgisMetadata projectName)
                       (fun calls => svc_GetQgisMetadata p calls projectName) in
      match r with
      | Err err => throw (Wrapped "[handleGetProjectInfo] loading qgis meta" err)
      | Ok meta =>
          let* settings :=
            (if negb (String.eqb (domain.State (project.Core info)) "empty") then
               let* r := invoke (SvcGetSettings projectName)
                                (fun calls => svc_GetSettings p calls projectName) in
               match r with
               | Ok settings => ret (Some settings)
               | Err _ => ret None
               end
             else ret None) in
          let* r := invoke (SvcGetScripts projectName)
                           (fun calls => svc_GetScripts p calls projectName) in
          let scripts := match r with Ok scripts => scripts | Err _ => None end in
          ret (AnswerFullInfo 200
                 {| project.Name := projectName;
                    project.FTitle := project.Title info;
                    project.FCreated := project.Created info;
                    project.FLastUpdate := project.LastUpdate info;
                    project.FState := domain.State (project.Core info);
                    project.FSize := project.Size info;
                    project.FThumbnail := project.Thumbnail info;
                    project.Meta := meta;
                    project.Settings := settings;
                    project.FScripts := scripts |})
      end
  end.

(** [handleGetMap]: the handler behind the map routes of the project
    administration; [projectName] is what the access middleware stored
    under [project]. Its reverse proxy has a director with the body of
    the director of [handleMapOws] and an error handler that only logs,
    so a failed round trip writes nothing. *)
Definition handleGetMap (L : Lib) (s : Server) (projectName : string) (req : Request)
  : M OwsState unit :=
  emit (CallGetProjectInfo projectName) >>
  match projects_GetProjectInfo s projectName with
  | Err err =>
      if errors_Is err ErrProjectNotExists then throw ErrProjectMissing
      else throw err
  | Ok p =>
      let owsProject := filepath.Join ["/publish/"; projectName; domain.QgisFile p] in
      let query := url_Query L (RawQuery (Url req)) in
      let query := <["MAP" := [owsProject]]> query in
      let url := {| Scheme := Scheme (Url req); Host := Host (Url req);
                    Path := Path (Url req); RawQuery := Values_Encode L query |} in
      let req := {| Method := Method req; Url := url;
                    Header := Header req; Body := Body req |} in
      ReverseProxy_ServeHTTP L (director L s) (ret tt) req
  end.

(** [handleProjectReload]; [encode] is [url.Values.Encode]. The request
    is built from the configured address with [/reload] joined to its
    path and the path of the definition file as the [project] parameter. *)
Definition handleProjectReload (p : Projects) (encode : Values -> string)
    (projectName : string) : H Answer :=
  let* r := invoke (SvcGetProjectInfo projectName)
                   (fun calls => svc_GetProjectInfo p calls projectName) in
  match r with
  | Err err =>
      if errors_Is err ErrProjectNotExists then throw ErrProjectMissing
      else throw err
  | Ok info =>
      let owsProject :=
        filepath.Join ["/publish/"; projectName; domain.QgisFile (project.Core info)] in
      let params : Values := {["project" := [owsProject]]} in
      match svc_url_Parse p (svc_MapserverURL p) with
      | Err err => throw (Wrapped "[handleProjectReload] building request" err)
      | Ok url =>
          let url := {| Scheme := Scheme url; Host := Host url;
                        Path := filepath.Join [Path url; "/reload"];
                        RawQuery := encode params |} in
          let* r := invoke (SvcReload url) (fun calls => svc_Reload p calls url) in
          match r with
          | Err err => throw (Wrapped "mapserver request" err)
          | Ok resp =>
              if negb (StatusCode resp =? 200) then
                throw (ErrOther ("reloading project on qgis server: " ++ ResponseBody resp))
              else ret (AnswerNoContent 200)
          end
      end
  end.

(** [echo.ErrBadRequest]. *)
Definition ErrBadRequest : error := HTTPError 400 "Bad Request".

(** The [Data] of [handleScriptUpload]: a script module and its name. *)
Record ScriptData : Type := {
  ModuleName : string;
  Script : project.ScriptModule
}.

(** The request of [handleScriptUpload]: what [ParseMultipartForm]
    returns, what [json.Unmarshal] makes of the form value [info], and
    the files of the form in the order in which the handler ranges over
    them. *)
Record ScriptUpload : Type := {
  ParseMultipartForm : option error;
  InfoValue : result ScriptData;
  MultipartForm : result (list (string * list FileHeader))
}.

(** The two loops of [handleScriptUpload] over the files of the form. *)
Definition collectFiles (form : list (string * list FileHeader))
  : list domain.ProjectFile * list FileHeader :=
  fold_left
    (fun acc nf =>
       fold_left
         (fun acc fh =>
            let path := filepath.Join ["web"; "components"; Filename fh] in
            ((fst acc ++ [{| domain.Path := path; domain.Size := FileSize fh |}])%list,
             (snd acc ++ [fh])%list))
         (snd nf) acc)
    form ([], []).

(** The closure [nextFile] of [handleScriptUpload] over [findex]. *)
Definition scriptNextFile (files : list FileHeader)
    (filesMeta : list domain.ProjectFile) : ScriptProvider :=
  fun findex =>
    if (length files <=? findex)%nat || (length filesMeta <=? findex)%nat then
      (Fail EOF, findex)
    else
      match files !! findex, filesMeta !! findex with
      | Some f, Some meta =>
          match Open f with
          | Err err => (Fail err, findex)
          | Ok file => (Val (domain.Path meta, file), S findex)
          end
      | _, _ => (Panic "index out of range", findex)
      end.

(** [handleScriptUpload]. *)
Definition handleScriptUpload (p : Projects) (projectName : string)
    (c : ScriptUpload) : H Answer :=
  match ParseMultipartForm c with
  | Some err => throw err
  | None =>
      match InfoValue c with
      | Err _ => throw ErrBadRequest
      | Ok info =>
          if String.eqb (ModuleName info) ""
             || (length (project.Components (Script info)) <? 1)%nat
          then throw (HTTPError 400 "Invalid script module data")
          else
            match MultipartForm c with
            | Err err => throw err
            | Ok form =>
                let filesMeta := fst (collectFiles form) in
                let files := snd (collectFiles form) in
                let changes := {| domain.Updates := filesMeta; domain.Removes := [] |} in
                let* r := invoke (SvcUpdateFiles projectName changes)
                            (fun calls =>
                               fst (svc_UpdateFiles p calls projectName changes
                                      (scriptNextFile files filesMeta) 0%nat)) in
                match r with
                | Fail err =>
                    throw (Wrapped "[handleScriptUpload] saving script file" err)
                | Panic why => panic why
                | Val _ =>
                    let* r := invoke (SvcGetScripts projectName)
                                (fun calls => svc_GetScripts p calls projectName) in
                    match r with
                    | Err err =>
                        throw (Wrapped "[handleScriptUpload] getting scripts metadata" err)
                    | Ok scripts =>
                        let scripts := default ∅ scripts in
                        let module :=
                          {| project.ScriptPath :=
                               filepath.Join ["components"; project.ScriptPath (Script info)];
                             project.Components := project.Components (Script info) |} in
                        let scripts := <[ModuleName info := module]> scripts in
                        let* r := invoke (SvcUpdateScripts projectName scripts)
                                    (fun calls => svc_UpdateScripts p calls projectName scripts) in
                        match r with
                        | Some err =>
                            throw (Wrapped "[handleScriptUpload] updating scripts metadata" err)
                        | None => ret (AnswerScripts 200 scripts)
                        end
                    end
                end
            end
      end
  end.

(** ** A sample project service

    The service the closed statements on the project routes run with: the
    one project [admin/world], no settings file, no scripts yet, and a
    map server that answers a reload with the status 500. *)

Module sample.

Definition info (state : string) : project.Info :=
  {| project.Core := {| domain.QgisFile := "world.qgs"; domain.State := state |};
     project.Title := "World"; project.Created := 1650000000;
     project.LastUpdate := 1650000600; project.Size := 2048;
     project.Thumbnail := false |}.

Definition config : gmap string project.Value :=
  {["name" := project.Raw "admin/world"; "status" := project.Number 0]}.

(** A file engine that asks the provider for streams until it fails or
    ends, at most [n] times, and keeps what it got. *)
Fixpoint drain (n : nat) (next : ScriptProvider) : M nat (list domain.ProjectFile) :=
  match n with
  | O => ret []
  | S n' =>
      let* r := try next in
      match r with
      | Err EOF => ret []
      | Err err => throw err
      | Ok (path, content) =>
          let* rest := drain n' next in
          ret ({| domain.Path := path;
                  domain.Size := Z.of_nat (String.length content) |} :: rest)
      end
  end.

Definition projects (state : string) : Projects :=
  {| svc_GetProjectInfo := fun _ name =>
       if String.eqb name "admin/world" then Ok (info state)
       else Err (Wrapped "loading project" ErrProjectNotExists);
     svc_GetMapConfig := fun _ _ _ => Ok config;
     svc_ListProjectFiles := fun _ name _ =>
       if String.eqb name "admin/world" then Ok []
       else Err (ErrOther "permission denied");
     svc_Delete := fun _ name =>
       if String.eqb name "admin/world" then None else Some ErrProjectNotExists;
     svc_Create := fun _ _ _ _ => Ok (info "empty");
     svc_UpdateMeta := fun _ name _ =>
       if String.eqb name "admin/world" then None else Some ErrProjectNotExists;
     svc_UpdateSettings := fun _ _ _ => None;
     svc_GetQgisMetadata := fun _ _ => Ok "{}";
     svc_GetSettings := fun _ _ => Err (ErrOther "settings file missing");
     svc_GetScripts := fun _ _ => Ok None;
     svc_UpdateScripts := fun _ _ _ => None;
     svc_UpdateFiles := fun _ _ changes next =>
       drain (S (length (domain.Updates changes))) next;
     svc_Reload := fun _ _ =>
       Ok {| StatusCode := 500; ResponseBody := "project not found" |};
     svc_MapserverURL := "http://qgis-server:90/cgi-bin/qgis_mapserv.fcgi";
     svc_url_Parse := fun _ => Ok example.target |}.

(** An upload of the script module [charts] with two component files. *)
Definition chartFiles : list (string * list FileHeader) :=
  [("files", [{| Filename := "charts.umd.js"; FileSize := 18; Open := Ok "export default {};" |};
              {| Filename := "charts.css"; FileSize := 9; Open := Ok ".chart {}" |}])].

Definition chartsUpload : ScriptUpload :=
  {| ParseMultipartForm := None;
     InfoValue := Ok {| ModuleName := "charts";
                        Script := {| project.ScriptPath := "charts.umd.js";
                                     project.Components := ["Charts"] |} |};
     MultipartForm := Ok chartFiles |}.

End sample.

(** * The library functions on the values of the handlers *)

Example Split_typeName : strings.Split "public:parcels" ":" = ["public"; "parcels"].
Proof. reflexivity. Qed.

Example Split_empty : strings.Split "" ":" = [""].
Proof. reflexivity. Qed.

Example Ext_qgs : filepath.Ext "admin/world.qgs" = ".qgs".
Proof. reflexivity. Qed.

Example Ext_dir_dot : filepath.Ext "a.b/world" = "".
Proof. reflexivity. Qed.

Example TrimSuffix_qgs :
  strings.TrimSuffix "admin/world.qgs" (filepath.Ext "admin/world.qgs") = "admin/world".
Proof. reflexivity. Qed.

Example Join_publish :
  filepath.Join ["/publish"; "admin/world"; "world.qgs"] = "/publish/admin/world/world.qgs".
Proof. reflexivity. Qed.

Example Join_dotdot :
  filepath.Join ["/publish"; "admin/../.."; "x.qgs"] = "/x.qgs".
Proof. reflexivity. Qed.

Example Join_user_name : filepath.Join ["admin"; "world"] = "admin/world".
Proof. reflexivity. Qed.

Example Clean_rel : filepath.Clean "a//b/./../../../c/" = "../c".
Proof. reflexivity. Qed.

(** * Properties of the OWS handler *)

Section GetLayerPermissions.

Variables (layersData : domain.LayersData) (settings : domain.ProjectSettings)
          (user : domain.User).

Abbreviation glp := (getLayerPermissions layersData settings user).

(** A layer that is not in the cache: the permission is computed and
    stored, and the all-false permission is returned. *)
Lemma getLayerPermissions_miss (typeName : string) (st : OwsState) :
  perms st !! layerID layersData typeName = None ->
  glp typeName st =
    (Val NoPermission,
     {| perms := <[layerID layersData typeName :=
                     resolve layersData settings user typeName]> (perms st);
        trace := trace st ++ [CallUserLayerPermissions (layerID layersData typeName);
                              Resolved (layerID layersData typeName) NoPermission];
        written := written st |}).
Proof.
  intros Hmiss. unfold getLayerPermissions, bind, get_perms.
  fold (layerID layersData typeName). rewrite Hmiss. cbn.
  rewrite <- app_assoc. reflexivity.
Qed.

(** A layer that is in the cache: the cached permission is returned and
    the cache is left as it is. *)
Lemma getLayerPermissions_hit (typeName : string) (st : OwsState)
    (perm : domain.LayerPermission) :
  perms st !! layerID layersData typeName = Some perm ->
  glp typeName st =
    (Val perm,
     {| perms := perms st;
        trace := trace st ++ [Resolved (layerID layersData typeName) perm];
        written := written st |}).
Proof.
  intros Hhit. unfold getLayerPermissions, bind, get_perms.
  fold (layerID layersData typeName). rewrite Hhit. reflexivity.
Qed.

(** The first lookup of a layer answers all-false whatever the settings
    say; the second answers what the settings say. *)
Lemma getLayerPermissions_twice (typeName : string) (st : OwsState) :
  perms st !! layerID layersData typeName = None ->
  exists st1 st2,
    glp typeName st = (Val NoPermission, st1) /\
    glp typeName st1 = (Val (resolve layersData settings user typeName), st2).
Proof.
  intros Hmiss. eexists. eexists. split.
  - apply getLayerPermissions_miss, Hmiss.
  - apply getLayerPermissions_hit. cbn. apply lookup_insert_eq.
Qed.

(** With an empty cache a check fails, whatever the settings grant. *)
Lemma check_empty_cache (kind : OpKind) (typeName : string) (st : OwsState) :
  perms st = ∅ ->
  check layersData settings user kind typeName st =
    (Fail ErrUnauthorized,
     {| perms := {[layerID layersData typeName :=
                     resolve layersData settings user typeName]};
        trace := trace st ++ [CallUserLayerPermissions (layerID layersData typeName);
                              Resolved (layerID layersData typeName) NoPermission];
        written := written st |}).
Proof.
  intros Hempty. unfold check, bind.
  rewrite getLayerPermissions_miss by (rewrite Hempty; apply lookup_empty).
  rewrite Hempty. destruct kind; reflexivity.
Qed.

(** The loops of [authorize], started with the empty cache, pass a
    transaction without operations and stop with the authorization
    error at the first operation of any other. *)
Lemma authorize_empty_cache (tx : Transaction) (st : OwsState) :
  perms st = ∅ ->
  authorize glp tx st =
    match operations tx with
    | [] => (Val tt, st)
    | op :: _ => (Fail ErrUnauthorized, stopped_at layersData settings user st op)
    end.
Proof.
  intros Hempty. destruct tx as [us ins ds]. unfold authorize, operations. cbn [Updates Inserts Deletes].
  destruct us as [|u us].
  - cbn [forM_ map app]. unfold bind at 1. unfold ret at 1.
    assert (Hins : forall ins0,
      forM_ ins0 (fun i => forM_ (Objects i) (fun o =>
          let* perm := glp (XMLName_Local o) in
          if negb (domain.Insert perm) then throw ErrUnauthorized else ret tt)) st =
      match concat (map (fun i => map (fun o => (OpInsert, XMLName_Local o)) (Objects i)) ins0) with
      | [] => (Val tt, st)
      | op :: _ => (Fail ErrUnauthorized, stopped_at layersData settings user st op)
      end).
    { induction ins0 as [|i ins0 IH]; [reflexivity|].
      cbn [forM_ map concat]. destruct i as [os]. cbn [Objects].
      destruct os as [|o os].
      - cbn [forM_ map app]. unfold bind at 1, ret at 1. apply IH.
      - cbn [forM_ map app]. unfold bind at 1. unfold bind at 1.
        pose proof (check_empty_cache OpInsert (XMLName_Local o) st Hempty) as Hc.
        unfold check in Hc. cbn [grants] in Hc. rewrite Hc. reflexivity. }
    unfold bind at 1. rewrite Hins.
    destruct (concat _) as [|op ops]; [|reflexivity].
    cbn [app]. destruct ds as [|d ds]; [reflexivity|].
    cbn [forM_ map]. unfold bind at 1.
    pose proof (check_empty_cache OpDelete (Delete_TypeName d) st Hempty) as Hc.
    unfold check in Hc. cbn [grants] in Hc. rewrite Hc. reflexivity.
  - cbn [forM_ map app]. unfold bind at 1. unfold bind at 1.
    pose proof (check_empty_cache OpUpdate (Update_TypeName u) st Hempty) as Hc.
    unfold check in Hc. cbn [grants] in Hc. rewrite Hc. reflexivity.
Qed.

End GetLayerPermissions.


Lemma upstream_app (tr1 tr2 : list Event) :
  upstream (tr1 ++ tr2) = (upstream tr1 ++ upstream tr2)%list.
Proof. unfold upstream. apply omap_app. Qed.

Section HandleMapOws.

Variables (L : Lib) (s : Server) (c : Context).

(** Once the parameters are bound and the project and its settings are
    loaded, the handler is the authorization block followed by the
    proxy. *)
Lemma handleMapOws_phases (params : OwsRequestParams)
    (pInfo : domain.ProjectInfo) (settings : domain.ProjectSettings) :
  BindQueryParams L c = Ok params ->
  projects_GetProjectInfo s (getProjectName c) = Ok pInfo ->
  projects_GetSettings s (getProjectName c) = Ok settings ->
  run_handleMapOws L s c =
    (wfsGate L s c params settings >> ServeHTTP L s (forwarded L c pInfo)) (loaded c).
Proof.
  intros Hbind Hinfo Hsettings.
  unfold run_handleMapOws, handleMapOws. rewrite Hbind.
  unfold bind at 1. cbn [emit OwsState_init perms trace written app].
  rewrite Hinfo. unfold bind at 1. cbn [emit perms trace written app].
  rewrite Hsettings. reflexivity.
Qed.

(** Before the project and its settings are loaded the handler only
    returns errors: nothing is sent to the backend. *)
Lemma handleMapOws_early (outreq : Request) :
  outreq ∈ upstream (trace (snd (run_handleMapOws L s c))) ->
  exists params pInfo settings,
    BindQueryParams L c = Ok params /\
    projects_GetProjectInfo s (getProjectName c) = Ok pInfo /\
    projects_GetSettings s (getProjectName c) = Ok settings.
Proof.
  unfold run_handleMapOws, handleMapOws.
  destruct (BindQueryParams L c) as [params|e]; [|cbn; intros H; inversion H].
  unfold bind at 1. cbn [emit OwsState_init perms trace written app].
  destruct (projects_GetProjectInfo s (getProjectName c)) as [pInfo|e].
  2:{ destruct (errors_Is e ErrProjectNotExists); cbn; intros H; inversion H. }
  unfold bind at 1. cbn [emit perms trace written app].
  destruct (projects_GetSettings s (getProjectName c)) as [settings|e];
    [|cbn; intros H; inversion H].
  intros _. eauto 6.
Qed.

(** The authorization block, entered with the empty cache: it does not
    apply to a request that is not a WFS transaction; for a WFS
    transaction whose body is decoded it passes when the transaction has
    no operation and stops with the authorization error at the first
    operation otherwise. *)
Lemma wfsGate_other (params : OwsRequestParams)
    (settings : domain.ProjectSettings) (st : OwsState) :
  String.eqb (Service params) "WFS" && String.eqb (Request_ params) "" = false ->
  wfsGate L s c params settings st = (Val tt, st).
Proof. intros Hno. unfold wfsGate. rewrite Hno. reflexivity. Qed.

Lemma wfsGate_transaction (params : OwsRequestParams)
    (settings : domain.ProjectSettings) (layersData : domain.LayersData)
    (tx : Transaction) (st : OwsState) :
  Service params = "WFS" -> Request_ params = "" ->
  projects_GetLayersData s
    (strings.TrimSuffix (Map params) (filepath.Ext (Map params))) = Ok layersData ->
  xml_Unmarshal L (Body (Req c)) = Ok tx ->
  perms st = ∅ ->
  let st1 := {| perms := perms st;
                trace := trace st ++ [CallGetLayersData
                  (strings.TrimSuffix (Map params) (filepath.Ext (Map params)))];
                written := written st |} in
  wfsGate L s c params settings st =
    match operations tx with
    | [] => (Val tt, st1)
    | op :: _ =>
        (Fail ErrUnauthorized,
         stopped_at layersData settings (fst (auth_GetUser s c)) st1 op)
    end.
Proof.
  intros Hservice Hrequest Hlayers Hxml Hempty st1.
  unfold wfsGate. rewrite Hservice, Hrequest. cbn [String.eqb Ascii.eqb Bool.eqb andb].
  unfold bind at 1. cbn [emit]. rewrite Hlayers, Hxml.
  apply authorize_empty_cache. exact Hempty.
Qed.

(** The authorization block never sends anything to the backend and
    never panics. *)
Lemma wfsGate_no_upstream (params : OwsRequestParams)
    (settings : domain.ProjectSettings) (st : OwsState) :
  perms st = ∅ ->
  upstream (trace (snd (wfsGate L s c params settings st))) = upstream (trace st) /\
  written (snd (wfsGate L s c params settings st)) = written st /\
  forall why, fst (wfsGate L s c params settings st) <> Panic why.
Proof.
  intros Hempty. unfold wfsGate.
  destruct (String.eqb (Service params) "WFS" && String.eqb (Request_ params) "");
    [|cbn; auto].
  unfold bind at 1 2 3. cbn [emit].
  destruct (projects_GetLayersData s _) as [layersData|e].
  2:{ cbn. rewrite upstream_app. cbn. rewrite app_nil_r. auto. }
  destruct (xml_Unmarshal L _) as [tx|e].
  2:{ cbn. rewrite upstream_app. cbn. rewrite app_nil_r. auto. }
  rewrite authorize_empty_cache by exact Hempty.
  destruct (operations tx) as [|op ops]; cbn;
    rewrite ?upstream_app; cbn; rewrite ?app_nil_r; auto.
Qed.

End HandleMapOws.

Lemma layersData_calls_app (tr1 tr2 : list Event) :
  layersData_calls (tr1 ++ tr2) = (layersData_calls tr1 ++ layersData_calls tr2)%list.
Proof. unfold layersData_calls. apply omap_app. Qed.

Lemma permission_calls_app (tr1 tr2 : list Event) :
  permission_calls (tr1 ++ tr2) = (permission_calls tr1 ++ permission_calls tr2)%list.
Proof. unfold permission_calls. apply omap_app. Qed.

(** The proxy sends at most the request its director produced, after
    whatever was sent before. *)
Lemma ServeHTTP_upstream (L : Lib) (s : Server) (req : Request) (st : OwsState) :
  upstream (trace (snd (ServeHTTP L s req st))) =
    (upstream (trace st) ++
     match director L s req with Val outreq => [outgoing L outreq] | _ => [] end)%list.
Proof.
  unfold ServeHTTP, ReverseProxy_ServeHTTP.
  destruct (director L s req) as [outreq|e|why]; cbn.
  - unfold bind, emit. cbn.
    destruct (RoundTrip L (outgoing L outreq)) as [res|e];
      [destruct (copyResponse L res)|]; cbn; rewrite upstream_app; reflexivity.
  - rewrite app_nil_r. reflexivity.
  - rewrite app_nil_r. reflexivity.
Qed.

Lemma ServeHTTP_layersData_calls (L : Lib) (s : Server) (req : Request) (st : OwsState) :
  layersData_calls (trace (snd (ServeHTTP L s req st))) = layersData_calls (trace st).
Proof.
  unfold ServeHTTP, ReverseProxy_ServeHTTP.
  destruct (director L s req) as [outreq|e|why]; cbn; try reflexivity.
  unfold bind, emit. cbn.
  destruct (RoundTrip L (outgoing L outreq)) as [res|e];
    [destruct (copyResponse L res)|]; cbn;
    rewrite layersData_calls_app; cbn; apply app_nil_r.
Qed.

Lemma lookups_app (tr1 tr2 : list Event) :
  lookups (tr1 ++ tr2) = (lookups tr1 ++ lookups tr2)%list.
Proof. unfold lookups. apply omap_app. Qed.

Lemma ServeHTTP_lookups (L : Lib) (s : Server) (req : Request) (st : OwsState) :
  lookups (trace (snd (ServeHTTP L s req st))) = lookups (trace st).
Proof.
  unfold ServeHTTP, ReverseProxy_ServeHTTP.
  destruct (director L s req) as [outreq|e|why]; cbn; try reflexivity.
  unfold bind, emit. cbn.
  destruct (RoundTrip L (outgoing L outreq)) as [res|e];
    [destruct (copyResponse L res)|]; cbn;
    rewrite lookups_app; cbn; apply app_nil_r.
Qed.

(** The authorization block, entered with the empty cache, calls
    [getLayerPermissions] at most once, and that call returns the
    all-false permission. *)
Lemma wfsGate_lookups (L : Lib) (s : Server) (c : Context) (params : OwsRequestParams)
    (settings : domain.ProjectSettings) (st : OwsState) :
  perms st = ∅ ->
  exists log,
    lookups (trace (snd (wfsGate L s c params settings st))) =
      (lookups (trace st) ++ log)%list /\
    (log = [] \/ exists id, log = [(id, NoPermission)]).
Proof.
  intros Hempty. unfold wfsGate.
  destruct (String.eqb (Service params) "WFS" && String.eqb (Request_ params) "").
  2:{ exists []. cbn. rewrite app_nil_r. auto. }
  unfold bind at 1. cbn [emit].
  destruct (projects_GetLayersData s _) as [layersData|e].
  2:{ exists []. cbn. rewrite lookups_app. cbn. auto. }
  destruct (xml_Unmarshal L _) as [tx|e].
  2:{ exists []. cbn. rewrite lookups_app. cbn. auto. }
  rewrite authorize_empty_cache by exact Hempty.
  destruct (operations tx) as [|op ops]; cbn.
  - exists []. rewrite lookups_app. cbn. auto.
  - eexists. rewrite !lookups_app. cbn. rewrite app_nil_r. split; [reflexivity|].
    right. eexists. reflexivity.
Qed.

Lemma IsAbs_rooted (rest : string) : filepath.IsAbs (String "/" rest) = true.
Proof.
  unfold filepath.IsAbs, strings.HasPrefix. cbn. destruct rest; reflexivity.
Qed.

(** The cleaned join of the publish root with two more elements is an
    absolute path. *)
Lemma owsProject_IsAbs (projectName qgisFile : string) :
  filepath.IsAbs (filepath.Join ["/publish"; projectName; qgisFile]) = true.
Proof.
  unfold filepath.Join. cbn [String.eqb]. unfold filepath.Clean.
  change (strings.Join ["/publish"; projectName; qgisFile] "/")
    with (String "/" ("publish" ++ "/" ++ strings.Join [projectName; qgisFile] "/")).
  rewrite IsAbs_rooted. apply IsAbs_rooted.
Qed.



(** C1, at the failing input: a WFS transaction with one update of the
    layer [parcels], sent for the published project [admin/world] whose
    settings grant the user every flag on every layer, is answered with
    the authorization error; nothing is sent to the backend renderer and
    no response of the backend is written. *)
Theorem C1_granted_transaction_is_rejected :
  let L := example.lib example.wfsParams example.updateParcels in
  let s := example.server "published" example.settings in
  let c := example.context "POST" "<Transaction/>" in
  forallb (fun op => negb (unauthorized example.layersData example.settings
                             example.editor op))
          (operations example.updateParcels) = true /\
  fst (run_handleMapOws L s c) = Fail ErrUnauthorized /\
  upstream (trace (snd (run_handleMapOws L s c))) = [] /\
  written (snd (run_handleMapOws L s c)) = None.
Proof. repeat split; vm_compute; reflexivity. Qed.

(** C3, at the failing input: a map request for the project
    [admin/world] whose state is [draft] is not rejected; the handler
    returns nil and the request was sent to the backend renderer. *)
Theorem C3_draft_project_is_forwarded :
  let L := example.lib example.wmsParams example.updateParcels in
  let s := example.server "draft" example.settings in
  let c := example.context "GET" "" in
  (exists pInfo, projects_GetProjectInfo s (getProjectName c) = Ok pInfo /\
                 domain.State pInfo = "draft") /\
  fst (run_handleMapOws L s c) = Val tt /\
  length (upstream (trace (snd (run_handleMapOws L s c)))) = 1%nat /\
  written (snd (run_handleMapOws L s c)) = Some example.backendResponse.
Proof.
  repeat split; try (vm_compute; reflexivity).
  eexists. split; vm_compute; reflexivity.
Qed.

(** The handler never reads the state of the project: a request that is
    not a WFS transaction is sent to the backend whenever the project and
    its settings load and the backend address parses, and the handler
    ends as the proxy does. *)
Lemma handleMapOws_forwards_any_state (L : Lib) (s : Server) (c : Context)
    (params : OwsRequestParams) (pInfo : domain.ProjectInfo)
    (settings : domain.ProjectSettings) (outreq : Request) :
  BindQueryParams L c = Ok params ->
  String.eqb (Service params) "WFS" && String.eqb (Request_ params) "" = false ->
  projects_GetProjectInfo s (getProjectName c) = Ok pInfo ->
  projects_GetSettings s (getProjectName c) = Ok settings ->
  director L s (forwarded L c pInfo) = Val outreq ->
  fst (run_handleMapOws L s c) = proxyOutcome L outreq /\
  upstream (trace (snd (run_handleMapOws L s c))) = [outgoing L outreq].
Proof.
  intros Hbind Hother Hinfo Hsettings Hdir.
  assert (Hrun : run_handleMapOws L s c = ServeHTTP L s (forwarded L c pInfo) (loaded c)).
  { rewrite (handleMapOws_phases L s c params pInfo settings Hbind Hinfo Hsettings).
    unfold bind at 1. rewrite wfsGate_other by exact Hother. reflexivity. }
  rewrite Hrun. split.
  - unfold ServeHTTP, ReverseProxy_ServeHTTP, proxyOutcome. rewrite Hdir.
    unfold bind, emit. cbn.
    destruct (RoundTrip L (outgoing L outreq)) as [res|e];
      [destruct (copyResponse L res)|]; reflexivity.
  - rewrite ServeHTTP_upstream, Hdir. reflexivity.
Qed.

(** C4, as amended: a WFS transaction request, that is a request with
    the service [WFS] and an empty request parameter, whose decoded
    transaction has at least one operation whose layer does not grant the
    user the flag of the operation, is answered with the authorization
    error; nothing is sent to the backend renderer and nothing is
    written. *)
Theorem C4_unauthorized_wfs_request_never_reaches_backend
    (L : Lib) (s : Server) (c : Context) (params : OwsRequestParams)
    (pInfo : domain.ProjectInfo) (settings : domain.ProjectSettings)
    (layersData : domain.LayersData) (tx : Transaction) :
  BindQueryParams L c = Ok params ->
  Service params = "WFS" -> Request_ params = "" ->
  projects_GetProjectInfo s (getProjectName c) = Ok pInfo ->
  projects_GetSettings s (getProjectName c) = Ok settings ->
  projects_GetLayersData s
    (strings.TrimSuffix (Map params) (filepath.Ext (Map params))) = Ok layersData ->
  xml_Unmarshal L (Body (Req c)) = Ok tx ->
  existsb (unauthorized layersData settings (fst (auth_GetUser s c)))
          (operations tx) = true ->
  fst (run_handleMapOws L s c) = Fail ErrUnauthorized /\
  upstream (trace (snd (run_handleMapOws L s c))) = [] /\
  written (snd (run_handleMapOws L s c)) = None.
Proof.
  intros Hbind Hservice Hrequest Hinfo Hsettings Hlayers Hxml Hdenied.
  rewrite (handleMapOws_phases L s c params pInfo settings Hbind Hinfo Hsettings).
  unfold bind.
  rewrite (wfsGate_transaction L s c params settings layersData tx (loaded c)
             Hservice Hrequest Hlayers Hxml eq_refl).
  destruct (operations tx) as [|op rest]; [discriminate Hdenied|].
  cbn. repeat split.
Qed.

Lemma C4_unauthorized_wfs_request_witness :
  let L := example.lib example.wfsParams example.updateParcels in
  let s := example.server "published" example.viewOnly in
  let c := example.context "POST" "<Transaction/>" in
  fst (run_handleMapOws L s c) = Fail ErrUnauthorized /\
  upstream (trace (snd (run_handleMapOws L s c))) = [] /\
  written (snd (run_handleMapOws L s c)) = None.
Proof.
  intros L s c.
  apply (C4_unauthorized_wfs_request_never_reaches_backend L s c example.wfsParams
           {| domain.QgisFile := "world.qgs"; domain.State := "published" |}
           example.viewOnly example.layersData example.updateParcels);
    reflexivity.
Defined.

(** C4 as stated fails, at two inputs. First, the transaction with one
    update of the layer [parcels], on which the settings let the user
    only view, is sent with the request parameter [Transaction]: the
    handler does not examine the body, returns nil, and the request
    reached the backend renderer. Second, a transaction request whose
    body holds an update of [parcels], which the settings grant, followed
    by a deletion on [roads], which they do not: the handler stops with
    the authorization error at the update, the first operation and an
    authorized one, and the layer of the deletion is never looked up. *)
Lemma C4_body_forwarded_unexamined_and_stop_at_first_operation :
  (let params := {| Map := "admin/world.qgs"; Service := "WFS";
                    Request_ := "Transaction" |} in
   let L := example.lib params example.updateParcels in
   let s := example.server "published" example.viewOnly in
   let c := example.context "POST" "<Transaction/>" in
   xml_Unmarshal L (Body (Req c)) = Ok example.updateParcels /\
   existsb (unauthorized example.layersData example.viewOnly example.editor)
           (operations example.updateParcels) = true /\
   fst (run_handleMapOws L s c) = Val tt /\
   length (upstream (trace (snd (run_handleMapOws L s c)))) = 1%nat) /\
  (let L := example.lib example.wfsParams example.updateThenDelete in
   let s := example.server "published" example.parcelsOnly in
   let c := example.context "POST" "<Transaction/>" in
   map (unauthorized example.layersData example.parcelsOnly example.editor)
       (operations example.updateThenDelete) = [false; true] /\
   fst (run_handleMapOws L s c) = Fail ErrUnauthorized /\
   permission_calls (trace (snd (run_handleMapOws L s c))) = ["parcels_7c1"]).
Proof. repeat split; vm_compute; reflexivity. Qed.

(** C7: every request the handler sends to the backend renderer carries a
    query in which [MAP] is set to the cleaned join of [/publish], the
    project name and the name of the project's QGIS file, which is an
    absolute path, and has the scheme, the host and the path of the
    configured map server address. *)
Theorem C7_forwarded_request_is_rewritten
    (L : Lib) (s : Server) (c : Context) (outreq : Request) :
  outreq ∈ upstream (trace (snd (run_handleMapOws L s c))) ->
  exists pInfo target,
    projects_GetProjectInfo s (getProjectName c) = Ok pInfo /\
    url_Parse L (Config_MapserverURL s) = Some target /\
    let owsProject :=
      filepath.Join ["/publish"; getProjectName c; domain.QgisFile pInfo] in
    let query := <["MAP" := [owsProject]]> (url_Query L (RawQuery (Url (Req c)))) in
    filepath.IsAbs owsProject = true /\
    query !! "MAP" = Some [owsProject] /\
    RawQuery (Url outreq) = Values_Encode L query /\
    Scheme (Url outreq) = Scheme target /\
    Host (Url outreq) = Host target /\
    Path (Url outreq) = Path target.
Proof.
  intros Hin.
  destruct (handleMapOws_early L s c outreq Hin)
    as (params & pInfo & settings & Hbind & Hinfo & Hsettings).
  rewrite (handleMapOws_phases L s c params pInfo settings Hbind Hinfo Hsettings) in Hin.
  unfold bind at 1 in Hin.
  destruct (wfsGate_no_upstream L s c params settings (loaded c) eq_refl)
    as (Hup & _ & Hnopanic).
  destruct (wfsGate L s c params settings (loaded c)) as [r st] eqn:Hgate.
  cbn [fst snd] in Hup, Hnopanic.
  destruct r as [[]|e|why].
  - rewrite ServeHTTP_upstream, Hup in Hin. cbn [loaded trace upstream omap app] in Hin.
    unfold director in Hin.
    destruct (url_Parse L (Config_MapserverURL s)) as [target|] eqn:Hparse.
    + apply list_elem_of_singleton in Hin. subst outreq.
      cbn [outgoing Url].
      exists pInfo, target.
      split; [exact Hinfo|]. split; [reflexivity|]. cbv zeta.
      split; [apply owsProject_IsAbs|]. split; [apply lookup_insert_eq|].
      repeat split.
    + inversion Hin.
  - cbn [snd] in Hin. rewrite Hup in Hin. inversion Hin.
  - cbn [snd] in Hin. rewrite Hup in Hin. inversion Hin.
Qed.

Lemma C7_forwarded_request_witness :
  let L := example.lib example.wmsParams example.updateParcels in
  let s := example.server "published" example.settings in
  let c := example.context "GET" "" in
  exists outreq pInfo target,
    outreq ∈ upstream (trace (snd (run_handleMapOws L s c))) /\
    projects_GetProjectInfo s (getProjectName c) = Ok pInfo /\
    url_Parse L (Config_MapserverURL s) = Some target /\
    let owsProject :=
      filepath.Join ["/publish"; getProjectName c; domain.QgisFile pInfo] in
    let query := <["MAP" := [owsProject]]> (url_Query L (RawQuery (Url (Req c)))) in
    filepath.IsAbs owsProject = true /\
    query !! "MAP" = Some [owsProject] /\
    RawQuery (Url outreq) = Values_Encode L query /\
    Scheme (Url outreq) = Scheme target /\
    Host (Url outreq) = Host target /\
    Path (Url outreq) = Path target.
Proof.
  intros L s c.
  pose (pInfo0 := {| domain.QgisFile := "world.qgs"; domain.State := "published" |}).
  pose (outreq := outgoing L
    {| Method := "GET";
       Url := {| Scheme := Scheme example.target; Host := Host example.target;
                 Path := Path example.target;
                 RawQuery := RawQuery (Url (forwarded L c pInfo0)) |};
       Header := <["User-Agent" := [""]]> ∅; Body := "" |}).
  assert (Hin : outreq ∈ upstream (trace (snd (run_handleMapOws L s c)))).
  { apply list_elem_of_here. }
  destruct (C7_forwarded_request_is_rewritten L s c outreq Hin)
    as (pInfo & target & H).
  exists outreq, pInfo, target. split; [exact Hin | exact H].
Defined.

(** C8: for a WFS transaction request whose project and settings load,
    the layer data are requested exactly once, for the name obtained from
    the bound [Map] parameter by trimming its extension, whatever the
    [user] and [name] parameters of the path are; and the layer mapping
    that call returns is the one that gives the layer identifier looked
    up for authorization. *)
Theorem C8_layers_data_loaded_for_map_parameter
    (L : Lib) (s : Server) (c : Context) (params : OwsRequestParams)
    (pInfo : domain.ProjectInfo) (settings : domain.ProjectSettings) :
  BindQueryParams L c = Ok params ->
  Service params = "WFS" -> Request_ params = "" ->
  projects_GetProjectInfo s (getProjectName c) = Ok pInfo ->
  projects_GetSettings s (getProjectName c) = Ok settings ->
  let mapProject := strings.TrimSuffix (Map params) (filepath.Ext (Map params)) in
  layersData_calls (trace (snd (run_handleMapOws L s c))) = [mapProject] /\
  forall layersData tx op rest,
    projects_GetLayersData s mapProject = Ok layersData ->
    xml_Unmarshal L (Body (Req c)) = Ok tx ->
    operations tx = op :: rest ->
    permission_calls (trace (snd (run_handleMapOws L s c))) =
      [layerID layersData (snd op)].
Proof.
  intros Hbind Hservice Hrequest Hinfo Hsettings mapProject.
  rewrite (handleMapOws_phases L s c params pInfo settings Hbind Hinfo Hsettings).
  split.
  - unfold bind at 1.
    destruct (wfsGate L s c params settings (loaded c)) as [r st] eqn:Hgate.
    assert (Hcalls : layersData_calls (trace st) = [mapProject]).
    { revert Hgate. unfold wfsGate. rewrite Hservice, Hrequest.
      cbn [String.eqb Ascii.eqb Bool.eqb andb]. unfold bind at 1. cbn [emit].
      fold mapProject.
      destruct (projects_GetLayersData s mapProject) as [layersData|e].
      2:{ intros [= <- <-]. reflexivity. }
      destruct (xml_Unmarshal L (Body (Req c))) as [tx|e].
      2:{ intros [= <- <-]. reflexivity. }
      rewrite authorize_empty_cache by reflexivity.
      destruct (operations tx); intros [= <- <-]; reflexivity. }
    destruct r as [[]|e|why]; cbn [snd]; [|exact Hcalls|exact Hcalls].
    rewrite ServeHTTP_layersData_calls. exact Hcalls.
  - intros layersData tx op rest Hlayers Hxml Hops.
    unfold bind at 1.
    rewrite (wfsGate_transaction L s c params settings layersData tx (loaded c)
               Hservice Hrequest Hlayers Hxml eq_refl).
    rewrite Hops. reflexivity.
Qed.

Lemma C8_layers_data_witness :
  let L := example.lib {| Map := "other/secret.qgs"; Service := "WFS"; Request_ := "" |}
                       example.updateParcels in
  let s := example.server "published" example.settings in
  let c := example.context "POST" "<Transaction/>" in
  getProjectName c = "admin/world" /\
  layersData_calls (trace (snd (run_handleMapOws L s c))) = ["other/secret"].
Proof.
  intros L s c. split; [reflexivity|].
  apply (C8_layers_data_loaded_for_map_parameter L s c
           {| Map := "other/secret.qgs"; Service := "WFS"; Request_ := "" |}
           {| domain.QgisFile := "world.qgs"; domain.State := "published" |}
           example.settings); reflexivity.
Defined.

(** * Properties of the file handlers *)

Lemma same_session_refl st : same_session st st.
Proof. repeat split. Qed.

Lemma same_session_trans st1 st2 st3 :
  same_session st1 st2 -> same_session st2 st3 -> same_session st1 st3.
Proof. unfold same_session. intuition congruence. Qed.

Lemma conn_Read_session k st : same_session st (snd (conn_Read k st)).
Proof.
  unfold conn_Read, bind, get, modify, ret.
  destruct (wire_left st <=? 0); cbn; repeat split.
Qed.

Lemma Body_Read_session k st : same_session st (snd (Body_Read k st)).
Proof.
  unfold Body_Read, bind, get. destruct (limiter st) as [l|]; [|apply conn_Read_session].
  unfold http.maxBytesReader_Read. destruct (mb_err l); [apply same_session_refl|].
  destruct (k =? 0); [apply same_session_refl|].
  unfold bind.
  match goal with |- context [conn_Read ?k' st] =>
    pose proof (conn_Read_session k' st) as H; destruct (conn_Read k' st) as [[r|e|w] st1] end;
    cbn [snd] in *; try exact H.
  destruct r as [n err]. unfold modify, ret.
  destruct (n <=? mb_n l); cbn; exact H.
Qed.

Lemma pull_session k st : same_session st (snd (pull k st)).
Proof.
  unfold pull. destruct (k <=? 0); [apply same_session_refl|].
  unfold bind. pose proof (Body_Read_session k st) as H.
  destruct (Body_Read k st) as [[[n err]|e|w] st1]; cbn [snd] in *; try exact H.
  destruct (n <? k); [|exact H]. destruct err; exact H.
Qed.

Lemma bind_session {A B} (m : M UploadState A) (k : A -> M UploadState B) st :
  same_session st (snd (m st)) ->
  (forall a st1, same_session st1 (snd (k a st1))) ->
  same_session st (snd (bind m k st)).
Proof.
  intros Hm Hk. unfold bind. destruct (m st) as [[a|e|w] st1]; cbn [snd] in *; auto.
  eapply same_session_trans; [exact Hm | apply Hk].
Qed.

Lemma try_session {A} (m : M UploadState A) st :
  same_session st (snd (m st)) -> same_session st (snd (try m st)).
Proof. unfold try. destruct (m st) as [[a|e|w] st1]; auto. Qed.

Lemma set_parts_session ps unread st : same_session st (set_parts ps unread st).
Proof. repeat split. Qed.

(** The multipart reader leaves the session alone. *)
Lemma NextPart_session st : same_session st (snd (multipart.NextPart st)).
Proof.
  unfold multipart.NextPart.
  apply bind_session; [apply same_session_refl|]. intros st0 st1.
  apply bind_session; [apply try_session, pull_session|]. intros _ st2.
  destruct (pending st0) as [|p rest].
  - apply bind_session; [apply set_parts_session|]. intros _ st3.
    apply bind_session; [apply try_session, pull_session|]. intros [[]|e] st4;
      apply same_session_refl.
  - apply bind_session; [apply set_parts_session|]. intros _ st3.
    apply bind_session; [apply try_session, pull_session|]. intros [[]|e] st4;
      [|apply same_session_refl].
    apply bind_session; [apply pull_session|]. intros _ st5.
    apply bind_session; [apply set_parts_session|]. intros _ st6.
    apply same_session_refl.
Qed.

Lemma Part_Read_session k st : same_session st (snd (multipart.Part_Read k st)).
Proof.
  unfold multipart.Part_Read, bind, get.
  destruct (current_left st <=? 0); [apply same_session_refl|].
  match goal with |- context [Body_Read ?k' st] =>
    pose proof (Body_Read_session k' st) as H;
    destruct (Body_Read k' st) as [[[n err]|e|w] st1] end;
    cbn [snd] in *; try exact H.
  unfold modify. destruct err as [[]|]; cbn; try exact H.
  destruct (current_left st - n <=? 0); exact H.
Qed.

Lemma conn_Read_returns k st : exists r st', conn_Read k st = (Val r, st').
Proof.
  unfold conn_Read, bind, get, modify, ret.
  destruct (wire_left st <=? 0); eauto.
Qed.

Lemma Body_Read_returns k st : exists r st', Body_Read k st = (Val r, st').
Proof.
  unfold Body_Read, bind, get. destruct (limiter st) as [l|]; [|apply conn_Read_returns].
  unfold http.maxBytesReader_Read. destruct (mb_err l); [unfold ret; eauto|].
  destruct (k =? 0); [unfold ret; eauto|]. unfold bind.
  match goal with |- context [conn_Read ?k' st] =>
    destruct (conn_Read_returns k' st) as ([n err] & st1 & ->) end.
  unfold modify, ret. destruct (n <=? mb_n l); eauto.
Qed.

Lemma pull_never_panics k st why : fst (pull k st) <> Panic why.
Proof.
  unfold pull. destruct (k <=? 0); [discriminate|]. unfold bind.
  destruct (Body_Read_returns k st) as ([n err] & st1 & ->).
  destruct (n <? k); [|discriminate]. destruct err; discriminate.
Qed.

Lemma NextPart_never_panics st why : fst (multipart.NextPart st) <> Panic why.
Proof.
  unfold multipart.NextPart, bind, get, try.
  pose proof (fun w => pull_never_panics (current_left st) st w) as H0.
  destruct (pull (current_left st) st) as [[[]|e|w] st1]; cbn [fst] in H0;
    [| |exfalso; exact (H0 w eq_refl)].
  - destruct (pending st) as [|p rest]; unfold modify at 1.
    + match goal with |- context [pull ?k ?s0] =>
        pose proof (fun w => pull_never_panics k s0 w) as H1;
        destruct (pull k s0) as [[[]|e'|w'] st2] end; cbn [fst] in H1;
        first [discriminate | exfalso; exact (H1 w' eq_refl)].
    + match goal with |- context [pull ?k ?s0] =>
        pose proof (fun w => pull_never_panics k s0 w) as H1;
        destruct (pull k s0) as [[[]|e'|w'] st2] end; cbn [fst] in H1;
        [|discriminate|exfalso; exact (H1 w' eq_refl)].
      match goal with |- context [pull ?k ?s0] =>
        pose proof (fun w => pull_never_panics k s0 w) as H2;
        destruct (pull k s0) as [[[]|e''|w''] st3] end; cbn [fst] in H2;
        first [discriminate | exfalso; exact (H2 w'' eq_refl)].
  - destruct (pending st) as [|p rest]; unfold modify at 1.
    + match goal with |- context [pull ?k ?s0] =>
        pose proof (fun w => pull_never_panics k s0 w) as H1;
        destruct (pull k s0) as [[[]|e'|w'] st2] end; cbn [fst] in H1;
        first [discriminate | exfalso; exact (H1 w' eq_refl)].
    + match goal with |- context [pull ?k ?s0] =>
        pose proof (fun w => pull_never_panics k s0 w) as H1;
        destruct (pull k s0) as [[[]|e'|w'] st2] end; cbn [fst] in H1;
        [|discriminate|exfalso; exact (H1 w' eq_refl)].
      match goal with |- context [pull ?k ?s0] =>
        pose proof (fun w => pull_never_panics k s0 w) as H2;
        destruct (pull k s0) as [[[]|e''|w''] st3] end; cbn [fst] in H2;
        first [discriminate | exfalso; exact (H2 w'' eq_refl)].
Qed.

Lemma Part_Read_returns k st : exists r st', multipart.Part_Read k st = (Val r, st').
Proof.
  unfold multipart.Part_Read, bind, get.
  destruct (current_left st <=? 0); [unfold ret; eauto|].
  match goal with |- context [Body_Read ?k' st] =>
    destruct (Body_Read_returns k' st) as ([n err] & st1 & ->) end.
  unfold modify, ret. destruct err as [[]|]; eauto.
  destruct (current_left st - n <=? 0); eauto.
Qed.

(** The first part [multipart.NextPart] yields is the first part that is
    pending. *)
Lemma NextPart_yields_first_pending st part st' :
  multipart.NextPart st = (Val part, st') ->
  exists rest, pending st = part :: rest.
Proof.
  unfold multipart.NextPart, bind, get, try.
  destruct (pull (current_left st) st) as [[[]|e|w] st1]; [| |discriminate].
  - destruct (pending st) as [|p rest]; unfold modify at 1.
    + match goal with |- context [pull ?k ?s0] =>
        destruct (pull k s0) as [[[]|e'|w'] st2] end; discriminate.
    + match goal with |- context [pull ?k ?s0] =>
        destruct (pull k s0) as [[[]|e'|w'] st2] end; try discriminate.
      match goal with |- context [pull ?k ?s0] =>
        destruct (pull k s0) as [[[]|e''|w''] st3] end; try discriminate.
      intros [= <- _]. eauto.
  - destruct (pending st) as [|p rest]; unfold modify at 1.
    + match goal with |- context [pull ?k ?s0] =>
        destruct (pull k s0) as [[[]|e'|w'] st2] end; discriminate.
    + match goal with |- context [pull ?k ?s0] =>
        destruct (pull k s0) as [[[]|e'|w'] st2] end; try discriminate.
      match goal with |- context [pull ?k ?s0] =>
        destruct (pull k s0) as [[[]|e''|w''] st3] end; try discriminate.
      intros [= <- _]. eauto.
Qed.
(** C6: when the part reader signals the end of the parts, [nextFile]
    sends one [UploadProgress] notification with the current progress map
    to the user of the upload and returns [io.EOF]; this holds for every
    time of the last notification and every clock, and the clock is not
    read. *)
Theorem C6_final_snapshot_sent_at_end_of_parts
    (s : FileServer) (user : domain.User) (st st' : UploadState) :
  multipart.NextPart st = (Fail EOF, st') ->
  nextFile s user st = (Fail EOF, set_sent (sent st ++ [finalSnapshot user st])%list st') /\
  sent (snd (nextFile s user st)) = (sent st ++ [finalSnapshot user st])%list /\
  ticks (snd (nextFile s user st)) = ticks st.
Proof.
  intros Hend.
  pose proof (NextPart_session st) as Hsame. rewrite Hend in Hsame.
  destruct Hsame as (Hprogress & _ & Hticks & Hsent & _). cbn [snd] in *.
  assert (Hrun : nextFile s user st =
                 (Fail EOF, set_sent (sent st ++ [finalSnapshot user st])%list st')).
  { unfold nextFile, bind, try. rewrite Hend.
    rewrite bool_decide_eq_true_2 by reflexivity.
    unfold Send, modify, throw, get, finalSnapshot. cbv beta iota.
    rewrite Hprogress, Hsent. reflexivity. }
  rewrite Hrun. cbn. auto.
Qed.

Lemma C6_final_snapshot_witness :
  let st := set_lastNotification 999999999999
              (UploadState_init [] 40 []) in
  sent (snd (nextFile (example.fileServer example.editor) example.editor st)) =
    [finalSnapshot example.editor st].
Proof.
  intros st.
  apply (C6_final_snapshot_sent_at_end_of_parts
           (example.fileServer example.editor) example.editor st
           (set_parts [] 0 (set_wire_left 0 st))).
  reflexivity.
Defined.

(** The throttle of the progress callback: within half a second of the
    last notification the callback records the progress and sends
    nothing. *)
Lemma progressCallback_throttled (s : FileServer) (user : domain.User)
    (part : Part) (p : Z) (st : UploadState) :
  clock s (ticks st) - lastNotification st <= 500000000 ->
  sent (snd (progressCallback s user part p st)) = sent st /\
  uploadProgress (snd (progressCallback s user part p st)) =
    <[FormName part := p]> (uploadProgress st).
Proof.
  intros Hsoon. unfold progressCallback, bind, modify, time_Now, get, ret. cbn.
  destruct (500000000 <? clock s (ticks st) - lastNotification st) eqn:Hlt.
  - apply Z.ltb_lt in Hlt. lia.
  - cbn. auto.
Qed.

(** C9: for a part whose file name ends in [.gz] and whose form name
    does not, [nextFile] takes the reader of [gzip.NewReader] and drops
    its error: it returns the form name and a [ProgressReader] without an
    error. When the content has no valid gzip header the constructor did
    return an error, the reader in the [ProgressReader] is nil, and every
    read of it panics. *)
Theorem C9_gzip_error_discarded_and_nil_reader_used
    (s : FileServer) (user : domain.User) (st st' : UploadState) (part : Part) :
  multipart.NextPart st = (Val part, st') ->
  strings.HasSuffix (FileName part) ".gz" = true ->
  strings.HasSuffix (FormName part) ".gz" = false ->
  (exists pr,
     nextFile s user st = (Val (FormName part, pr), st') /\
     Reader pr = fst (gzip_NewReader part)) /\
  (GzipHeaderOk part = false ->
   snd (gzip_NewReader part) = Some gzip_ErrHeader /\
   exists pr,
     nextFile s user st = (Val (FormName part, pr), st') /\
     Reader pr = NilReader /\
     forall k st1, exists why, fst (ProgressReader_Read pr k st1) = Panic why).
Proof.
  intros Hnext Hfile Hform.
  assert (Hrun : nextFile s user st =
    (Val (FormName part,
          {| Reader := fst (gzip_NewReader part); Step := 32 * 1024;
             Callback := progressCallback s user part;
             Progress := 0; lastVal := 0 |}), st')).
  { unfold nextFile, bind, try. rewrite Hnext. cbn -[Z.mul]. rewrite Hfile, Hform. reflexivity. }
  split.
  - eexists. split; [exact Hrun | reflexivity].
  - intros Hbad. unfold gzip_NewReader in *. rewrite Hbad in *. cbn [fst snd] in *.
    split; [reflexivity|].
    eexists. split; [exact Hrun|]. split; [reflexivity|].
    intros k st1. eexists. reflexivity.
Qed.

Lemma C9_gzip_error_witness :
  let st := UploadState_init [example.notGzipPart] 40 [] in
  exists pr st',
    nextFile (example.fileServer example.editor) example.editor st
      = (Val ("data/b.geojson", pr), st') /\
    Reader pr = NilReader /\
    forall k st1, exists why, fst (ProgressReader_Read pr k st1) = Panic why.
Proof.
  intros st.
  destruct (C9_gzip_error_discarded_and_nil_reader_used
              (example.fileServer example.editor) example.editor st
              (set_parts [] 64 (set_wire_left 104 st)) example.notGzipPart)
    as [_ H]; [reflexivity | reflexivity | reflexivity |].
  destruct (H eq_refl) as (_ & pr & Hrun & Hnil & Hpanic).
  exists pr, (set_parts [] 64 (set_wire_left 104 st)). auto.
Defined.

(** C10: a deletion request whose body binds to an empty file list is
    answered with the error 400 [No files specified]; the state is left
    as it was, whatever [UpdateFiles] would do, so no change set is
    applied and the manifest is unchanged. *)
Theorem C10_empty_file_list_is_rejected
    (s : FileServer) (projectName : string) (st : UploadState) :
  handleDeleteProjectFiles s projectName (Ok []) st =
    (Fail (HTTPError 400 "No files specified"), st) /\
  files (snd (handleDeleteProjectFiles s projectName (Ok []) st)) = files st.
Proof. split; reflexivity. Qed.


(** ** The accounting of the bytes read from the body *)

Lemma advanced_refl st : unsettled st -> advanced 0 st st.
Proof.
  intros H. unfold advanced. split; [lia|]. split; [lia|]. split; [exact H | reflexivity].
Qed.

Lemma advanced_trans k1 k2 st st1 st2 :
  advanced k1 st st1 -> advanced k2 st1 st2 -> advanced (k1 + k2) st st2.
Proof.
  intros (Hw1 & Hr1 & _ & Hc1) (Hw2 & Hr2 & Hu2 & Hc2).
  unfold advanced. split; [lia|]. split; [lia|]. split; [exact Hu2 | congruence].
Qed.

Lemma advanced_overran k st st1 st2 :
  advanced k st st1 -> overran st1 st2 -> overran st st2.
Proof.
  intros (Hw1 & Hr1 & _ & _) (Hs & Hw2). split; [exact Hs | lia].
Qed.

Lemma same_wire_room st st' : same_wire st st' -> room st' = room st.
Proof. intros (Hw & Hl & _). unfold room. rewrite Hl, Hw. reflexivity. Qed.

Lemma same_wire_unsettled st st' : same_wire st st' -> unsettled st -> unsettled st'.
Proof.
  intros Hsame [Hl Hr]. pose proof (same_wire_room st st' Hsame) as Hroom.
  destruct Hsame as (Hw & Hlim & _). unfold unsettled. rewrite Hlim, Hroom. auto.
Qed.

Lemma advanced_same_wire k st st1 st2 :
  advanced k st st1 -> same_wire st1 st2 -> advanced k st st2.
Proof.
  intros (Hw1 & Hr1 & Hu1 & Hc1) Hsame.
  pose proof (same_wire_room st1 st2 Hsame) as Hroom.
  pose proof (same_wire_unsettled st1 st2 Hsame Hu1) as Hu2.
  destruct Hsame as (Hw & Hl & Hc). unfold advanced.
  split; [congruence|]. split; [congruence|]. split; [exact Hu2 | congruence].
Qed.

Lemma overran_same_wire st st1 st2 :
  overran st st1 -> same_wire st1 st2 -> overran st st2.
Proof.
  intros ((l & Hl & He) & Hw1) (Hw & Hlim & _). split.
  - exists l. split; congruence.
  - lia.
Qed.

Lemma same_wire_refl st : same_wire st st.
Proof. repeat split. Qed.

Lemma same_wire_trans st1 st2 st3 :
  same_wire st1 st2 -> same_wire st2 st3 -> same_wire st1 st3.
Proof. unfold same_wire. intuition congruence. Qed.

(** Sequencing: the bytes needed add up. *)
Lemma reads_bind {A B} (n1 n2 : Z) (m : M UploadState A) (k : A -> M UploadState B)
    (st : UploadState) (post : A -> UploadState -> Prop)
    (bad1 : Res A -> Prop) (good : Res B -> UploadState -> Prop) (bad : Res B -> Prop) :
  0 <= n1 -> 0 <= n2 ->
  reads n1 m st (fun r st1 => exists a, r = Val a /\ post a st1) bad1 ->
  (forall r, bad1 r -> exists e, r = Fail e /\ bad (Fail e)) ->
  (forall a st1, post a st1 -> advanced n1 st st1 -> reads n2 (k a) st1 good bad) ->
  reads (n1 + n2) (bind m k) st good bad.
Proof.
  intros Hn1 Hn2 Hm Hbad Hk [_ Hw] Hun.
  destruct (Hm ltac:(lia) Hun) as (r & st1 & Hrun & Hcase).
  unfold bind. rewrite Hrun.
  destruct (n1 <=? room st) eqn:E1.
  - apply Z.leb_le in E1. destruct Hcase as [(a & -> & Hpost) Hadv].
    pose proof Hadv as (Hw1 & Hr1 & Hu1 & _).
    destruct (Hk a st1 Hpost Hadv ltac:(lia) Hu1) as (r2 & st2 & Hrun2 & Hcase2).
    exists r2, st2. split; [exact Hrun2|].
    destruct (n2 <=? room st1) eqn:E2.
    + apply Z.leb_le in E2. rewrite (proj2 (Z.leb_le _ _)) by lia.
      destruct Hcase2 as [Hgood Hadv2]. split; [exact Hgood|].
      eapply advanced_trans; eauto.
    + apply Z.leb_gt in E2. rewrite (proj2 (Z.leb_gt _ _)) by lia.
      destruct Hcase2 as [Hb Hover]. split; [exact Hb|].
      eapply advanced_overran; eauto.
  - apply Z.leb_gt in E1. destruct Hcase as [Hb Hover].
    destruct (Hbad r Hb) as (e & -> & Hb2).
    exists (Fail e), st1. split; [reflexivity|].
    rewrite (proj2 (Z.leb_gt _ _)) by lia. auto.
Qed.

Lemma reads_ret {A} (a : A) (st : UploadState)
    (good : Res A -> UploadState -> Prop) (bad : Res A -> Prop) :
  good (Val a) st -> reads 0 (ret a) st good bad.
Proof.
  intros Hgood _ Hun. exists (Val a), st. split; [reflexivity|].
  rewrite (proj2 (Z.leb_le _ _)) by apply Hun.
  split; [exact Hgood | apply advanced_refl, Hun].
Qed.

Lemma reads_throw {A} (e : error) (st : UploadState)
    (good : Res A -> UploadState -> Prop) (bad : Res A -> Prop) :
  good (Fail e) st -> reads 0 (throw e) st good bad.
Proof.
  intros Hgood _ Hun. exists (Fail e), st. split; [reflexivity|].
  rewrite (proj2 (Z.leb_le _ _)) by apply Hun.
  split; [exact Hgood | apply advanced_refl, Hun].
Qed.

Lemma reads_modify (f : UploadState -> UploadState) (st : UploadState)
    (bad : Res unit -> Prop) :
  same_wire st (f st) ->
  reads 0 (modify f) st (fun r st' => exists a, r = Val a /\ st' = f st) bad.
Proof.
  intros Hsame _ Hun. exists (Val tt), (f st). split; [reflexivity|].
  rewrite (proj2 (Z.leb_le _ _)) by apply Hun.
  split; [eauto|]. eapply advanced_same_wire; [apply advanced_refl, Hun | exact Hsame].
Qed.

Lemma reads_weaken {A} (n : Z) (m : M UploadState A) (st : UploadState)
    (good good' : Res A -> UploadState -> Prop) (bad bad' : Res A -> Prop) :
  reads n m st good bad ->
  (forall r st', good r st' -> advanced n st st' -> good' r st') ->
  (forall r, bad r -> bad' r) ->
  reads n m st good' bad'.
Proof.
  intros Hm Hg Hb Hn Hun. destruct (Hm Hn Hun) as (r & st' & Hrun & Hcase).
  exists r, st'. split; [exact Hrun|].
  destruct (n <=? room st); destruct Hcase; split; auto.
Qed.

(** One read of the body that asks for [k] bytes the body holds. *)
Lemma Body_Read_reads (k : Z) (st : UploadState) :
  0 < k ->
  reads k (Body_Read k) st
    (fun r st' => r = Val (k, None) /\ same_part st st' /\ same_session st st')
    (fun r => exists n, r = Val (n, Some ErrBodyTooLarge)).
Proof.
  intros Hk [_ Hw] [Hlim Hroom]. unfold Body_Read, bind, get.
  unfold room in *. destruct (limiter st) as [l|] eqn:El.
  - unfold http.maxBytesReader_Read. rewrite Hlim.
    rewrite (proj2 (Z.eqb_neq _ _)) by lia.
    unfold bind, conn_Read, bind, get. rewrite (proj2 (Z.leb_gt _ _)) by lia.
    unfold modify, ret. cbn [fst snd].
    destruct (k <=? mb_n l) eqn:Efit.
    + apply Z.leb_le in Efit.
      rewrite (proj2 (Z.ltb_ge _ _)) by lia.
      rewrite Z.min_l by lia. rewrite (proj2 (Z.leb_le _ _)) by lia.
      eexists. eexists. split; [reflexivity|].
      split; [repeat split|].
      unfold advanced, unsettled, room. cbn. rewrite ?El. repeat split; first [lia | reflexivity].
    + apply Z.leb_gt in Efit.
      assert (Hcut : (if mb_n l + 1 <? k then mb_n l + 1 else k) = mb_n l + 1).
      { destruct (mb_n l + 1 <? k) eqn:E; [reflexivity|]. apply Z.ltb_ge in E. lia. }
      rewrite Hcut. rewrite Z.min_l by lia. rewrite (proj2 (Z.leb_gt _ _)) by lia.
      eexists. eexists. split; [reflexivity|].
      split; [eauto|]. split.
      * eexists. cbn. split; reflexivity.
      * unfold room. rewrite El. cbn. lia.
  - unfold conn_Read, bind, get. rewrite (proj2 (Z.leb_gt _ _)) by lia.
    unfold modify, ret. rewrite Z.min_l by lia. rewrite (proj2 (Z.leb_le _ _)) by lia.
    eexists. eexists. split; [reflexivity|].
    split; [repeat split|].
    unfold advanced, unsettled, room. cbn. rewrite El. repeat split; first [lia | reflexivity].
Qed.

(** The multipart reader pulling [k] bytes the body holds. *)
Lemma pull_reads (k : Z) (st : UploadState) :
  reads k (pull k) st
    (fun r st' => exists a, r = Val a /\ same_part st st' /\ same_session st st')
    (fun r => r = Fail ErrBodyTooLarge).
Proof.
  intros [Hk Hw] Hun. unfold pull.
  destruct (k <=? 0) eqn:E0.
  - apply Z.leb_le in E0. assert (k = 0) by lia. subst k.
    exists (Val tt), st. split; [reflexivity|].
    rewrite (proj2 (Z.leb_le _ _)) by apply Hun.
    split; [|apply advanced_refl, Hun].
    exists tt. split; [reflexivity|]. split; [split; reflexivity | apply same_session_refl].
  - apply Z.leb_gt in E0.
    destruct (Body_Read_reads k st E0 ltac:(lia) Hun) as (r & st' & Hrun & Hcase).
    unfold bind. rewrite Hrun.
    destruct (k <=? room st) eqn:Efit.
    + destruct Hcase as [(-> & Hpart & Hsess) Hadv].
      rewrite Z.ltb_irrefl. exists (Val tt), st'. split; [reflexivity|].
      split; [eauto|exact Hadv].
    + apply Z.leb_gt in Efit. destruct Hcase as [(n & ->) Hover].
      assert (Hn : n < k).
      { revert Hrun. unfold Body_Read, bind, get. unfold room in Efit.
        destruct Hun as [Hlim _].
        destruct (limiter st) as [l|]; [|lia].
        unfold http.maxBytesReader_Read. rewrite Hlim.
        rewrite (proj2 (Z.eqb_neq _ _)) by lia.
        unfold bind, conn_Read, bind, get.
        destruct (wire_left st <=? 0); unfold modify, ret; cbn [fst snd].
        - destruct (0 <=? mb_n l); intros [= <- _]; lia.
        - match goal with |- context [?a <=? mb_n l] => destruct (a <=? mb_n l) eqn:E end;
            [intros [= _ Habs _]; discriminate Habs|intros [= <- _]; lia]. }
      rewrite (proj2 (Z.ltb_lt _ _)) by exact Hn.
      exists (Fail ErrBodyTooLarge), st'. split; [reflexivity|]. auto.
Qed.

(** Sequencing when the first piece hands its error on as a value. *)
Lemma reads_bind_gen {A B} (n1 n2 : Z) (m : M UploadState A) (k : A -> M UploadState B)
    (st : UploadState) (good1 : Res A -> UploadState -> Prop) (bad1 : Res A -> Prop)
    (good : Res B -> UploadState -> Prop) (bad : Res B -> Prop) :
  0 <= n1 -> 0 <= n2 ->
  reads n1 m st good1 bad1 ->
  (forall r st1, good1 r st1 -> advanced n1 st st1 ->
     exists a, r = Val a /\ reads n2 (k a) st1 good bad) ->
  (forall r st1, bad1 r ->
     exists r2 st2, bind (fun s => (r, s)) k st1 = (r2, st2) /\ bad r2 /\
                    same_wire st1 st2) ->
  reads (n1 + n2) (bind m k) st good bad.
Proof.
  intros Hn1 Hn2 Hm Hk Hover [_ Hw] Hun.
  destruct (Hm ltac:(lia) Hun) as (r & st1 & Hrun & Hcase).
  destruct (n1 <=? room st) eqn:E1.
  - apply Z.leb_le in E1. destruct Hcase as [Hgood Hadv].
    destruct (Hk r st1 Hgood Hadv) as (a & -> & Hka).
    pose proof Hadv as (Hw1 & Hr1 & Hu1 & _).
    destruct (Hka ltac:(lia) Hu1) as (r2 & st2 & Hrun2 & Hcase2).
    exists r2, st2. split; [unfold bind; rewrite Hrun; exact Hrun2|].
    destruct (n2 <=? room st1) eqn:E2.
    + apply Z.leb_le in E2. rewrite (proj2 (Z.leb_le _ _)) by lia.
      destruct Hcase2 as [Hg Hadv2]. split; [exact Hg|].
      eapply advanced_trans; eauto.
    + apply Z.leb_gt in E2. rewrite (proj2 (Z.leb_gt _ _)) by lia.
      destruct Hcase2 as [Hb Hov]. split; [exact Hb|].
      eapply advanced_overran; eauto.
  - apply Z.leb_gt in E1. destruct Hcase as [Hb Hov].
    destruct (Hover r st1 Hb) as (r2 & st2 & Hrun2 & Hb2 & Hsame).
    exists r2, st2. split.
    + unfold bind in *. rewrite Hrun. exact Hrun2.
    + rewrite (proj2 (Z.leb_gt _ _)) by lia. split; [exact Hb2|].
      eapply overran_same_wire; eauto.
Qed.

Lemma set_parts_wire ps unread st : same_wire st (set_parts ps unread st).
Proof. repeat split. Qed.

(** A read of the current part that has content left. *)
Lemma Part_Read_reads (k : Z) (st : UploadState) :
  0 < k -> 0 < current_left st ->
  reads (Z.min k (current_left st)) (multipart.Part_Read k) st
    (fun r st' =>
       r = Val (Z.min k (current_left st),
                if current_left st - Z.min k (current_left st) <=? 0
                then Some EOF else None) /\
       pending st' = pending st /\
       current_left st' = current_left st - Z.min k (current_left st) /\
       same_session st st')
    (fun r => exists n, r = Val (n, Some ErrBodyTooLarge)).
Proof.
  intros Hk Hc Hn Hun. unfold multipart.Part_Read, bind, get.
  rewrite (proj2 (Z.leb_gt _ _)) by lia.
  destruct (Body_Read_reads (Z.min k (current_left st)) st ltac:(lia) Hn Hun)
    as (r & st1 & Hrun & Hcase).
  rewrite Hrun.
  destruct (Z.min k (current_left st) <=? room st).
  - destruct Hcase as [(-> & [Hpend Hcur] & Hsess) Hadv].
    unfold modify, ret. cbv beta iota.
    destruct (current_left st - Z.min k (current_left st) <=? 0);
      (eexists; eexists; split; [reflexivity|]); cbn [snd];
      (split;
       [ split; [reflexivity|]; split; [reflexivity|]; split; [reflexivity|];
         eapply same_session_trans; [exact Hsess | apply set_parts_session]
       | eapply advanced_same_wire; [exact Hadv | apply set_parts_wire] ]).
  - destruct Hcase as [(n & ->) Hov]. unfold modify, ret. cbv beta iota.
    eexists. eexists. split; [reflexivity|]. split; [eauto|].
    eapply overran_same_wire; [exact Hov | apply set_parts_wire].
Qed.

Lemma Part_Read_done (k : Z) (st : UploadState) :
  current_left st <= 0 -> multipart.Part_Read k st = (Val (0, Some EOF), st).
Proof.
  intros Hc. unfold multipart.Part_Read, bind, get.
  rewrite (proj2 (Z.leb_le _ _)) by lia. reflexivity.
Qed.

(** The decoder of the upload info reads the content of its part. *)
Lemma decodeInfo_reads (part : Part) (info : list domain.ProjectFile)
    (st : UploadState) :
  current_left st = ContentLen part -> 0 <= ContentLen part ->
  AsJSON part = Ok info ->
  reads (ContentLen part) (decodeInfo part) st
    (fun r st' => exists a, r = Val a /\ a = info /\ pending st' = pending st /\
                            current_left st' = 0 /\ same_session st st')
    failsOver.
Proof.
  intros Hcur Hlen Hjson Hn Hun. unfold decodeInfo, bind.
  destruct (Z.eq_dec (ContentLen part) 0) as [H0|H0].
  - rewrite Part_Read_done by lia. rewrite H0. cbn [Z.ltb Z.compare]. rewrite Hjson.
    exists (Val info), st. split; [reflexivity|].
    rewrite (proj2 (Z.leb_le _ _)) by apply Hun.
    split; [|apply advanced_refl, Hun].
    exists info. repeat split; try lia. 
  - destruct (Part_Read_reads (ContentLen part) st ltac:(lia) ltac:(lia))
      as (r & st1 & Hrun & Hcase).
    { rewrite Hcur, Z.min_id. exact Hn. }
    { exact Hun. }
    rewrite Hcur, Z.min_id, Z.sub_diag in Hcase. cbn [Z.leb Z.compare] in Hcase.
    rewrite Hrun.
    destruct (ContentLen part <=? room st).
    + destruct Hcase as [(-> & Hpend & Hc1 & Hsess) Hadv].
      rewrite Z.ltb_irrefl, Hjson. exists (Val info), st1. split; [reflexivity|].
      split; [|exact Hadv]. exists info. auto.
    + destruct Hcase as [(n & ->) Hov].
      exists (Fail ErrBodyTooLarge), st1. split; [reflexivity|].
      split; [|exact Hov]. exists ErrBodyTooLarge. auto.
Qed.

(** The progress callback always returns, reads the clock once and leaves
    the body and the manifest alone. *)
Lemma progressCallback_returns (s : FileServer) (user : domain.User)
    (part : Part) (p : Z) (st : UploadState) :
  exists st',
    progressCallback s user part p st = (Val tt, st') /\
    ticks st' = S (ticks st) /\
    files st' = files st /\ wire_left st' = wire_left st /\
    limiter st' = limiter st /\ pending st' = pending st /\
    current_left st' = current_left st.
Proof.
  unfold progressCallback, bind, modify, time_Now, get, ret, Send, modify. cbn.
  destruct (500000000 <? clock s (ticks st) - lastNotification st);
    eexists; (split; [reflexivity|]); cbn; repeat split.
Qed.

Lemma progressCallback_wire (s : FileServer) (user : domain.User)
    (part : Part) (p : Z) (st : UploadState) :
  exists st',
    progressCallback s user part p st = (Val tt, st') /\
    same_wire st st' /\ same_part st st' /\ files st' = files st.
Proof.
  unfold progressCallback, bind, modify, time_Now, get, ret, Send, modify. cbn.
  destruct (500000000 <? clock s (ticks st) - lastNotification st);
    eexists; (split; [reflexivity|]); cbn; repeat split.
Qed.

(** A read of a [ProgressReader] is the read of its reader, followed by
    the callback when it is due; the callback leaves the body alone. *)
Lemma ProgressReader_Read_wire (s : FileServer) (user : domain.User) (part : Part)
    (pr : ProgressReader) (k n : Z) (err : option error) (reader' : ReadCloser)
    (st st1 : UploadState) :
  Callback pr = progressCallback s user part ->
  ReadCloser_Read (Reader pr) k st = (Val ((n, err), reader'), st1) ->
  exists pr' st',
    ProgressReader_Read pr k st = (Val ((n, err), pr'), st') /\
    Reader pr' = reader' /\ Callback pr' = Callback pr /\
    same_wire st1 st' /\ same_part st1 st' /\ files st' = files st1.
Proof.
  intros Hcb Hread. unfold ProgressReader_Read, bind. rewrite Hread.
  destruct ((Step pr <=? int_wrap (int_wrap (Progress pr + n) - lastVal pr))
            || bool_decide (err = Some EOF)).
  - rewrite Hcb.
    destruct (progressCallback_wire s user part (int_wrap (Progress pr + n)) st1)
      as (st' & -> & Hwire & Hpart & Hfiles).
    unfold ret. eexists. exists st'. split; [reflexivity|]. cbn. auto.
  - unfold ret. eexists. exists st1. split; [reflexivity|]. cbn.
    split; [reflexivity|]. split; [reflexivity|]. split; [apply same_wire_refl|].
    split; [split; reflexivity | reflexivity].
Qed.

Lemma reads_pure {A} (m : M UploadState A) (st st' : UploadState) (r : Res A)
    (good : Res A -> UploadState -> Prop) (bad : Res A -> Prop) :
  m st = (r, st') -> same_wire st st' -> good r st' ->
  reads 0 m st good bad.
Proof.
  intros Hrun Hsame Hgood _ Hun. exists r, st'. split; [exact Hrun|].
  rewrite (proj2 (Z.leb_le _ _)) by apply Hun.
  split; [exact Hgood|].
  eapply advanced_same_wire; [apply advanced_refl, Hun | exact Hsame].
Qed.

Lemma reads_need {A} (n n' : Z) (m : M UploadState A) (st : UploadState)
    (good : Res A -> UploadState -> Prop) (bad : Res A -> Prop) :
  n = n' -> reads n m st good bad -> reads n' m st good bad.
Proof. intros ->. auto. Qed.

(** A read of a [ProgressReader] over a part that has content left. *)
Lemma ProgressReader_Read_part (s : FileServer) (user : domain.User) (part : Part)
    (pr : ProgressReader) (k : Z) (st : UploadState) :
  Reader pr = PartReader -> Callback pr = progressCallback s user part ->
  0 < k -> 0 < current_left st ->
  reads (Z.min k (current_left st)) (ProgressReader_Read pr k) st
    (fun r st' =>
       exists pr',
         r = Val ((Z.min k (current_left st),
                   if current_left st - Z.min k (current_left st) <=? 0
                   then Some EOF else None), pr') /\
         Reader pr' = PartReader /\ Callback pr' = Callback pr /\
         pending st' = pending st /\
         current_left st' = current_left st - Z.min k (current_left st) /\
         files st' = files st)
    (fun r => exists n pr', r = Val ((n, Some ErrBodyTooLarge), pr')).
Proof.
  intros Hreader Hcb Hk Hc Hn Hun.
  destruct (Part_Read_reads k st Hk Hc Hn Hun) as (r & st1 & Hrun & Hcase).
  destruct (Z.min k (current_left st) <=? room st).
  - destruct Hcase as [(-> & Hpend & Hcur & Hsess) Hadv].
    destruct (ProgressReader_Read_wire s user part pr k (Z.min k (current_left st))
                (if current_left st - Z.min k (current_left st) <=? 0
                 then Some EOF else None) PartReader st st1 Hcb)
      as (pr' & st' & Hpr & Hr' & Hcb' & Hwire & [Hp' Hc'] & Hfiles).
    { rewrite Hreader. unfold ReadCloser_Read, bind. rewrite Hrun. reflexivity. }
    exists (Val ((Z.min k (current_left st),
                  if current_left st - Z.min k (current_left st) <=? 0
                  then Some EOF else None), pr')), st'.
    split; [exact Hpr|]. split.
    + exists pr'. split; [reflexivity|]. split; [exact Hr'|]. split; [exact Hcb'|].
      split; [congruence|]. split; [congruence|].
      destruct Hsess as (_ & _ & _ & _ & Hf). congruence.
    + eapply advanced_same_wire; eauto.
  - destruct Hcase as [(n & ->) Hov].
    destruct (ProgressReader_Read_wire s user part pr k n (Some ErrBodyTooLarge)
                PartReader st st1 Hcb)
      as (pr' & st' & Hpr & _ & _ & Hwire & _).
    { rewrite Hreader. unfold ReadCloser_Read, bind. rewrite Hrun. reflexivity. }
    eexists. exists st'. split; [exact Hpr|]. split; [eauto|].
    eapply overran_same_wire; eauto.
Qed.

(** The engine's copy of a part that is handed on as it is. *)
Lemma copy_part_reads (s : FileServer) (user : domain.User) (part : Part) :
  forall (fuel : nat) (pr : ProgressReader) (st : UploadState),
    Reader pr = PartReader -> Callback pr = progressCallback s user part ->
    0 <= current_left st <= 32768 * Z.of_nat fuel -> (0 < fuel)%nat ->
    reads (current_left st) (engine.copy fuel pr) st
      (fun r st' => exists size, r = Val size /\ pending st' = pending st /\
                                 current_left st' = 0 /\ files st' = files st)
      failsOver.
Proof.
  induction fuel as [|fuel IH]; intros pr st Hreader Hcb Hlen Hfuel; [lia|].
  cbn [engine.copy]. change (32 * 1024) with 32768.
  destruct (Z.eq_dec (current_left st) 0) as [Hzero|Hpos].
  - intros Hn Hun.
    destruct (ProgressReader_Read_wire s user part pr 32768 0 (Some EOF) PartReader
                st st Hcb)
      as (pr' & st' & Hpr & _ & _ & Hwire & [Hp' Hc'] & Hfiles).
    { rewrite Hreader. unfold ReadCloser_Read, bind.
      rewrite Part_Read_done by lia. reflexivity. }
    unfold bind. rewrite Hpr. cbv beta iota.
    eexists. exists st'. split; [reflexivity|].
    rewrite Hzero. rewrite (proj2 (Z.leb_le _ _)) by apply Hun.
    split.
    + eexists. split; [reflexivity|]. split; [congruence|].
      split; [congruence|exact Hfiles].
    + eapply advanced_same_wire; [apply advanced_refl, Hun | exact Hwire].
  - apply (reads_need (Z.min 32768 (current_left st)
                       + (current_left st - Z.min 32768 (current_left st))));
      [lia|].
    eapply reads_bind_gen; [lia | lia | | | ].
    + apply (ProgressReader_Read_part s user part pr 32768 st Hreader Hcb); lia.
    + intros r st1 (pr' & -> & Hr' & Hcb' & Hpend & Hcur & Hfiles) Hadv.
      eexists. split; [reflexivity|]. cbv beta iota.
      destruct (current_left st - Z.min 32768 (current_left st) <=? 0) eqn:Edone.
      * apply Z.leb_le in Edone.
        apply (reads_need 0); [lia|].
        apply reads_ret. eexists. split; [reflexivity|]. split; [exact Hpend|].
        split; [lia | exact Hfiles].
      * apply Z.leb_gt in Edone.
        apply (reads_need (current_left st1)); [lia|].
        eapply reads_weaken.
        -- apply IH; [exact Hr' | congruence | lia | lia].
        -- cbv beta. intros r st' (size & -> & Hp & Hc & Hf) _.
           eexists. split; [reflexivity|]. split; [congruence|].
           split; [exact Hc | congruence].
        -- auto.
    + intros r st1 (n & pr' & ->). unfold bind. cbv beta iota.
      eexists. exists st1. split; [reflexivity|].
      split; [|apply same_wire_refl]. eexists. split; [reflexivity|]. reflexivity.
Qed.

(** The engine's copy of a gzip reader whose content was pulled: no
    byte of the body is read. *)
Lemma copy_gzip_pulled (s : FileServer) (user : domain.User) (part : Part) :
  forall (fuel : nat) (pr : ProgressReader) (st : UploadState) (inflated : Z),
    Reader pr = GzipReader inflated true ->
    Callback pr = progressCallback s user part ->
    inflated <= 32768 * Z.of_nat fuel -> (0 < fuel)%nat ->
    exists size st',
      engine.copy fuel pr st = (Val size, st') /\
      same_wire st st' /\ same_part st st' /\ files st' = files st.
Proof.
  induction fuel as [|fuel IH]; intros pr st inflated Hreader Hcb Hlen Hfuel; [lia|].
  cbn [engine.copy]. change (32 * 1024) with 32768.
  destruct (inflated <=? 32768) eqn:Elast.
  - destruct (ProgressReader_Read_wire s user part pr 32768 (Z.max 0 inflated)
                (Some EOF) (GzipReader 0 true) st st Hcb)
      as (pr' & st' & Hpr & _ & _ & Hwire & Hpart & Hfiles).
    { rewrite Hreader. unfold ReadCloser_Read, bind, get, ret. cbn. rewrite Elast.
      reflexivity. }
    unfold bind. rewrite Hpr. cbv beta iota. eexists. exists st'.
    split; [reflexivity|]. auto.
  - apply Z.leb_gt in Elast.
    destruct (ProgressReader_Read_wire s user part pr 32768 32768 None
                (GzipReader (inflated - 32768) true) st st Hcb)
      as (pr' & st1 & Hpr & Hr' & Hcb' & Hwire & [Hp1 Hc1] & Hfiles).
    { rewrite Hreader. unfold ReadCloser_Read, bind, get, ret. cbn.
      rewrite (proj2 (Z.leb_gt _ _)) by lia. reflexivity. }
    unfold bind. rewrite Hpr. cbv beta iota.
    destruct (IH pr' st1 (inflated - 32768) Hr' ltac:(congruence) ltac:(lia) ltac:(lia))
      as (size & st' & Hrun & Hwire' & [Hp' Hc'] & Hfiles').
    exists size, st'. split; [exact Hrun|].
    split; [eapply same_wire_trans; eauto|].
    split; [split; congruence | congruence].
Qed.

(** The engine's copy of a part that is decompressed. *)
Lemma copy_gzip_reads (s : FileServer) (user : domain.User) (part : Part)
    (fuel : nat) (pr : ProgressReader) (st : UploadState) (inflated : Z) :
  Reader pr = GzipReader inflated false ->
  Callback pr = progressCallback s user part ->
  0 <= current_left st ->
  inflated <= 32768 * Z.of_nat fuel -> (0 < fuel)%nat ->
  reads (current_left st) (engine.copy fuel pr) st
    (fun r st' => exists size, r = Val size /\ pending st' = pending st /\
                               current_left st' = 0 /\ files st' = files st)
    failsOver.
Proof.
  intros Hreader Hcb Hcur Hlen Hfuel.
  destruct fuel as [|fuel]; [lia|].
  cbn [engine.copy]. change (32 * 1024) with 32768.
  (* the first read: what the reader over the part returns *)
  assert (Hfirst :
    reads (current_left st) (ProgressReader_Read pr 32768) st
      (fun r st' =>
         exists n err pr',
           r = Val ((n, err), pr') /\ Callback pr' = Callback pr /\
           pending st' = pending st /\ current_left st' = 0 /\
           files st' = files st /\
           ((err = Some EOF) \/
            (err = None /\ 32768 < inflated /\
             Reader pr' = GzipReader (inflated - 32768) true)))
      (fun r => exists pr', r = Val ((0, Some ErrBodyTooLarge), pr'))).
  { intros Hn Hun.
    assert (Hpart :
      exists r st1,
        multipart.Part_Read (current_left st) st = (r, st1) /\
        if current_left st <=? room st
        then (exists n, r = Val (n, Some EOF)) /\ pending st1 = pending st /\
             current_left st1 = 0 /\ files st1 = files st /\
             advanced (current_left st) st st1
        else (exists n, r = Val (n, Some ErrBodyTooLarge)) /\ overran st st1).
    { destruct (Z.eq_dec (current_left st) 0) as [Hzero|Hpos].
      - rewrite Part_Read_done by lia. eexists. exists st. split; [reflexivity|].
        rewrite Hzero. rewrite (proj2 (Z.leb_le _ _)) by apply Hun.
        split; [eauto|]. split; [reflexivity|]. split; [reflexivity|].
        split; [reflexivity | apply advanced_refl, Hun].
      - destruct (Part_Read_reads (current_left st) st ltac:(lia) ltac:(lia))
          as (r & st1 & Hrun & Hcase).
        { rewrite Z.min_id. exact Hn. }
        { exact Hun. }
        rewrite Z.min_id, Z.sub_diag in Hcase. cbn [Z.leb Z.compare] in Hcase.
        exists r, st1. split; [exact Hrun|].
        destruct (current_left st <=? room st).
        + destruct Hcase as [(-> & Hp & Hc & Hsess) Hadv].
          split; [eauto|]. split; [exact Hp|]. split; [exact Hc|].
          split; [apply Hsess | exact Hadv].
        + exact Hcase. }
    destruct Hpart as (r & st1 & Hrun & Hcase).
    destruct (current_left st <=? room st).
    - destruct Hcase as [(n & ->) (Hp & Hc & Hf & Hadv)].
      destruct (inflated <=? 32768) eqn:Elast.
      + destruct (ProgressReader_Read_wire s user part pr 32768 (Z.max 0 inflated)
                    (Some EOF) (GzipReader 0 true) st st1 Hcb)
          as (pr' & st' & Hpr & _ & Hcb' & Hwire & [Hp' Hc'] & Hfiles).
        { rewrite Hreader. unfold ReadCloser_Read, bind, get, ret. cbv beta iota.
          rewrite Hrun. cbv beta iota. cbn [snd]. rewrite Elast. reflexivity. }
        eexists. exists st'. split; [exact Hpr|]. split.
        * eexists. eexists. exists pr'. split; [reflexivity|].
          split; [exact Hcb'|]. split; [congruence|]. split; [congruence|].
          split; [congruence|]. left. reflexivity.
        * eapply advanced_same_wire; eauto.
      + apply Z.leb_gt in Elast.
        destruct (ProgressReader_Read_wire s user part pr 32768 32768 None
                    (GzipReader (inflated - 32768) true) st st1 Hcb)
          as (pr' & st' & Hpr & Hr' & Hcb' & Hwire & [Hp' Hc'] & Hfiles).
        { rewrite Hreader. unfold ReadCloser_Read, bind, get, ret. cbv beta iota.
          rewrite Hrun. cbv beta iota. cbn [snd].
          rewrite (proj2 (Z.leb_gt _ _)) by lia. reflexivity. }
        eexists. exists st'. split; [exact Hpr|]. split.
        * eexists. eexists. exists pr'. split; [reflexivity|].
          split; [exact Hcb'|]. split; [congruence|]. split; [congruence|].
          split; [congruence|]. right. auto.
        * eapply advanced_same_wire; eauto.
    - destruct Hcase as [(n & ->) Hov].
      destruct (ProgressReader_Read_wire s user part pr 32768 0 (Some ErrBodyTooLarge)
                  (BrokenGzip ErrBodyTooLarge) st st1 Hcb)
        as (pr' & st' & Hpr & _ & _ & Hwire & _).
      { rewrite Hreader. unfold ReadCloser_Read, bind, get, ret. cbv beta iota.
        rewrite Hrun. reflexivity. }
      eexists. exists st'. split; [exact Hpr|]. split; [eauto|].
      eapply overran_same_wire; eauto. }
  apply (reads_need (current_left st + 0)); [lia|].
  eapply reads_bind_gen; [lia | lia | exact Hfirst | | ].
  - intros r st1 (n & err & pr' & -> & Hcb' & Hp & Hc & Hf & Herr) Hadv.
    eexists. split; [reflexivity|]. cbv beta iota.
    destruct Herr as [-> | (-> & Hbig & Hr')].
    + apply reads_ret. eexists. split; [reflexivity|]. auto.
    + destruct (copy_gzip_pulled s user part fuel pr' st1 (inflated - 32768) Hr'
                  ltac:(congruence) ltac:(lia) ltac:(lia))
        as (size & st' & Hrun & Hwire & [Hp' Hc'] & Hf').
      eapply reads_pure; [exact Hrun | exact Hwire|].
      eexists. split; [reflexivity|]. split; [congruence|].
      split; [congruence | congruence].
  - intros r st1 (pr' & ->). unfold bind. cbv beta iota.
    eexists. exists st1. split; [reflexivity|].
    split; [|apply same_wire_refl]. eexists. split; [reflexivity|]. reflexivity.
Qed.

Lemma reads_for_enough (len : Z) :
  len <= 32768 * Z.of_nat (engine.reads_for len) /\ (0 < engine.reads_for len)%nat.
Proof.
  unfold engine.reads_for. change (32 * 1024) with 32768. split; [|lia].
  rewrite Nat2Z.inj_add. change (Z.of_nat 2) with 2.
  destruct (Z_le_gt_dec 0 len) as [Hpos|Hneg].
  - rewrite Z2Nat.id by (apply Z.div_pos; lia).
    pose proof (Z.div_mod len 32768 ltac:(lia)) as Hdm.
    pose proof (Z.mod_pos_bound len 32768 ltac:(lia)). lia.
  - lia.
Qed.

Lemma reads_shift {A} (n : Z) (m m' : M UploadState A) (st st1 : UploadState)
    (good : Res A -> UploadState -> Prop) (bad : Res A -> Prop) :
  m st = m' st1 -> same_wire st st1 ->
  reads n m' st1 good bad -> reads n m st good bad.
Proof.
  intros Heq Hsame Hm Hn Hun.
  pose proof (same_wire_room st st1 Hsame) as Hroom.
  pose proof (same_wire_unsettled st st1 Hsame Hun) as Hun1.
  destruct Hsame as (Hw & Hl & Hc).
  destruct (Hm ltac:(lia) Hun1) as (r & st' & Hrun & Hcase).
  exists r, st'. split; [congruence|]. rewrite Hroom in Hcase.
  destruct (n <=? room st).
  - destruct Hcase as [Hg (Hw' & Hr' & Hu' & Hc')]. split; [exact Hg|].
    unfold advanced. split; [lia|]. split; [lia|]. split; [exact Hu' | congruence].
  - destruct Hcase as [Hb (Hs & Hw')]. split; [exact Hb|]. split; [exact Hs | lia].
Qed.

Lemma reads_get {A} (n : Z) (k : UploadState -> M UploadState A) (st : UploadState)
    (good : Res A -> UploadState -> Prop) (bad : Res A -> Prop) :
  reads n (k st) st good bad -> reads n (bind get k) st good bad.
Proof. intros H. exact H. Qed.

(** Go's [v, err := m()]: the error becomes a value. *)
Lemma reads_try {A} (n : Z) (m : M UploadState A) (st : UploadState)
    (good : Res A -> UploadState -> Prop) (bad : Res A -> Prop) :
  reads n m st good bad ->
  (forall why st', ~ good (Panic why) st') -> (forall why, ~ bad (Panic why)) ->
  reads n (try m) st
    (fun r st' => exists x, r = Val x /\
                   good (match x with Ok a => Val a | Err e => Fail e end) st')
    (fun r => exists x, r = Val x /\
                bad (match x with Ok a => Val a | Err e => Fail e end)).
Proof.
  intros Hm Hg Hb Hn Hun. destruct (Hm Hn Hun) as (r & st' & Hrun & Hcase).
  unfold try. rewrite Hrun.
  destruct (n <=? room st); destruct Hcase as [H1 H2].
  - destruct r as [a|e|why]; [| |exfalso; exact (Hg _ _ H1)];
      eexists; exists st'; (split; [reflexivity|]); (split; [|exact H2]); eauto.
  - destruct r as [a|e|why]; [| |exfalso; exact (Hb _ H1)];
      eexists; exists st'; (split; [reflexivity|]); (split; [|exact H2]); eauto.
Qed.

Lemma failsOver_not_panic {A} (why : string) : ~ @failsOver A (Panic why).
Proof. intros (e & H & _). discriminate H. Qed.

Lemma sizeLimitError_not_EOF (e : error) : sizeLimitError e = true -> e <> EOF.
Proof. intros H ->. discriminate H. Qed.

(** [NextPart] when a part is pending and the part before it was read to
    its end: the delimiter line and the header block are read. *)
Lemma NextPart_reads_part (p : Part) (rest : list Part) (st : UploadState) :
  pending st = p :: rest -> current_left st = 0 ->
  0 <= DelimiterLen p -> 0 <= HeaderLen p ->
  reads (DelimiterLen p + HeaderLen p) multipart.NextPart st
    (fun r st' => r = Val p /\ pending st' = rest /\
                  current_left st' = ContentLen p /\ same_session st st')
    failsOver.
Proof.
  intros Hpend Hcur Hd Hh.
  eapply (reads_shift _ _
            (let* r := try (pull (DelimiterLen p)) in
             match r with
             | Err err => throw (multipart.NextPartError err)
             | Ok _ => pull (HeaderLen p) >>
                       modify (set_parts rest (ContentLen p)) >> ret p
             end) st (set_parts (p :: rest) 0 st)).
  { unfold multipart.NextPart. unfold bind at 1, get. rewrite Hcur.
    unfold bind at 1, try at 1, pull at 1. cbn [Z.leb Z.compare ret].
    rewrite Hpend. unfold bind at 1, modify at 1. reflexivity. }
  { apply set_parts_wire. }
  eapply reads_bind_gen; [exact Hd | exact Hh | | | ].
  - apply reads_try; [apply pull_reads | | ].
    + intros why st' (a & H & _). discriminate H.
    + intros why H. discriminate H.
  - cbv beta. intros r st1 (x & -> & Hx) Hadv.
    destruct x as [[]|e]; [|destruct Hx as (a & H & _); discriminate H].
    destruct Hx as (_ & _ & [Hp1 Hc1] & Hs1).
    eexists. split; [reflexivity|]. cbv beta iota.
    apply (reads_need (HeaderLen p + 0)); [lia|].
    eapply reads_bind; [exact Hh | lia | apply pull_reads | | ].
    + intros r ->. eexists. split; [reflexivity|]. exists ErrBodyTooLarge. auto.
    + cbv beta. intros [] st2 ([Hp2 Hc2] & Hs2) Hadv2.
      apply (reads_need (0 + 0)); [lia|].
      eapply reads_bind;
        [lia | lia | apply (reads_modify _ _ (fun _ => False)), set_parts_wire | | ].
      * intros r [].
      * cbv beta. intros [] st3 -> _. apply reads_ret.
        split; [reflexivity|]. split; [reflexivity|]. split; [reflexivity|].
        eapply same_session_trans; [apply set_parts_session|].
        eapply same_session_trans; [exact Hs1|].
        eapply same_session_trans; [exact Hs2 | apply set_parts_session].
  - cbv beta. intros r st1 (x & -> & Hx).
    destruct x as [a|e]; [discriminate Hx|]. injection Hx as ->.
    eexists. exists st1. split; [reflexivity|]. split; [|apply same_wire_refl].
    eexists. split; [reflexivity|]. reflexivity.
Qed.

(** [NextPart] after the last part: the closing delimiter is read. *)
Lemma NextPart_reads_end (st : UploadState) :
  pending st = [] -> current_left st = 0 -> 0 <= ClosingLen st ->
  reads (ClosingLen st) multipart.NextPart st
    (fun r st' => r = Fail EOF /\ pending st' = [] /\ current_left st' = 0 /\
                  same_session st st')
    failsOver.
Proof.
  intros Hpend Hcur Hclosing.
  eapply (reads_shift _ _
            (let* r := try (pull (ClosingLen st)) in
             match r with
             | Ok _ => throw EOF
             | Err err => throw (multipart.NextPartError err)
             end) st (set_parts [] 0 st)).
  { unfold multipart.NextPart. unfold bind at 1, get. rewrite Hcur.
    unfold bind at 1, try at 1, pull at 1. cbn [Z.leb Z.compare ret].
    rewrite Hpend. unfold bind at 1, modify at 1. reflexivity. }
  { apply set_parts_wire. }
  apply (reads_need (ClosingLen (set_parts [] 0 st) + 0)); [cbn; lia|].
  eapply reads_bind_gen; [exact Hclosing | lia | | | ].
  - apply reads_try; [apply pull_reads | | ].
    + intros why st' (a & H & _). discriminate H.
    + intros why H. discriminate H.
  - cbv beta. intros r st1 (x & -> & Hx) Hadv.
    destruct x as [[]|e]; [|destruct Hx as (a & H & _); discriminate H].
    destruct Hx as (_ & _ & [Hp1 Hc1] & Hs1).
    eexists. split; [reflexivity|]. cbv beta iota.
    apply reads_throw. split; [reflexivity|]. split; [exact Hp1|]. split; [exact Hc1|].
    eapply same_session_trans; [apply set_parts_session | exact Hs1].
  - cbv beta. intros r st1 (x & -> & Hx).
    destruct x as [a|e]; [discriminate Hx|]. injection Hx as ->.
    eexists. exists st1. split; [reflexivity|]. split; [|apply same_wire_refl].
    eexists. split; [reflexivity|]. reflexivity.
Qed.

(** [nextFile] when a part is pending: the part is handed on in a
    [ProgressReader], over a gzip reader when it is transferred
    compressed. *)
Lemma nextFile_reads_part (s : FileServer) (user : domain.User)
    (p : Part) (rest : list Part) (st : UploadState) :
  pending st = p :: rest -> current_left st = 0 ->
  0 <= DelimiterLen p -> 0 <= HeaderLen p ->
  reads (DelimiterLen p + HeaderLen p) (try (nextFile s user)) st
    (fun r st' =>
       exists pr,
         r = Val (Ok (FormName p, pr)) /\
         Reader pr = (if compressed p then fst (gzip_NewReader p) else PartReader) /\
         Callback pr = progressCallback s user p /\
         pending st' = rest /\ current_left st' = ContentLen p /\
         files st' = files st)
    (fun r => exists e, r = Val (Err e) /\ sizeLimitError e = true).
Proof.
  intros Hpend Hcur Hd Hh Hn Hun.
  destruct (NextPart_reads_part p rest st Hpend Hcur Hd Hh Hn Hun)
    as (r & st' & Hrun & Hcase).
  unfold try, nextFile, bind, try. rewrite Hrun.
  destruct (DelimiterLen p + HeaderLen p <=? room st).
  - destruct Hcase as [(-> & Hp & Hc & Hs) Hadv]. cbv beta iota.
    eexists. exists st'. split; [reflexivity|]. split; [|exact Hadv].
    eexists. split; [reflexivity|]. cbn [Reader Callback].
    split; [reflexivity|]. split; [reflexivity|]. split; [exact Hp|].
    split; [exact Hc | apply Hs].
  - destruct Hcase as [(e & -> & He) Hov]. cbv beta iota.
    rewrite bool_decide_eq_false_2 by (apply sizeLimitError_not_EOF, He).
    eexists. exists st'. split; [reflexivity|]. split; [eauto | exact Hov].
Qed.

(** [nextFile] after the last part: the closing delimiter is read and
    the final snapshot is sent. *)
Lemma nextFile_reads_end (s : FileServer) (user : domain.User) (st : UploadState) :
  pending st = [] -> current_left st = 0 -> 0 <= ClosingLen st ->
  reads (ClosingLen st) (try (nextFile s user)) st
    (fun r st' => r = Val (Err EOF) /\ files st' = files st)
    (fun r => exists e, r = Val (Err e) /\ sizeLimitError e = true).
Proof.
  intros Hpend Hcur Hclosing Hn Hun.
  destruct (NextPart_reads_end st Hpend Hcur Hclosing Hn Hun)
    as (r & st' & Hrun & Hcase).
  unfold try, nextFile, bind, try. rewrite Hrun.
  destruct (ClosingLen st <=? room st).
  - destruct Hcase as [(-> & Hp & Hc & Hs) Hadv]. cbv beta iota.
    rewrite bool_decide_eq_true_2 by reflexivity.
    unfold get, Send, modify, throw. cbv beta iota.
    eexists. eexists. split; [reflexivity|]. split.
    + split; [reflexivity|]. cbn. apply Hs.
    + eapply advanced_same_wire; [exact Hadv|]. repeat split.
  - destruct Hcase as [(e & -> & He) Hov]. cbv beta iota.
    rewrite bool_decide_eq_false_2 by (apply sizeLimitError_not_EOF, He).
    eexists. exists st'. split; [reflexivity|]. split; [eauto | exact Hov].
Qed.

(** The engine's copy of the stream [nextFile] made of a well-formed
    part. *)
Lemma copy_stream_reads (s : FileServer) (user : domain.User) (p : Part)
    (pr : ProgressReader) (st : UploadState) :
  wellFormed p ->
  Reader pr = (if compressed p then fst (gzip_NewReader p) else PartReader) ->
  Callback pr = progressCallback s user p ->
  current_left st = ContentLen p ->
  reads (ContentLen p) (engine.copy (engine.reads_for (engine.stream_len pr st)) pr) st
    (fun r st' => exists size, r = Val size /\ pending st' = pending st /\
                               current_left st' = 0 /\ files st' = files st)
    failsOver.
Proof.
  intros (_ & _ & Hlen & _ & Hgzip) Hreader Hcb Hcur.
  rewrite <- Hcur. unfold engine.stream_len. rewrite Hreader.
  destruct (compressed p).
  - unfold gzip_NewReader in *. rewrite (Hgzip eq_refl) in *. cbn [fst] in *.
    destruct (reads_for_enough (Inflated p)) as [Hfuel Hpos].
    apply (copy_gzip_reads s user p _ pr st (Inflated p) Hreader Hcb); [lia | exact Hfuel | exact Hpos].
  - destruct (reads_for_enough (current_left st)) as [Hfuel Hpos].
    apply (copy_part_reads s user p _ pr st Hreader Hcb); [lia | exact Hpos].
Qed.

Lemma wireLen_nonneg (parts : list Part) (closing : Z) :
  Forall wellFormed parts -> 0 <= closing -> 0 <= wireLen parts closing.
Proof.
  intros Hparts Hclosing. unfold wireLen.
  induction Hparts as [|p rest (Hd & Hh & Hc & _) _ IH]; cbn [fold_right]; lia.
Qed.

Lemma materialize_wire path size st : same_wire st (engine.materialize path size st).
Proof. repeat split. Qed.

(** The engine's loop over the streams of a well-formed upload reads the
    parts and the closing delimiter. *)
Lemma applyUpdates_reads (s : FileServer) (user : domain.User) :
  forall (parts : list Part) (fuel : nat) (st : UploadState),
    pending st = parts -> current_left st = 0 -> 0 <= ClosingLen st ->
    Forall wellFormed parts -> (length parts < fuel)%nat ->
    reads (wireLen parts (ClosingLen st))
      (engine.applyUpdates fuel (nextFile s user)) st
      (fun r st' => exists a, r = Val a)
      failsOver.
Proof.
  induction parts as [|p rest IH]; intros fuel st Hpend Hcur Hclosing Hparts Hfuel;
    (destruct fuel as [|fuel]; [cbn in Hfuel; lia|]); cbn [engine.applyUpdates].
  - apply (reads_need (ClosingLen st + 0)); [unfold wireLen; cbn [fold_right]; lia|].
    eapply reads_bind_gen;
      [exact Hclosing | lia | apply (nextFile_reads_end s user st Hpend Hcur Hclosing) | | ].
    + cbv beta. intros r st1 (-> & _) _. eexists. split; [reflexivity|].
      cbv beta iota. apply reads_ret. eauto.
    + cbv beta. intros r st1 (e & -> & He). unfold bind. cbv beta iota.
      exists (Fail (Wrapped "ContentReadError" e)), st1.
      split; [destruct e; try reflexivity; discriminate He|].
      split; [|apply same_wire_refl]. eexists. split; [reflexivity | exact He].
  - apply Forall_cons in Hparts. destruct Hparts as [Hp Hrest].
    pose proof Hp as (Hd & Hh & Hc & Hpath & _).
    pose proof (wireLen_nonneg rest (ClosingLen st) Hrest Hclosing) as Hnn.
    apply (reads_need ((DelimiterLen p + HeaderLen p)
                       + (ContentLen p + (0 + wireLen rest (ClosingLen st)))));
      [unfold wireLen; cbn [fold_right]; lia|].
    eapply reads_bind_gen;
      [lia | lia | apply (nextFile_reads_part s user p rest st Hpend Hcur Hd Hh) | | ].
    + cbv beta. intros r st1 (pr & -> & Hreader & Hcb & Hp1 & Hc1 & Hf1) Hadv1.
      eexists. split; [reflexivity|]. cbv beta iota. rewrite Hpath.
      apply reads_get.
      eapply reads_bind; [exact Hc | lia | | | ].
      * apply (copy_stream_reads s user p pr st1 Hp Hreader Hcb Hc1).
      * intros r (e & -> & He). eexists. split; [reflexivity|]. exists e. auto.
      * cbv beta. intros size st2 (Hp2 & Hc2 & Hf2) Hadv2.
        eapply reads_bind;
          [lia | lia
          | apply (reads_modify _ _ (fun _ => False)), materialize_wire | | ].
        -- intros r [].
        -- cbv beta. intros [] st3 -> Hadv3.
           destruct Hadv1 as (_ & _ & _ & Hcl1). destruct Hadv2 as (_ & _ & _ & Hcl2).
           replace (ClosingLen st) with
             (ClosingLen (engine.materialize (FormName p) size st2))
             by (cbn; congruence).
           apply IH; [cbn; congruence | exact Hc2 | cbn; congruence | | cbn in Hfuel; lia].
           replace (ClosingLen (engine.materialize (FormName p) size st2))
             with (ClosingLen st) by (cbn; congruence).
           exact Hrest.
    + cbv beta. intros r st1 (e & -> & He). unfold bind. cbv beta iota.
      exists (Fail (Wrapped "ContentReadError" e)), st1.
      split; [destruct e; try reflexivity; discriminate He|].
      split; [|apply same_wire_refl]. eexists. split; [reflexivity | exact He].
Qed.

Lemma reads_bind_fail {A B} (n1 n2 : Z) (m : M UploadState A) (k : A -> M UploadState B)
    (st : UploadState) (good1 : Res A -> UploadState -> Prop)
    (good : Res B -> UploadState -> Prop) :
  0 <= n1 -> 0 <= n2 ->
  reads n1 m st good1 failsOver ->
  (forall r st1, good1 r st1 -> advanced n1 st st1 ->
     exists a, r = Val a /\ reads n2 (k a) st1 good failsOver) ->
  reads (n1 + n2) (bind m k) st good failsOver.
Proof.
  intros Hn1 Hn2 Hm Hk. eapply reads_bind_gen; [exact Hn1 | exact Hn2 | exact Hm | exact Hk|].
  intros r st1 (e & -> & He). exists (Fail e), st1. split; [reflexivity|].
  split; [exists e; auto | apply same_wire_refl].
Qed.

(** The engine on a well-formed upload that passes its checks: the parts
    that are pending and the closing delimiter are read. *)
Lemma UpdateFiles_reads (s : FileServer) (user : domain.User) (limit : option Z)
    (projectName : string) (changes : domain.FilesChanges) (st : UploadState) :
  current_left st = 0 -> 0 <= ClosingLen st -> Forall wellFormed (pending st) ->
  existsb engine.escapesRoot (map domain.Path (domain.Updates changes))
    || existsb engine.escapesRoot (domain.Removes changes) = false ->
  match limit with
  | Some most => most <? engine.declaredTotal changes
  | None => false
  end = false ->
  reads (wireLen (pending st) (ClosingLen st))
    (engine.UpdateFiles limit projectName changes (Some (nextFile s user))) st
    (fun r st' => exists a, r = Val a) failsOver.
Proof.
  intros Hcur Hclosing Hparts Hpaths Hsize. unfold engine.UpdateFiles.
  rewrite Hpaths, Hsize.
  pose proof (wireLen_nonneg _ _ Hparts Hclosing) as Hnn.
  apply (reads_need (wireLen (pending st) (ClosingLen st) + (0 + 0))); [lia|].
  eapply reads_bind_fail; [exact Hnn | lia | | ].
  - apply reads_get.
    apply (applyUpdates_reads s user (pending st)); auto.
  - cbv beta. intros r st1 (a & ->) _. eexists. split; [reflexivity|].
    eapply reads_bind_fail; [lia | lia | | ].
    + apply reads_modify. repeat split.
    + cbv beta. intros r st2 (a2 & -> & _) _. eexists. split; [reflexivity|].
      apply reads_get. apply reads_ret. eauto.
Qed.

Lemma time_Now_run (s : FileServer) (st : UploadState) :
  time_Now s st = (Val (clock s (ticks st)), set_ticks (S (ticks st)) st).
Proof. reflexivity. Qed.

(** The part of [handleUpload] that follows the wrapping of the body, for
    the services with the engine of the design. *)
Section UploadBody.

Variables (user : domain.User) (clock : nat -> Z) (projectName : string).
Variables (info : Part) (fileParts : list Part) (declared : list domain.ProjectFile).

Hypothesis Hdelim : 0 <= DelimiterLen info.
Hypothesis Hheader : 0 <= HeaderLen info.
Hypothesis Hcontent : 0 <= ContentLen info.
Hypothesis Hjson : AsJSON info = Ok declared.
Hypothesis Hparts : Forall wellFormed fileParts.
Hypothesis Hpaths : existsb engine.escapesRoot (map domain.Path declared) = false.


(** Up to the call of the engine the info part is read. *)
Lemma uploadBody_reads (st : UploadState)
    (good : Res Reply -> UploadState -> Prop) (rest : Z) :
  pending st = info :: fileParts -> current_left st = 0 -> 0 <= rest ->
  (forall st1,
     pending st1 = fileParts -> current_left st1 = 0 ->
     ClosingLen st1 = ClosingLen st -> files st1 = files st ->
     reads rest
       (engine.UpdateFiles (engine.cap user) projectName
          {| domain.Updates := declared; domain.Removes := [] |}
          (Some (nextFile (engineServer user clock) user)) >> ret (NoContent 200))
       st1 good failsOver) ->
  reads (DelimiterLen info + HeaderLen info + ContentLen info + rest)
        (uploadBody (engineServer user clock) user projectName) st good failsOver.
Proof.
  intros Hpend Hcur Hrest Hengine. unfold uploadBody.
  apply (reads_need ((DelimiterLen info + HeaderLen info)
                     + (ContentLen info + (0 + (0 + (0 + rest)))))); [lia|].
  eapply reads_bind_fail;
    [lia | lia | apply (NextPart_reads_part info fileParts st Hpend Hcur Hdelim Hheader)|].
  cbv beta. intros r st1 (-> & Hp1 & Hc1 & Hs1) Hadv1.
  eexists. split; [reflexivity|].
  eapply reads_bind_fail;
    [lia | lia | apply (decodeInfo_reads info declared st1 Hc1 Hcontent Hjson)|].
  cbv beta. intros r st2 (a & -> & -> & Hp2 & Hc2 & Hs2) Hadv2.
  eexists. split; [reflexivity|].
  eapply reads_bind_fail; [lia | lia | apply reads_modify; repeat split |].
  cbv beta. intros r st3 (a3 & -> & Hst3) _. eexists. split; [reflexivity|].
  eapply reads_bind_fail; [lia | lia | |].
  { apply (reads_pure _ _ _ _
             (fun r st' => exists now, r = Val now /\ st' = set_ticks (S (ticks st3)) st3)
             failsOver (time_Now_run _ st3)); [repeat split | eauto]. }
  cbv beta. intros r st4 (now & -> & Hst4) _. eexists. split; [reflexivity|].
  eapply reads_bind_fail; [lia | lia | apply reads_modify; repeat split |].
  cbv beta. intros r st5 (a5 & -> & Hst5) _. eexists. split; [reflexivity|].
  cbv zeta. cbn [projects_UpdateFiles engineServer].
  apply Hengine; subst st5 st4 st3; cbn.
  - congruence.
  - exact Hc2.
  - destruct Hadv1 as (_ & _ & _ & H1). destruct Hadv2 as (_ & _ & _ & H2). congruence.
  - destruct Hs1 as (_ & _ & _ & _ & H1). destruct Hs2 as (_ & _ & _ & _ & H2). congruence.
Qed.

(** An upload that passes the checks of the engine: the whole body is
    read, and the answer is 200. *)
Lemma uploadBody_accepted (st : UploadState) :
  pending st = info :: fileParts -> current_left st = 0 -> 0 <= ClosingLen st ->
  match engine.cap user with
  | Some most =>
      most <? engine.declaredTotal {| domain.Updates := declared; domain.Removes := [] |}
  | None => false
  end = false ->
  reads (wireLen (info :: fileParts) (ClosingLen st))
    (uploadBody (engineServer user clock) user projectName) st
    (fun r st' => r = Val (NoContent 200)) failsOver.
Proof.
  intros Hpend Hcur Hclosing Hsize.
  pose proof (wireLen_nonneg _ _ Hparts Hclosing) as Hnn.
  apply (reads_need (DelimiterLen info + HeaderLen info + ContentLen info
                     + wireLen fileParts (ClosingLen st)));
    [unfold wireLen; cbn [fold_right]; lia|].
  apply uploadBody_reads; [exact Hpend | exact Hcur | exact Hnn|].
  intros st1 Hp1 Hc1 Hcl1 _.
  apply (reads_need (wireLen (pending st1) (ClosingLen st1) + 0)); [rewrite Hp1, Hcl1; lia|].
  eapply reads_bind_fail; [rewrite Hp1, Hcl1; lia | lia | |].
  - apply UpdateFiles_reads; [exact Hc1 | lia | rewrite Hp1; exact Hparts | | exact Hsize].
    cbn [domain.Updates domain.Removes existsb]. rewrite Hpaths. reflexivity.
  - cbv beta. intros r st2 (a & ->) _. eexists. split; [reflexivity|].
    apply reads_ret. reflexivity.
Qed.

(** An upload whose declared total exceeds the cap of the caller: the
    engine refuses it once the info part is read. *)
Lemma uploadBody_refused (st : UploadState) (most : Z) :
  pending st = info :: fileParts -> current_left st = 0 ->
  engine.cap user = Some most ->
  most < engine.declaredTotal {| domain.Updates := declared; domain.Removes := [] |} ->
  reads (DelimiterLen info + HeaderLen info + ContentLen info)
    (uploadBody (engineServer user clock) user projectName) st
    (fun r st' => r = Fail engine.SizeLimitExceeded /\ files st' = files st)
    failsOver.
Proof.
  intros Hpend Hcur Hcap Hover.
  apply (reads_need (DelimiterLen info + HeaderLen info + ContentLen info + 0)); [lia|].
  apply uploadBody_reads; [exact Hpend | exact Hcur | lia|].
  intros st1 _ _ _ Hf1.
  assert (Hrun :
    (engine.UpdateFiles (engine.cap user) projectName
       {| domain.Updates := declared; domain.Removes := [] |}
       (Some (nextFile (engineServer user clock) user)) >> ret (NoContent 200)) st1
    = (Fail engine.SizeLimitExceeded, st1)).
  { unfold bind, engine.UpdateFiles. cbn [domain.Updates domain.Removes existsb].
    rewrite Hpaths, Hcap. cbn [orb].
    rewrite (proj2 (Z.ltb_lt _ _)) by exact Hover. reflexivity. }
  eapply reads_pure; [exact Hrun | apply same_wire_refl | auto].
Qed.

End UploadBody.

(** [decodeInfo] leaves the session alone, never panics, and what it
    returns is the decoded content of the part. *)
Lemma decodeInfo_outcome (part : Part) (st : UploadState) :
  exists r st',
    decodeInfo part st = (r, st') /\ same_session st st' /\
    ((exists e, r = Fail e) \/ (exists info, r = Val info /\ AsJSON part = Ok info)).
Proof.
  unfold decodeInfo, bind.
  pose proof (Part_Read_session (ContentLen part) st) as Hs.
  destruct (Part_Read_returns (ContentLen part) st) as ([n err] & st1 & Hrun).
  rewrite Hrun in *. cbn [snd] in Hs.
  assert (Hdecode : exists r,
            (if n <? ContentLen part then throw ErrUnexpectedEOF
             else match AsJSON part with
                  | Ok info => ret info
                  | Err err => throw err
                  end) st1 = (r, st1) /\
            ((exists e, r = Fail e) \/
             (exists info, r = Val info /\ AsJSON part = Ok info))).
  { destruct (n <? ContentLen part); [eexists; split; [reflexivity | eauto]|].
    destruct (AsJSON part); eexists; (split; [reflexivity | eauto]). }
  destruct Hdecode as (r & Hr & Hcases).
  destruct err as [e|].
  - destruct e; try (eexists _, st1; split; [reflexivity | split; [exact Hs | eauto]]).
    exists r, st1. auto.
  - exists r, st1. auto.
Qed.

(** When the engine refuses the declared total, the upload leaves the
    files of the project as they are, whatever the limiter does. *)
Lemma uploadBody_refused_files (user : domain.User) (clock : nat -> Z)
    (projectName : string) (info : Part) (fileParts : list Part)
    (declared : list domain.ProjectFile) (most : Z) (st : UploadState) :
  pending st = info :: fileParts -> AsJSON info = Ok declared ->
  engine.cap user = Some most ->
  most < engine.declaredTotal {| domain.Updates := declared; domain.Removes := [] |} ->
  files (snd (uploadBody (engineServer user clock) user projectName st)) = files st.
Proof.
  intros Hpend Hjson Hcap Hover. unfold uploadBody.
  unfold bind at 1.
  pose proof (NextPart_session st) as Hs1.
  pose proof (NextPart_yields_first_pending st) as Hfirst.
  destruct (multipart.NextPart st) as [[part|e|w] st1]; cbn [snd] in Hs1;
    [|apply Hs1..].
  destruct (Hfirst part st1 eq_refl) as (rest & Hrest).
  assert (part = info) by congruence. subst part.
  unfold bind at 1.
  destruct (decodeInfo_outcome info st1) as (r & st2 & Hrun & Hs2 & Hcases).
  rewrite Hrun.
  assert (Hf2 : files st2 = files st).
  { destruct Hs1 as (_ & _ & _ & _ & H1). destruct Hs2 as (_ & _ & _ & _ & H2).
    congruence. }
  destruct Hcases as [(e & ->)|(a & -> & Ha)]; [exact Hf2|].
  assert (a = declared) by congruence. subst a.
  unfold bind, modify, time_Now, get, ret. cbv beta iota zeta.
  cbn [projects_UpdateFiles engineServer]. unfold engine.UpdateFiles.
  rewrite Hcap. cbn [domain.Updates domain.Removes existsb].
  rewrite (proj2 (Z.ltb_lt _ _)) by exact Hover.
  destruct (existsb engine.escapesRoot (map domain.Path declared) || false);
    exact Hf2.
Qed.

Lemma sizeLimitError_SizeLimitExceeded : sizeLimitError engine.SizeLimitExceeded = true.
Proof. reflexivity. Qed.

Lemma limitBody_run (user : domain.User) (st : UploadState) :
  limitBody user st =
  (Val tt, if domain.IsSuperuser user then st
           else set_limiter (Some (http.MaxBytesReader MaxProjectSize)) st).
Proof. unfold limitBody. destruct (domain.IsSuperuser user); reflexivity. Qed.

(** [handleUpload] on a multipart request of a known user: the body is
    wrapped for the users that are not superusers, and the upload is
    read. *)
Lemma handleUpload_run (s : FileServer) (c : UploadRequest) (user : domain.User)
    (params : gmap string string) (boundary : string) (st : UploadState) :
  MediaType c = Ok ("multipart/form-data", params) ->
  params !! "boundary" = Some boundary ->
  GetUser s = Ok user ->
  handleUpload s c st = uploadBody s user (project c) (snd (limitBody user st)).
Proof.
  intros Hmedia Hboundary Huser. unfold handleUpload.
  rewrite Hmedia, String.eqb_refl, Hboundary, Huser. cbn [negb].
  unfold bind at 1. rewrite limitBody_run. reflexivity.
Qed.

Lemma reads_taken {A} (need : Z) (m : M UploadState A) (st : UploadState)
    (good : Res A -> UploadState -> Prop) (bad : Res A -> Prop) :
  reads need m st good bad -> 0 <= need <= wire_left st -> unsettled st ->
  wire_left st - wire_left (snd (m st)) <= room st + 1.
Proof.
  intros Hreads Hneed Hun. destruct (Hreads Hneed Hun) as (r & st' & -> & Hcase).
  cbn [snd]. destruct (need <=? room st) eqn:Hfit.
  - destruct Hcase as (_ & Hw & _). apply Z.leb_le in Hfit. lia.
  - destruct Hcase as (_ & _ & Hw). lia.
Qed.




(** * Further properties of the OWS handler *)

(** The outcome of the handler and what it sent and wrote. *)
Lemma handleMapOws_outcome (L : Lib) (s : Server) (c : Context) :
  match fst (run_handleMapOws L s c) with
  | Val _ =>
      length (upstream (trace (snd (run_handleMapOws L s c)))) = 1%nat /\
      written (snd (run_handleMapOws L s c)) <> None
  | Fail _ =>
      upstream (trace (snd (run_handleMapOws L s c))) = [] /\
      written (snd (run_handleMapOws L s c)) = None
  | Panic why =>
      (upstream (trace (snd (run_handleMapOws L s c))) = [] /\
       written (snd (run_handleMapOws L s c)) = None) \/
      (why = ErrAbortHandler /\
       length (upstream (trace (snd (run_handleMapOws L s c)))) = 1%nat /\
       written (snd (run_handleMapOws L s c)) <> None)
  end.
Proof.
  remember (run_handleMapOws L s c) as run eqn:Hrun.
  unfold run_handleMapOws, handleMapOws in Hrun.
  destruct (BindQueryParams L c) as [params|e]; [|subst run; cbn; auto].
  unfold bind at 1 in Hrun. cbn [emit OwsState_init perms trace written app] in Hrun.
  destruct (projects_GetProjectInfo s (getProjectName c)) as [pInfo|e].
  2:{ subst run. destruct (errors_Is e ErrProjectNotExists); cbn; auto. }
  unfold bind at 1 in Hrun. cbn [emit perms trace written app] in Hrun.
  destruct (projects_GetSettings s (getProjectName c)) as [settings|e];
    [|subst run; cbn; auto].
  fold (wfsGate L s c params settings) in Hrun. fold (forwarded L c pInfo) in Hrun.
  fold (loaded c) in Hrun. unfold bind at 1 in Hrun.
  destruct (wfsGate_no_upstream L s c params settings (loaded c) eq_refl)
    as (Hup & Hwr & _).
  destruct (wfsGate L s c params settings (loaded c)) as [[[]|e|why] st];
    cbn [fst snd] in *.
  2:{ subst run. cbn [fst snd]. rewrite Hup, Hwr. auto. }
  2:{ subst run. cbn [fst snd]. rewrite Hup, Hwr. auto. }
  unfold ServeHTTP, ReverseProxy_ServeHTTP in Hrun.
  destruct (director L s (forwarded L c pInfo)) as [outreq|e|why].
  2:{ subst run. unfold throw. cbn [fst snd]. rewrite Hup, Hwr. auto. }
  2:{ subst run. unfold panic. cbn [fst snd]. rewrite Hup, Hwr. auto. }
  unfold bind, emit in Hrun. cbn in Hrun.
  destruct (RoundTrip L (outgoing L outreq)) as [res|e];
    [destruct (copyResponse L res)|];
    subst run; cbn; rewrite upstream_app, Hup; cbn;
    try right; repeat split; congruence.
Qed.

(** X1: what the handler sent and wrote, by its outcome. It returns nil
    exactly when it handed one request to the backend renderer and a
    response was written; when it returns an error, nothing was sent and
    nothing was written. When it panics, either nothing was sent and
    nothing was written, or the proxy aborted the handler with
    [http.ErrAbortHandler] after the one request was sent and the status
    of the response written, the copy of its body having failed. *)
Theorem X1_handleMapOws_sends_once_or_never (L : Lib) (s : Server) (c : Context) :
  match fst (run_handleMapOws L s c) with
  | Val _ =>
      length (upstream (trace (snd (run_handleMapOws L s c)))) = 1%nat /\
      written (snd (run_handleMapOws L s c)) <> None
  | Fail _ =>
      upstream (trace (snd (run_handleMapOws L s c))) = [] /\
      written (snd (run_handleMapOws L s c)) = None
  | Panic why =>
      (upstream (trace (snd (run_handleMapOws L s c))) = [] /\
       written (snd (run_handleMapOws L s c)) = None) \/
      (why = ErrAbortHandler /\
       length (upstream (trace (snd (run_handleMapOws L s c)))) = 1%nat /\
       written (snd (run_handleMapOws L s c)) <> None)
  end.
Proof. exact (handleMapOws_outcome L s c). Qed.

(** A request that reached the backend is what the proxy made of the
    request the director left, which it made of the request built for the
    loaded project. *)
Lemma handleMapOws_upstream_inv (L : Lib) (s : Server) (c : Context) (outreq : Request) :
  outreq ∈ upstream (trace (snd (run_handleMapOws L s c))) ->
  exists pInfo directed,
    projects_GetProjectInfo s (getProjectName c) = Ok pInfo /\
    director L s (forwarded L c pInfo) = Val directed /\
    outreq = outgoing L directed.
Proof.
  intros Hin.
  destruct (handleMapOws_early L s c outreq Hin)
    as (params & pInfo & settings & Hbind & Hinfo & Hsettings).
  exists pInfo.
  rewrite (handleMapOws_phases L s c params pInfo settings Hbind Hinfo Hsettings) in Hin.
  unfold bind at 1 in Hin.
  destruct (wfsGate_no_upstream L s c params settings (loaded c) eq_refl) as (Hup & _ & _).
  destruct (wfsGate L s c params settings (loaded c)) as [[[]|e|why] st];
    cbn [fst snd] in *; [|rewrite Hup in Hin; inversion Hin ..].
  rewrite ServeHTTP_upstream, Hup in Hin. cbn [loaded trace upstream omap app] in Hin.
  destruct (director L s (forwarded L c pInfo)) as [r|e|why]; [|inversion Hin ..].
  apply list_elem_of_singleton in Hin. exists r. auto.
Qed.

(** X2: when the project cannot be loaded the handler answers 404 for the
    error [ErrProjectNotExists], also when it comes wrapped, and returns
    any other error as it is; the settings are not loaded and only the
    project service was called. *)
Theorem X2_handleMapOws_project_error (L : Lib) (s : Server) (c : Context)
    (params : OwsRequestParams) (err : error) :
  BindQueryParams L c = Ok params ->
  projects_GetProjectInfo s (getProjectName c) = Err err ->
  fst (run_handleMapOws L s c) =
    Fail (if errors_Is err ErrProjectNotExists then ErrNotFound else err) /\
  trace (snd (run_handleMapOws L s c)) = [CallGetProjectInfo (getProjectName c)] /\
  (forall msg, err = Wrapped msg ErrProjectNotExists ->
               fst (run_handleMapOws L s c) = Fail ErrNotFound).
Proof.
  intros Hbind Hinfo.
  assert (Hrun : run_handleMapOws L s c =
    (Fail (if errors_Is err ErrProjectNotExists then ErrNotFound else err),
     {| perms := ∅; trace := [CallGetProjectInfo (getProjectName c)];
        written := None |})).
  { unfold run_handleMapOws, handleMapOws. rewrite Hbind. unfold bind at 1.
    cbn [emit OwsState_init perms trace written app]. rewrite Hinfo.
    destruct (errors_Is err ErrProjectNotExists); reflexivity. }
  rewrite Hrun. cbn [fst snd trace]. repeat split.
  intros msg ->. reflexivity.
Qed.

Lemma X2_handleMapOws_project_error_witness :
  let L := example.lib example.wmsParams example.updateParcels in
  let s := example.server "published" example.settings in
  let c := {| Param_user := "admin"; Param_name := "moon";
              Req := Req (example.context "GET" "") |} in
  fst (run_handleMapOws L s c) = Fail ErrNotFound.
Proof.
  intros L s c.
  apply (X2_handleMapOws_project_error L s c example.wmsParams ErrProjectNotExists);
    reflexivity.
Defined.

(** X3: for a WFS transaction request whose project and settings load,
    the handler returns the error of [GetLayersData] or of the XML decoder
    when one of them fails, the authorization error when the decoded
    transaction contains an operation, and reaches the proxy only for a
    transaction without operations. *)
Theorem X3_handleMapOws_transaction_outcome (L : Lib) (s : Server) (c : Context)
    (params : OwsRequestParams) (pInfo : domain.ProjectInfo)
    (settings : domain.ProjectSettings) :
  BindQueryParams L c = Ok params ->
  Service params = "WFS" -> Request_ params = "" ->
  projects_GetProjectInfo s (getProjectName c) = Ok pInfo ->
  projects_GetSettings s (getProjectName c) = Ok settings ->
  fst (run_handleMapOws L s c) =
    match projects_GetLayersData s
            (strings.TrimSuffix (Map params) (filepath.Ext (Map params))) with
    | Err err => Fail err
    | Ok layersData =>
        match xml_Unmarshal L (Body (Req c)) with
        | Err err => Fail err
        | Ok tx =>
            match operations tx with
            | _ :: _ => Fail ErrUnauthorized
            | [] =>
                match director L s (forwarded L c pInfo) with
                | Val outreq => proxyOutcome L outreq
                | Fail err => Fail err
                | Panic why => Panic why
                end
            end
        end
    end.
Proof.
  intros Hbind Hservice Hrequest Hinfo Hsettings.
  rewrite (handleMapOws_phases L s c params pInfo settings Hbind Hinfo Hsettings).
  unfold bind at 1.
  destruct (projects_GetLayersData s _) as [layersData|e] eqn:Hlayers.
  2:{ unfold wfsGate. rewrite Hservice, Hrequest, Hlayers. reflexivity. }
  destruct (xml_Unmarshal L (Body (Req c))) as [tx|e] eqn:Hxml.
  2:{ unfold wfsGate. rewrite Hservice, Hrequest, Hlayers, Hxml. reflexivity. }
  rewrite (wfsGate_transaction L s c params settings layersData tx (loaded c)
             Hservice Hrequest Hlayers Hxml eq_refl).
  destruct (operations tx) as [|op ops]; [|reflexivity].
  unfold ServeHTTP, ReverseProxy_ServeHTTP, proxyOutcome.
  destruct (director L s (forwarded L c pInfo)) as [outreq|e|why]; try reflexivity.
  unfold bind, emit. cbn.
  destruct (RoundTrip L (outgoing L outreq)) as [res|e];
    [destruct (copyResponse L res)|]; reflexivity.
Qed.

Lemma X3_handleMapOws_transaction_witness :
  let L := example.lib example.wfsParams
             {| Updates := []; Inserts := [{| Objects := [] |}]; Deletes := [] |} in
  let s := example.server "published" example.viewOnly in
  let c := example.context "POST" "<Transaction/>" in
  fst (run_handleMapOws L s c) = Val tt.
Proof.
  intros L s c.
  apply (X3_handleMapOws_transaction_outcome L s c example.wfsParams
           {| domain.QgisFile := "world.qgs"; domain.State := "published" |}
           example.viewOnly); reflexivity.
Defined.

(** X4: a request that reaches the backend has the method and the body of
    the client's request; its headers are what the proxy makes of the
    headers the director left (it drops the hop-by-hop headers and adds
    the client's address to [X-Forwarded-For]), and those are the
    client's headers, except that a request without a [User-Agent] header
    got an empty one; a [User-Agent] the client sent is kept. *)
Theorem X4_forwarded_request_keeps_method_body_headers
    (L : Lib) (s : Server) (c : Context) (outreq : Request) :
  outreq ∈ upstream (trace (snd (run_handleMapOws L s c))) ->
  Method outreq = Method (Req c) /\
  Body outreq = Body (Req c) /\
  exists directed,
    Header outreq = proxy_Header L directed /\
    directed !! "User-Agent" = Some (default [""] (Header (Req c) !! "User-Agent")) /\
    forall key, key <> "User-Agent" -> directed !! key = Header (Req c) !! key.
Proof.
  intros Hin.
  destruct (handleMapOws_upstream_inv L s c outreq Hin) as (pInfo & r & _ & Hdir & ->).
  unfold director in Hdir.
  destruct (url_Parse L (Config_MapserverURL s)) as [target|]; [|discriminate Hdir].
  injection Hdir as <-. cbn [Method Body Header forwarded outgoing].
  split; [reflexivity|]. split; [reflexivity|].
  eexists. split; [reflexivity|].
  destruct (Header (Req c) !! "User-Agent") as [ua|] eqn:Hua; cbn [default].
  - split; auto.
  - split; [apply lookup_insert_eq|].
    intros key Hkey. apply lookup_insert_ne. congruence.
Qed.

Lemma X4_forwarded_request_witness :
  let L := example.lib example.wmsParams example.updateParcels in
  let s := example.server "published" example.settings in
  let c := example.context "GET" "" in
  exists outreq,
    outreq ∈ upstream (trace (snd (run_handleMapOws L s c))) /\
    Method outreq = "GET" /\
    exists directed,
      Header outreq = proxy_Header L directed /\
      directed !! "User-Agent" = Some [""].
Proof.
  intros L s c.
  pose (outreq := outgoing L
    {| Method := "GET";
       Url := {| Scheme := Scheme example.target; Host := Host example.target;
                 Path := Path example.target;
                 RawQuery := RawQuery (Url (forwarded L c
                   {| domain.QgisFile := "world.qgs"; domain.State := "published" |})) |};
       Header := <["User-Agent" := [""]]> ∅; Body := "" |}).
  assert (Hin : outreq ∈ upstream (trace (snd (run_handleMapOws L s c)))).
  { apply list_elem_of_here. }
  destruct (X4_forwarded_request_keeps_method_body_headers L s c outreq Hin)
    as (Hm & _ & directed & Hheader & Hua & _).
  exists outreq. split; [exact Hin|]. split; [exact Hm|].
  exists directed. split; [exact Hheader | exact Hua].
Defined.

(** X5: when the configured map server address does not parse, no request
    is ever sent to the backend and the handler never returns nil: a
    request that gets as far as the proxy panics in the director. *)
Theorem X5_unparsable_backend_address (L : Lib) (s : Server) (c : Context) :
  url_Parse L (Config_MapserverURL s) = None ->
  upstream (trace (snd (run_handleMapOws L s c))) = [] /\
  fst (run_handleMapOws L s c) <> Val tt.
Proof.
  intros Hparse.
  assert (Hnone : upstream (trace (snd (run_handleMapOws L s c))) = []).
  { destruct (upstream _) as [|outreq rest] eqn:Hup; [reflexivity|].
    assert (Hin : outreq ∈ upstream (trace (snd (run_handleMapOws L s c)))).
    { rewrite Hup. apply list_elem_of_here. }
    destruct (handleMapOws_upstream_inv L s c outreq Hin) as (pInfo & r & _ & Hdir & _).
    unfold director in Hdir. rewrite Hparse in Hdir. discriminate Hdir. }
  split; [exact Hnone|].
  pose proof (handleMapOws_outcome L s c) as Hout. intros Hval.
  rewrite Hval in Hout. destruct Hout as [Hlen _]. rewrite Hnone in Hlen. discriminate Hlen.
Qed.

Lemma X5_unparsable_backend_address_witness :
  let L := {| url_Parse := fun _ => None;
              url_Query := fun _ => ∅;
              Values_Encode := example.encode;
              BindQueryParams := fun _ => Ok example.wmsParams;
              xml_Unmarshal := fun _ => Ok example.updateParcels;
              RoundTrip := fun _ => Ok example.backendResponse;
              proxy_Header := fun header => header;
              copyResponse := fun _ => None |} in
  let s := example.server "published" example.settings in
  let c := example.context "GET" "" in
  upstream (trace (snd (run_handleMapOws L s c))) = [] /\
  fst (run_handleMapOws L s c) <> Val tt.
Proof.
  intros L s c. apply (X5_unparsable_backend_address L s c). reflexivity.
Defined.

(** ** The permission cache *)



Section Cache.

Variables (layersData : domain.LayersData) (settings : domain.ProjectSettings)
          (user : domain.User).

Lemma cache_ok_init : cache_ok settings user OwsState_init.
Proof.
  repeat split; cbn.
  - intros id p H. rewrite lookup_empty in H. discriminate H.
  - constructor.
  - intros H. inversion H.
  - intros [p H]. rewrite lookup_empty in H. discriminate H.
Qed.

(** A lookup keeps the cache in agreement, never fails, and leaves the
    cache with the entries it had and the entry of the layer looked up. *)
Lemma getLayerPermissions_cache_ok (typeName : string) (st : OwsState) :
  cache_ok settings user st ->
  exists perm st',
    getLayerPermissions layersData settings user typeName st = (Val perm, st') /\
    cache_ok settings user st' /\
    (forall id, is_Some (perms st' !! id) <->
                is_Some (perms st !! id) \/ id = layerID layersData typeName) /\
    (forall id p, perms st !! id = Some p -> perms st' !! id = Some p).
Proof.
  intros (Hval & Hnodup & Hdom).
  destruct (perms st !! layerID layersData typeName) as [p|] eqn:Hlook.
  - eexists. eexists.
    rewrite (getLayerPermissions_hit layersData settings user typeName st p Hlook).
    split; [reflexivity|]. unfold cache_ok. cbn [perms trace].
    rewrite permission_calls_app. cbn [permission_calls omap]. rewrite app_nil_r.
    split; [exact (conj Hval (conj Hnodup Hdom))|]. split; [|auto].
    intros id. split; [auto | intros [H | ->]; [exact H | eauto]].
  - eexists. eexists.
    rewrite (getLayerPermissions_miss layersData settings user typeName st Hlook).
    split; [reflexivity|]. unfold cache_ok. cbn [perms trace].
    assert (Hfresh : layerID layersData typeName ∉ permission_calls (trace st)).
    { intros Hin. apply Hdom in Hin. rewrite Hlook in Hin. destruct Hin as [? ?]. discriminate. }
    split; [split; [|split]|split].
    + intros id p. rewrite lookup_insert. case_decide as Hid.
      * intros [= <-]. subst id. reflexivity.
      * apply Hval.
    + rewrite permission_calls_app. cbn. apply NoDup_app. split; [exact Hnodup|]. split.
      * intros id Hin Hin2. apply list_elem_of_singleton in Hin2. subst id. auto.
      * apply NoDup_singleton.
    + intros id. rewrite permission_calls_app. cbn.
      rewrite elem_of_app, list_elem_of_singleton, lookup_insert.
      case_decide as Hid.
      * split; [eauto | intros _; right; congruence].
      * rewrite <- Hdom. split; [intros [H | ->]; [exact H | congruence] | auto].
    + intros id. rewrite lookup_insert. case_decide as Hid.
      * split; [intros _; right; congruence | eauto].
      * split; [auto | intros [H | ->]; [exact H | congruence]].
    + intros id p Hp. rewrite lookup_insert_ne; [exact Hp|]. congruence.
Qed.

Lemma lookups_cache_ok (typeNames : list string) :
  forall st, cache_ok settings user st ->
  exists perms' st',
    mapM (getLayerPermissions layersData settings user) typeNames st = (Val perms', st') /\
    length perms' = length typeNames /\
    cache_ok settings user st' /\
    (forall id, is_Some (perms st' !! id) <->
                is_Some (perms st !! id) \/ id ∈ map (layerID layersData) typeNames).
Proof.
  induction typeNames as [|tn tns IH]; intros st Hok.
  - exists [], st. split; [reflexivity|]. split; [reflexivity|]. split; [exact Hok|].
    intros id. split; [auto|]. intros [H | H]; [exact H|]. cbn in H. inversion H.
  - destruct (getLayerPermissions_cache_ok tn st Hok) as (p & st1 & Hrun & Hok1 & Hdom1 & _).
    destruct (IH st1 Hok1) as (ps & st' & Hruns & Hlen & Hok' & Hdom').
    exists (p :: ps), st'. cbn [mapM]. unfold bind. rewrite Hrun, Hruns. unfold ret.
    split; [reflexivity|]. split; [cbn; congruence|]. split; [exact Hok'|].
    intros id. rewrite Hdom', Hdom1. cbn [map]. rewrite elem_of_cons. tauto.
Qed.

End Cache.

(** X6: over any sequence of lookups in one request every lookup returns
    a permission, the settings are asked at most once for each layer
    identifier, exactly the layers looked up end in the cache, and every
    cached permission is the one the settings give for its layer. *)
Theorem X6_permissions_computed_once_per_layer
    (layersData : domain.LayersData) (settings : domain.ProjectSettings)
    (user : domain.User) (typeNames : list string) :
  exists results st,
    mapM (getLayerPermissions layersData settings user) typeNames OwsState_init
      = (Val results, st) /\
    length results = length typeNames /\
    NoDup (permission_calls (trace st)) /\
    (forall id, id ∈ permission_calls (trace st) <->
                id ∈ map (layerID layersData) typeNames) /\
    (forall id, is_Some (perms st !! id) <->
                id ∈ map (layerID layersData) typeNames) /\
    (forall id p, perms st !! id = Some p ->
                  p = domain.UserLayerPermissions settings user id).
Proof.
  destruct (lookups_cache_ok layersData settings user typeNames OwsState_init
              (cache_ok_init settings user))
    as (results & st & Hrun & Hlen & (Hval & Hnodup & Hcalls) & Hdom).
  assert (Hfrom : forall id, is_Some (perms st !! id) <->
                             id ∈ map (layerID layersData) typeNames).
  { intros id. rewrite Hdom. cbn [OwsState_init perms]. rewrite lookup_empty.
    split; [intros [[p H] | H]; [discriminate H | exact H] | auto]. }
  exists results, st. split; [exact Hrun|]. split; [exact Hlen|].
  split; [exact Hnodup|]. split; [|split; [exact Hfrom | exact Hval]].
  intros id. rewrite Hcalls. apply Hfrom.
Qed.

Lemma Split_nonempty (s : string) (sep : ascii) : strings.Split s sep <> [].
Proof.
  induction s as [|c s IH]; cbn; [discriminate|].
  destruct (Ascii.eqb c sep); [discriminate|].
  destruct (strings.Split s sep); [contradiction | discriminate].
Qed.

Lemma last_cons_nonempty {A} (x d : A) (l : list A) :
  l <> [] -> List.last (x :: l) d = List.last l d.
Proof. destruct l; [contradiction | reflexivity]. Qed.

(** The segment after the last colon does not depend on what stands
    before a colon. *)
Lemma last_Split_prefix (prefix typeName : string) :
  List.last (strings.Split (prefix ++ ":" ++ typeName) ":") "" =
  List.last (strings.Split typeName ":") "".
Proof.
  induction prefix as [|c prefix IH].
  - change ("" ++ ":" ++ typeName) with (String ":" typeName).
    cbn [strings.Split]. rewrite Ascii.eqb_refl.
    apply last_cons_nonempty, Split_nonempty.
  - change (String c prefix ++ ":" ++ typeName)
      with (String c (prefix ++ ":" ++ typeName)).
    cbn [strings.Split]. destruct (Ascii.eqb c ":").
    + rewrite last_cons_nonempty by apply Split_nonempty. exact IH.
    + destruct (strings.Split (prefix ++ ":" ++ typeName) ":") as [|p ps] eqn:Hsplit.
      { exfalso. exact (Split_nonempty _ _ Hsplit). }
      destruct ps as [|p' ps].
      * exfalso. clear IH.
        assert (Hlen : forall q, (2 <= length (strings.Split (q ++ ":" ++ typeName) ":"))%nat).
        { clear. induction q as [|d q IHq].
          - change ("" ++ ":" ++ typeName) with (String ":" typeName).
            cbn [strings.Split]. rewrite Ascii.eqb_refl. cbn.
            pose proof (Split_nonempty typeName ":").
            destruct (strings.Split typeName ":"); [contradiction|cbn; lia].
          - change (String d q ++ ":" ++ typeName) with (String d (q ++ ":" ++ typeName)).
            cbn [strings.Split]. destruct (Ascii.eqb d ":"); [cbn; lia|].
            destruct (strings.Split (q ++ ":" ++ typeName) ":"); cbn in *; lia. }
        specialize (Hlen prefix). rewrite Hsplit in Hlen. cbn in Hlen. lia.
      * rewrite <- IH. reflexivity.
Qed.

(** X7: a namespace prefix does not matter: the lookup for
    [prefix:typeName] is the lookup for [typeName], in every state. *)
Theorem X7_namespace_prefix_ignored
    (layersData : domain.LayersData) (settings : domain.ProjectSettings)
    (user : domain.User) (prefix typeName : string) (st : OwsState) :
  getLayerPermissions layersData settings user (prefix ++ ":" ++ typeName) st =
  getLayerPermissions layersData settings user typeName st.
Proof.
  unfold getLayerPermissions. rewrite last_Split_prefix. reflexivity.
Qed.

(** ** Paths *)


Lemma Split_plain (elem : string) :
  forallb (fun ch => negb (Ascii.eqb ch "/")) (list_ascii_of_string elem) = true ->
  strings.Split elem "/" = [elem].
Proof.
  induction elem as [|ch elem IH]; [reflexivity|].
  cbn [list_ascii_of_string forallb strings.Split]. intros H.
  apply andb_prop in H. destruct H as [Hch Hrest].
  apply negb_true_iff in Hch. rewrite Hch, (IH Hrest). reflexivity.
Qed.

Lemma Split_plain_app (elem rest : string) :
  forallb (fun ch => negb (Ascii.eqb ch "/")) (list_ascii_of_string elem) = true ->
  strings.Split (elem ++ "/" ++ rest) "/" = elem :: strings.Split rest "/".
Proof.
  induction elem as [|ch elem IH].
  - intros _. change ("" ++ "/" ++ rest) with (String "/" rest).
    cbn [strings.Split]. rewrite Ascii.eqb_refl. reflexivity.
  - cbn [list_ascii_of_string forallb]. intros H.
    apply andb_prop in H. destruct H as [Hch Hrest].
    apply negb_true_iff in Hch.
    change (String ch elem ++ "/" ++ rest) with (String ch (elem ++ "/" ++ rest)).
    cbn [strings.Split]. rewrite Hch, (IH Hrest). reflexivity.
Qed.

Lemma plainElem_no_slash (elem : string) :
  plainElem elem = true ->
  forallb (fun ch => negb (Ascii.eqb ch "/")) (list_ascii_of_string elem) = true.
Proof. unfold plainElem. intros H. apply andb_prop in H. tauto. Qed.

Lemma Split_Join_plain (elems : list string) :
  elems <> [] -> forallb plainElem elems = true ->
  strings.Split (strings.Join elems "/") "/" = elems.
Proof.
  induction elems as [|e rest IH]; [contradiction|]. intros _ Hall.
  cbn [forallb] in Hall. apply andb_prop in Hall. destruct Hall as [He Hrest].
  destruct rest as [|e' rest'].
  - cbn [strings.Join]. apply Split_plain, plainElem_no_slash, He.
  - change (strings.Join (e :: e' :: rest') "/")
      with (e ++ "/" ++ strings.Join (e' :: rest') "/").
    rewrite Split_plain_app by apply plainElem_no_slash, He.
    rewrite IH; [reflexivity | discriminate | exact Hrest].
Qed.

Lemma Clean_step_plain (rooted : bool) (kept : list string) (elem : string) :
  plainElem elem = true -> filepath.Clean_step rooted kept elem = elem :: kept.
Proof.
  unfold plainElem, filepath.Clean_step. intros H.
  repeat (apply andb_prop in H; destruct H as [H ?]).
  apply negb_true_iff in H. rewrite H.
  match goal with H1 : negb (String.eqb elem ".") = true |- _ =>
    apply negb_true_iff in H1; rewrite H1 end.
  match goal with H1 : negb (String.eqb elem "..") = true |- _ =>
    apply negb_true_iff in H1; rewrite H1 end.
  reflexivity.
Qed.

Lemma fold_Clean_step_plain (rooted : bool) (elems kept : list string) :
  forallb plainElem elems = true ->
  fold_left (filepath.Clean_step rooted) elems kept = (rev elems ++ kept)%list.
Proof.
  revert kept. induction elems as [|e rest IH]; intros kept Hall; [reflexivity|].
  cbn [forallb] in Hall. apply andb_prop in Hall. destruct Hall as [He Hrest].
  cbn [fold_left rev]. rewrite Clean_step_plain by exact He.
  rewrite IH by exact Hrest. rewrite <- app_assoc. reflexivity.
Qed.

Lemma plain_not_abs (elem rest : string) :
  plainElem elem = true -> filepath.IsAbs (elem ++ rest) = false.
Proof.
  unfold plainElem. intros H. repeat (apply andb_prop in H; destruct H as [H ?]).
  destruct elem as [|ch elem]; [discriminate H|].
  match goal with H1 : forallb _ _ = true |- _ =>
    cbn [list_ascii_of_string forallb] in H1; apply andb_prop in H1;
    destruct H1 as [Hch _] end.
  apply negb_true_iff in Hch.
  unfold filepath.IsAbs, strings.HasPrefix.
  change (String ch elem ++ rest) with (String ch (elem ++ rest)).
  cbn -[ascii_dec].
  destruct (ascii_dec "/" ch) as [<-|_]; [|reflexivity].
  rewrite Ascii.eqb_refl in Hch. discriminate Hch.
Qed.

Lemma append_empty_r (s : string) : s ++ "" = s.
Proof.
  induction s as [|ch s IH]; [reflexivity|].
  change (String ch s ++ "") with (String ch (s ++ "")). rewrite IH. reflexivity.
Qed.

Lemma append_assoc (a b d : string) : (a ++ b) ++ d = a ++ b ++ d.
Proof.
  induction a as [|ch a IH]; [reflexivity|].
  change ((String ch a ++ b) ++ d) with (String ch ((a ++ b) ++ d)).
  rewrite IH. reflexivity.
Qed.

Lemma Join_plain_head (e : string) (rest : list string) :
  exists tail, strings.Join (e :: rest) "/" = e ++ tail.
Proof.
  destruct rest as [|e' rest'].
  - exists "". cbn [strings.Join]. symmetry. apply append_empty_r.
  - exists ("/" ++ strings.Join (e' :: rest') "/"). reflexivity.
Qed.

(** Cleaning a relative path of plain elements changes nothing. *)
Lemma Clean_plain_relative (elems : list string) :
  elems <> [] -> forallb plainElem elems = true ->
  filepath.Clean (strings.Join elems "/") = strings.Join elems "/".
Proof.
  intros Hne Hall. unfold filepath.Clean.
  rewrite Split_Join_plain by assumption.
  rewrite fold_Clean_step_plain by assumption.
  rewrite app_nil_r, rev_involutive.
  destruct elems as [|e rest]; [contradiction|].
  assert (He : plainElem e = true).
  { cbn [forallb] in Hall. apply andb_prop in Hall. tauto. }
  destruct (Join_plain_head e rest) as [tail Htail]. rewrite Htail.
  rewrite plain_not_abs by exact He.
  destruct e as [|ch e]; [discriminate He|]. reflexivity.
Qed.

(** Cleaning an absolute path of plain elements changes nothing. *)
Lemma Clean_plain_absolute (elems : list string) :
  elems <> [] -> forallb plainElem elems = true ->
  filepath.Clean ("/" ++ strings.Join elems "/") = "/" ++ strings.Join elems "/".
Proof.
  intros Hne Hall. unfold filepath.Clean.
  change ("/" ++ strings.Join elems "/") with (String "/" (strings.Join elems "/")).
  rewrite IsAbs_rooted. cbn [strings.Split]. rewrite Ascii.eqb_refl.
  rewrite Split_Join_plain by assumption.
  cbn [fold_left]. change (filepath.Clean_step true [] "") with (@nil string).
  rewrite fold_Clean_step_plain by assumption.
  rewrite app_nil_r, rev_involutive. reflexivity.
Qed.

(** X8: for a user and a project name that are plain path elements the
    project name of a request is [user/name], and with a plain QGIS file
    name the path sent to the backend as [MAP] is
    [/publish/user/name/file]. *)
Theorem X8_project_paths_of_plain_names (c : Context) (qgisFile : string) :
  plainElem (Param_user c) = true ->
  plainElem (Param_name c) = true ->
  getProjectName c = Param_user c ++ "/" ++ Param_name c /\
  (plainElem qgisFile = true ->
   filepath.Join ["/publish"; getProjectName c; qgisFile] =
     "/publish/" ++ Param_user c ++ "/" ++ Param_name c ++ "/" ++ qgisFile).
Proof.
  intros Huser Hname.
  assert (Hproject : getProjectName c = Param_user c ++ "/" ++ Param_name c).
  { unfold getProjectName. cbn zeta. unfold filepath.Join.
    destruct (String.eqb (Param_user c) "") eqn:Hempty.
    { apply String.eqb_eq in Hempty. rewrite Hempty in Huser. discriminate Huser. }
    apply (Clean_plain_relative [Param_user c; Param_name c]); [discriminate|].
    cbn [forallb]. rewrite Huser, Hname. reflexivity. }
  split; [exact Hproject|]. intros Hfile. rewrite Hproject.
  unfold filepath.Join. cbn [String.eqb].
  pose proof (Clean_plain_absolute ["publish"; Param_user c; Param_name c; qgisFile]) as H.
  cbn [forallb] in H. rewrite Huser, Hname, Hfile in H.
  specialize (H ltac:(discriminate) eq_refl).
  cbn [strings.Join] in H |- *.
  change ("/publish" ++ "/" ++ (Param_user c ++ "/" ++ Param_name c) ++ "/" ++ qgisFile)
    with ("/" ++ "publish" ++ "/" ++ (Param_user c ++ "/" ++ Param_name c) ++ "/" ++ qgisFile).
  rewrite !append_assoc. exact H.
Qed.

Lemma X8_project_paths_witness :
  let c := example.context "GET" "" in
  getProjectName c = "admin/world" /\
  filepath.Join ["/publish"; getProjectName c; "world.qgs"] =
    "/publish/admin/world/world.qgs".
Proof.
  intros c.
  destruct (X8_project_paths_of_plain_names c "world.qgs") as [H1 H2];
    [reflexivity | reflexivity |].
  split; [exact H1 | exact (H2 eq_refl)].
Defined.

Lemma length_append (a b : string) :
  String.length (a ++ b) = (String.length a + String.length b)%nat.
Proof.
  induction a as [|ch a IH]; [reflexivity|].
  change (String ch a ++ b) with (String ch (a ++ b)). cbn. rewrite IH. reflexivity.
Qed.

Lemma substring_whole (s : string) : String.substring 0 (String.length s) s = s.
Proof. induction s as [|ch s IH]; [reflexivity|]. cbn. rewrite IH. reflexivity. Qed.

Lemma substring_skip (a b : string) (n : nat) :
  String.substring (String.length a) n (a ++ b) = String.substring 0 n b.
Proof.
  induction a as [|ch a IH]; [reflexivity|].
  change (String ch a ++ b) with (String ch (a ++ b)). cbn. exact IH.
Qed.

Lemma substring_take (a b : string) :
  String.substring 0 (String.length a) (a ++ b) = a.
Proof.
  induction a as [|ch a IH].
  - cbn. destruct b; reflexivity.
  - change (String ch a ++ b) with (String ch (a ++ b)). cbn. rewrite IH. reflexivity.
Qed.

Lemma HasSuffix_append (a b : string) : strings.HasSuffix (a ++ b) b = true.
Proof.
  unfold strings.HasSuffix. rewrite length_append.
  replace (String.length a + String.length b - String.length b)%nat
    with (String.length a) by lia.
  rewrite substring_skip, substring_whole, String.eqb_refl.
  rewrite andb_true_r. apply Nat.leb_le. lia.
Qed.

Lemma TrimSuffix_append (a b : string) : strings.TrimSuffix (a ++ b) b = a.
Proof.
  unfold strings.TrimSuffix. rewrite HasSuffix_append, length_append.
  replace (String.length a + String.length b - String.length b)%nat
    with (String.length a) by lia.
  apply substring_take.
Qed.

Lemma string_of_rev_cons (ch : ascii) (l : list ascii) (acc : string) :
  string_of_list_ascii (rev (ch :: l)) ++ acc =
  string_of_list_ascii (rev l) ++ String ch acc.
Proof.
  cbn [rev]. generalize (rev l). intros l0.
  induction l0 as [|d l0 IH]; [reflexivity|].
  cbn [app string_of_list_ascii].
  change (String d (string_of_list_ascii (l0 ++ [ch])) ++ acc)
    with (String d (string_of_list_ascii (l0 ++ [ch]) ++ acc)).
  rewrite IH. reflexivity.
Qed.

(** The extension found by the scan is the end of the path scanned. *)
Lemma Ext_scan_suffix (rev_path : list ascii) (acc : string) :
  exists stem,
    string_of_list_ascii (rev rev_path) ++ acc = stem ++ filepath.Ext_scan rev_path acc.
Proof.
  revert acc. induction rev_path as [|ch before IH]; intros acc.
  - exists acc. cbn. symmetry. apply append_empty_r.
  - cbn [filepath.Ext_scan]. rewrite string_of_rev_cons.
    destruct (Ascii.eqb ch "/").
    + eexists. symmetry. apply append_empty_r.
    + destruct (Ascii.eqb ch ".").
      * eexists. reflexivity.
      * apply IH.
Qed.

Lemma Ext_suffix (path : string) : exists stem, path = stem ++ filepath.Ext path.
Proof.
  unfold filepath.Ext.
  destruct (Ext_scan_suffix (rev (list_ascii_of_string path)) "") as [stem H].
  exists stem. rewrite <- H, rev_involutive, string_of_list_ascii_of_string.
  symmetry. apply append_empty_r.
Qed.

(** X9: the project name the WFS block derives from the [MAP] parameter
    is the parameter without its extension: putting the extension back
    gives the parameter, and a parameter without an extension is the
    project name itself. *)
Theorem X9_map_parameter_without_extension (mapParam : string) :
  strings.TrimSuffix mapParam (filepath.Ext mapParam) ++ filepath.Ext mapParam
    = mapParam /\
  (filepath.Ext mapParam = "" ->
   strings.TrimSuffix mapParam (filepath.Ext mapParam) = mapParam).
Proof.
  destruct (Ext_suffix mapParam) as [stem Hstem].
  assert (Htrim : strings.TrimSuffix mapParam (filepath.Ext mapParam) = stem).
  { rewrite Hstem at 1. apply TrimSuffix_append. }
  split.
  - rewrite Htrim. symmetry. exact Hstem.
  - intros Hnone. rewrite Htrim. rewrite Hnone in Hstem.
    rewrite append_empty_r in Hstem. symmetry. exact Hstem.
Qed.

(** * Further properties of the map handlers *)

(** X10: [handleGetProject] answers a project that is not published with
    the error 400 [Project not valid] after the one call that loads the
    project, so the map configuration is not asked for. *)
Theorem X10_handleGetProject_requires_published
    (p : Projects) (c : Context) (user : domain.User) (info : project.Info) :
  svc_GetProjectInfo p [] (getProjectName c) = Ok info ->
  domain.State (project.Core info) <> "published" ->
  handleGetProject p c user [] =
    (Fail (HTTPError 400 "Project not valid"),
     [SvcGetProjectInfo (getProjectName c)]).
Proof.
  intros Hinfo Hstate. unfold handleGetProject, bind, invoke. cbn zeta.
  rewrite Hinfo.
  destruct (String.eqb (domain.State (project.Core info)) "published") eqn:Heq.
  - apply String.eqb_eq in Heq. contradiction.
  - reflexivity.
Qed.

Lemma X10_handleGetProject_witness :
  handleGetProject (sample.projects "draft") (example.context "GET" "")
                   example.editor [] =
    (Fail (HTTPError 400 "Project not valid"), [SvcGetProjectInfo "admin/world"]).
Proof.
  apply (X10_handleGetProject_requires_published (sample.projects "draft")
           (example.context "GET" "") example.editor (sample.info "draft")).
  - reflexivity.
  - discriminate.
Defined.

(** X11: for a published project [handleGetProject] answers 200 with the
    map configuration of the service in which [status] is the number 200,
    whatever [status] the service gave, and every other key is as the
    service gave it. *)
Theorem X11_handleGetProject_sets_status
    (p : Projects) (c : Context) (user : domain.User) (info : project.Info)
    (config : gmap string project.Value) :
  svc_GetProjectInfo p [] (getProjectName c) = Ok info ->
  domain.State (project.Core info) = "published" ->
  svc_GetMapConfig p [SvcGetProjectInfo (getProjectName c)] (getProjectName c) user
    = Ok config ->
  exists data,
    fst (handleGetProject p c user []) = Val (AnswerMap 200 data) /\
    data !! "status" = Some (project.Number 200) /\
    forall key, key <> "status" -> data !! key = config !! key.
Proof.
  intros Hinfo Hstate Hconfig.
  exists (<["status" := project.Number 200]> config).
  split; [|split].
  - unfold handleGetProject, bind, invoke. cbn zeta. rewrite Hinfo. cbn [fst snd app].
    rewrite Hstate. cbn [String.eqb Ascii.eqb Bool.eqb negb].
    rewrite Hconfig. reflexivity.
  - apply lookup_insert_eq.
  - intros key Hkey. apply lookup_insert_ne. congruence.
Qed.

Lemma X11_handleGetProject_witness :
  exists data,
    fst (handleGetProject (sample.projects "published") (example.context "GET" "")
           example.editor []) = Val (AnswerMap 200 data) /\
    data !! "status" = Some (project.Number 200) /\
    data !! "name" = Some (project.Raw "admin/world").
Proof.
  destruct (X11_handleGetProject_sets_status (sample.projects "published")
              (example.context "GET" "") example.editor (sample.info "published")
              sample.config eq_refl eq_refl eq_refl) as (data & Hrun & Hstatus & Hrest).
  exists data. split; [exact Hrun|]. split; [exact Hstatus|].
  rewrite Hrest by discriminate. reflexivity.
Defined.

(** The two handlers of the map routes join the publish root with and
    without a trailing separator; the cleaned path is the same. *)
Lemma Join_publish_slash (projectName qgisFile : string) :
  filepath.Join ["/publish/"; projectName; qgisFile] =
  filepath.Join ["/publish"; projectName; qgisFile].
Proof.
  unfold filepath.Join. cbn [String.eqb]. unfold filepath.Clean.
  change (strings.Join ["/publish/"; projectName; qgisFile] "/")
    with (String "/" ("publish/" ++ "/" ++ strings.Join [projectName; qgisFile] "/")).
  change (strings.Join ["/publish"; projectName; qgisFile] "/")
    with (String "/" ("publish" ++ "/" ++ strings.Join [projectName; qgisFile] "/")).
  rewrite !IsAbs_rooted.
  change (strings.Split (String "/" ("publish/" ++ "/" ++ strings.Join [projectName; qgisFile] "/")) "/")
    with ("" :: "publish" :: "" :: strings.Split (strings.Join [projectName; qgisFile] "/") "/").
  change (strings.Split (String "/" ("publish" ++ "/" ++ strings.Join [projectName; qgisFile] "/")) "/")
    with ("" :: "publish" :: strings.Split (strings.Join [projectName; qgisFile] "/") "/").
  reflexivity.
Qed.

(** X12: when the query parameters bind, the project and its settings
    load and the request is not a WFS transaction (service [WFS] with an
    empty request parameter), [handleGetMap] called with the project name
    of the request sends the backend the request that [handleMapOws]
    sends and ends as it ends. When the backend answers, both write what
    the proxy copied of its response; when the backend cannot be reached,
    [handleMapOws] answers 502 and [handleGetMap] writes nothing. *)
Theorem X12_handleGetMap_forwards_like_handleMapOws
    (L : Lib) (s : Server) (c : Context) (params : OwsRequestParams)
    (pInfo : domain.ProjectInfo) (settings : domain.ProjectSettings) :
  BindQueryParams L c = Ok params ->
  String.eqb (Service params) "WFS" && String.eqb (Request_ params) "" = false ->
  projects_GetProjectInfo s (getProjectName c) = Ok pInfo ->
  projects_GetSettings s (getProjectName c) = Ok settings ->
  let ows := run_handleMapOws L s c in
  let map := handleGetMap L s (getProjectName c) (Req c) OwsState_init in
  fst map = fst ows /\
  upstream (trace (snd map)) = upstream (trace (snd ows)) /\
  (forall outreq res,
     director L s (forwarded L c pInfo) = Val outreq ->
     RoundTrip L (outgoing L outreq) = Ok res ->
     let copied :=
       match copyResponse L res with
       | None => res
       | Some part => {| StatusCode := StatusCode res; ResponseBody := part |}
       end in
     written (snd map) = Some copied /\ written (snd ows) = Some copied) /\
  (forall outreq err,
     director L s (forwarded L c pInfo) = Val outreq ->
     RoundTrip L (outgoing L outreq) = Err err ->
     written (snd map) = None /\ written (snd ows) = Some BadGateway).
Proof.
  intros Hbind Hother Hinfo Hsettings ows map.
  assert (Hows : ows = ServeHTTP L s (forwarded L c pInfo) (loaded c)).
  { unfold ows.
    rewrite (handleMapOws_phases L s c params pInfo settings Hbind Hinfo Hsettings).
    unfold bind at 1. rewrite wfsGate_other by exact Hother. reflexivity. }
  assert (Hmap : map =
    ReverseProxy_ServeHTTP L (director L s) (ret tt) (forwarded L c pInfo)
      {| perms := ∅; trace := [CallGetProjectInfo (getProjectName c)];
         written := None |}).
  { unfold map, handleGetMap. unfold bind at 1. cbn [emit OwsState_init perms trace written app].
    rewrite Hinfo. cbv zeta. rewrite Join_publish_slash. reflexivity. }
  rewrite Hows, Hmap. unfold ServeHTTP, ReverseProxy_ServeHTTP.
  destruct (director L s (forwarded L c pInfo)) as [outreq|e|why].
  - unfold bind, emit. cbn [perms trace written loaded app].
    destruct (RoundTrip L (outgoing L outreq)) as [res|err] eqn:Hrt.
    + destruct (copyResponse L res) as [part|] eqn:Hcopy; cbn;
        (split; [reflexivity|]; split; [reflexivity|]; split;
         [intros outreq' res' [= <-] Hres; rewrite Hrt in Hres;
          injection Hres as <-; rewrite Hcopy; split; reflexivity
         |intros outreq' err' [= <-] Herr; rewrite Hrt in Herr; discriminate Herr]).
    + cbn. split; [reflexivity|]. split; [reflexivity|]. split.
      * intros outreq' res' [= <-] Hres. rewrite Hrt in Hres. discriminate Hres.
      * intros outreq' err' [= <-] _. split; reflexivity.
  - cbn. split; [reflexivity|]. split; [reflexivity|]. split; intros ? ? [=].
  - cbn. split; [reflexivity|]. split; [reflexivity|]. split; intros ? ? [=].
Qed.

Lemma X12_handleGetMap_witness :
  let L := example.lib example.wmsParams example.updateParcels in
  let s := example.server "published" example.settings in
  let c := example.context "GET" "" in
  fst (handleGetMap L s (getProjectName c) (Req c) OwsState_init) =
    fst (run_handleMapOws L s c) /\
  upstream (trace (snd (handleGetMap L s (getProjectName c) (Req c) OwsState_init))) =
    upstream (trace (snd (run_handleMapOws L s c))).
Proof.
  intros L s c.
  destruct (X12_handleGetMap_forwards_like_handleMapOws L s c example.wmsParams
              {| domain.QgisFile := "world.qgs"; domain.State := "published" |}
              example.settings eq_refl eq_refl eq_refl eq_refl) as (H1 & H2 & _).
  split; [exact H1 | exact H2].
Defined.

(** * Further properties of the upload handler *)


Lemma int_wrap_small (z : Z) : - 2 ^ 63 <= z < 2 ^ 63 -> int_wrap z = z.
Proof. intros Hz. unfold int_wrap. rewrite Z.mod_small; lia. Qed.

(** X13: a read of a [ProgressReader] returns the byte count and the
    error of the reader it wraps; it adds the count to [Progress], in the
    arithmetic of Go's [int]; it calls the callback, once, exactly when
    the bytes not yet reported reach [Step] or the stream is at its end,
    and then [lastVal] is [Progress]; otherwise nothing else changes. As
    long as the counters do not overflow, [Progress] is the sum and fewer
    than [Step] bytes are unreported after the read. *)
Theorem X13_ProgressReader_Read_reports_progress
    (s : FileServer) (user : domain.User) (part : Part) (reader reader' : ReadCloser)
    (step progress last k n : Z) (err : option error) (st st1 : UploadState) :
  0 < step ->
  ReadCloser_Read reader k st = (Val ((n, err), reader'), st1) ->
  let pr := {| Reader := reader; Callback := progressCallback s user part;
               Step := step; Progress := progress; lastVal := last |} in
  exists pr' st',
    ProgressReader_Read pr k st = (Val ((n, err), pr'), st') /\
    Reader pr' = reader' /\ Step pr' = step /\
    Progress pr' = int_wrap (progress + n) /\
    (if (step <=? int_wrap (Progress pr' - last)) || bool_decide (err = Some EOF)
     then lastVal pr' = Progress pr' /\ ticks st' = S (ticks st1)
     else lastVal pr' = last /\ st' = st1) /\
    (0 <= last <= progress -> 0 <= n -> progress + n < 2 ^ 63 ->
     Progress pr' = progress + n /\ Progress pr' - lastVal pr' < step).
Proof.
  intros Hstep Hread pr. unfold ProgressReader_Read, bind. cbn [Reader pr].
  rewrite Hread. cbn [Progress lastVal Step Callback pr].
  destruct ((step <=? int_wrap (int_wrap (progress + n) - last))
            || bool_decide (err = Some EOF)) eqn:Hdue.
  - destruct (progressCallback_returns s user part (int_wrap (progress + n)) st1)
      as (st' & Hcb & Hticks & _).
    rewrite Hcb. unfold ret. eexists. exists st'. split; [reflexivity|].
    cbn [Reader Step Progress lastVal]. rewrite Hdue.
    split; [reflexivity|]. split; [reflexivity|]. split; [reflexivity|].
    split; [split; [reflexivity | exact Hticks]|].
    intros Hlast Hn Hsum. rewrite int_wrap_small by lia. split; [reflexivity | lia].
  - unfold ret. eexists. exists st1. split; [reflexivity|].
    cbn [Reader Step Progress lastVal]. rewrite Hdue.
    split; [reflexivity|]. split; [reflexivity|]. split; [reflexivity|].
    split; [split; reflexivity|].
    intros Hlast Hn Hsum.
    apply orb_false_iff in Hdue. destruct Hdue as [Hlt _].
    rewrite (int_wrap_small (progress + n)) in * by lia.
    rewrite int_wrap_small in Hlt by lia.
    apply Z.leb_gt in Hlt. split; [reflexivity | lia].
Qed.

Lemma X13_ProgressReader_Read_witness :
  let st := set_parts [] 120 (set_wire_left 160
              (UploadState_init [] 40 [])) in
  let pr := {| Reader := PartReader;
               Callback := progressCallback (example.fileServer example.editor)
                             example.editor example.smallPart;
               Step := 32 * 1024; Progress := 0; lastVal := 0 |} in
  exists pr' st',
    ProgressReader_Read pr 32768 st = (Val ((120, Some EOF), pr'), st') /\
    Progress pr' = 120 /\ lastVal pr' = 120.
Proof.
  intros st pr.
  destruct (X13_ProgressReader_Read_reports_progress
              (example.fileServer example.editor) example.editor example.smallPart
              PartReader PartReader (32 * 1024) 0 0 32768 120 (Some EOF) st
              (set_parts [] 0 (set_wire_left 40 st)))
    as (pr' & st' & Hrun & _ & _ & _ & Hdue & Hrange);
    [reflexivity | reflexivity |].
  destruct Hrange as (Hprogress & _); [lia | lia | lia |].
  exists pr', st'. split; [exact Hrun|]. split; [exact Hprogress|].
  rewrite orb_true_r in Hdue. destruct Hdue as (Hlast & _).
  rewrite Hlast. exact Hprogress.
Defined.

(** X14: the throttle of the progress callback: a callback sends at most
    one notification, and when a callback has sent one, the next callback
    sends none unless the clock has advanced by more than half a second
    (500000000 ns) since. *)
Theorem X14_callback_notifications_half_a_second_apart
    (s : FileServer) (user : domain.User) (part part' : Part) (p p' : Z)
    (st : UploadState) :
  let st1 := snd (progressCallback s user part p st) in
  let st2 := snd (progressCallback s user part' p' st1) in
  (length (sent st1) <= S (length (sent st)))%nat /\
  (sent st1 <> sent st ->
   clock s (ticks st1) - clock s (ticks st) <= 500000000 ->
   sent st2 = sent st1).
Proof.
  intros st1 st2.
  assert (Hfirst :
    (sent st1 = sent st \/
     (length (sent st1) = S (length (sent st)) /\
      lastNotification st1 = clock s (ticks st)))).
  { unfold st1, progressCallback, bind, modify, time_Now, get, ret, Send, modify. cbn.
    destruct (500000000 <? clock s (ticks st) - lastNotification st); cbn.
    - right. split; [|reflexivity]. rewrite length_app. cbn. lia.
    - left. reflexivity. }
  split.
  - destruct Hfirst as [-> | [-> _]]; lia.
  - intros Hsent Hsoon. destruct Hfirst as [Hsame | [_ Hlast]]; [contradiction|].
    apply (progressCallback_throttled s user part' p' st1). lia.
Qed.

Lemma X14_callback_notifications_witness :
  let s := example.fileServer example.editor in
  let st := set_lastNotification (-600000000) (UploadState_init [] 40 []) in
  let st1 := snd (progressCallback s example.editor example.smallPart 100 st) in
  let st2 := snd (progressCallback s example.editor example.bigPart 7 st1) in
  length (sent st1) = 1%nat /\ sent st2 = sent st1.
Proof.
  intros s st st1 st2. split; [reflexivity|].
  destruct (X14_callback_notifications_half_a_second_apart s example.editor
              example.smallPart example.bigPart 100 7 st) as [_ H].
  apply H.
  - vm_compute. discriminate.
  - vm_compute. discriminate.
Defined.

(** X15: a callback loses no progress value: the value it is given for
    a part and every value that was pending for another part is, after
    the callback, either still pending in the progress map or in the
    payload of the last notification sent. *)
Theorem X15_callback_keeps_or_sends_progress
    (s : FileServer) (user : domain.User) (part : Part) (p : Z) (st : UploadState)
    (key : string) (value : Z) :
  <[FormName part := p]> (uploadProgress st) !! key = Some value ->
  let st' := snd (progressCallback s user part p st) in
  uploadProgress st' !! key = Some value \/
  exists note, List.last (sent st') note = note /\
               note ∈ sent st' /\ Payload note !! key = Some value.
Proof.
  intros Hrec st'.
  unfold st', progressCallback, bind, modify, time_Now, get, ret, Send, modify. cbn.
  destruct (500000000 <? clock s (ticks st) - lastNotification st); cbn.
  - right. eexists. split; [apply last_last|]. split; [|exact Hrec].
    apply elem_of_app. right. apply list_elem_of_here.
  - left. exact Hrec.
Qed.

Lemma X15_callback_keeps_witness :
  let st := UploadState_init [] 40 [] in
  let st' := snd (progressCallback (example.fileServer example.editor) example.editor
                    example.smallPart 120 st) in
  uploadProgress st' !! "data/a.geojson" = Some 120 \/
  exists note, List.last (sent st') note = note /\
               note ∈ sent st' /\ Payload note !! "data/a.geojson" = Some 120.
Proof.
  intros st st'.
  apply (X15_callback_keeps_or_sends_progress (example.fileServer example.editor)
           example.editor example.smallPart 120 st "data/a.geojson" 120).
  reflexivity.
Defined.


(** X16: when the part reader fails with an error other than [io.EOF],
    [nextFile] returns that error and sends no notification. *)
Theorem X16_nextFile_returns_read_errors
    (s : FileServer) (user : domain.User) (st st' : UploadState) (err : error) :
  multipart.NextPart st = (Fail err, st') ->
  err <> EOF ->
  nextFile s user st = (Fail err, st') /\ sent st' = sent st.
Proof.
  intros Hnext Hne. split.
  - unfold nextFile, bind, try. rewrite Hnext.
    rewrite bool_decide_eq_false_2 by exact Hne. reflexivity.
  - pose proof (NextPart_session st) as H. rewrite Hnext in H.
    destruct H as (_ & _ & _ & Hsent & _). exact Hsent.
Qed.

Lemma X16_nextFile_returns_read_errors_witness :
  let st := set_limiter (Some {| mb_n := 0; mb_err := Some ErrBodyTooLarge |})
              (UploadState_init [example.smallPart] 40 []) in
  fst (nextFile (example.fileServer example.editor) example.editor st) =
    Fail (multipart.NextPartError ErrBodyTooLarge) /\
  sent (snd (nextFile (example.fileServer example.editor) example.editor st)) = [].
Proof.
  intros st.
  destruct (X16_nextFile_returns_read_errors (example.fileServer example.editor)
              example.editor st
              (set_parts [example.smallPart] 0 st)
              (multipart.NextPartError ErrBodyTooLarge)) as [Hrun Hsent].
  - reflexivity.
  - discriminate.
  - rewrite Hrun. split; [reflexivity | exact Hsent].
Defined.

(** X17: a part is decompressed only when its file name ends in [.gz]
    and its form name does not: a part whose form name ends in [.gz], or
    whose file name does not, is handed on as it is, with a progress
    reader that starts at zero and reports every 32 KiB. *)
Theorem X17_nextFile_hands_on_other_parts
    (s : FileServer) (user : domain.User) (st st' : UploadState) (part : Part) :
  multipart.NextPart st = (Val part, st') ->
  strings.HasSuffix (FormName part) ".gz" = true \/
  strings.HasSuffix (FileName part) ".gz" = false ->
  exists pr,
    nextFile s user st = (Val (FormName part, pr), st') /\
    Reader pr = PartReader /\ Step pr = 32768 /\
    Progress pr = 0 /\ lastVal pr = 0.
Proof.
  intros Hnext Hnames. eexists. split.
  - unfold nextFile, bind, try. rewrite Hnext. cbv beta iota.
    replace (strings.HasSuffix (FileName part) ".gz"
             && negb (strings.HasSuffix (FormName part) ".gz")) with false.
    + reflexivity.
    + destruct Hnames as [-> | ->]; [rewrite andb_false_r|]; reflexivity.
  - repeat split.
Qed.

Lemma X17_nextFile_hands_on_witness :
  let st := UploadState_init [example.smallPart] 40 [] in
  exists pr st',
    nextFile (example.fileServer example.editor) example.editor st =
      (Val ("data/a.geojson", pr), st') /\ Reader pr = PartReader.
Proof.
  intros st.
  destruct (X17_nextFile_hands_on_other_parts (example.fileServer example.editor)
              example.editor st (set_parts [] 120 (set_wire_left 160 st))
              example.smallPart) as (pr & Hrun & Hreader & _).
  - reflexivity.
  - right. reflexivity.
  - exists pr. eexists. split; [exact Hrun | exact Hreader].
Defined.

(** X18: a request whose content type is not [multipart/form-data] with
    a boundary, or whose user cannot be established, is refused with an
    error before the body is wrapped or read: the state of the request is
    untouched. *)
Theorem X18_handleUpload_refuses_before_reading
    (s : FileServer) (c : UploadRequest) (st : UploadState) :
  (forall params boundary user,
     MediaType c = Ok ("multipart/form-data", params) ->
     params !! "boundary" = Some boundary ->
     GetUser s = Ok user -> False) ->
  exists err, handleUpload s c st = (Fail err, st).
Proof.
  intros Hbad. unfold handleUpload.
  destruct (MediaType c) as [[ctype params]|e] eqn:Hmedia; [|eexists; reflexivity].
  destruct (String.eqb ctype "multipart/form-data") eqn:Hctype;
    [|eexists; reflexivity].
  apply String.eqb_eq in Hctype. subst ctype. cbn [negb].
  destruct (params !! "boundary") as [boundary|] eqn:Hboundary; [|eexists; reflexivity].
  destruct (GetUser s) as [user|e] eqn:Huser; [|eexists; reflexivity].
  exfalso. exact (Hbad params boundary user eq_refl Hboundary eq_refl).
Qed.

Lemma X18_handleUpload_refuses_witness :
  let c := {| MediaType := Ok ("application/json", ∅); project := "admin/world" |} in
  let st := UploadState_init [example.infoPart] 40 [] in
  exists err, handleUpload (example.fileServer example.editor) c st = (Fail err, st).
Proof.
  intros c st.
  apply (X18_handleUpload_refuses_before_reading (example.fileServer example.editor) c st).
  intros params boundary user Hmedia. discriminate Hmedia.
Defined.







(** X19: when the body has no part, or its first part does not decode as
    upload info, [handleUpload] returns an error without calling
    [UpdateFiles]: whatever the file service is, the manifest, the
    notifications and the clock are as before. *)
Theorem X19_handleUpload_needs_upload_info
    (s : FileServer) (c : UploadRequest) (st : UploadState) :
  (forall part rest, pending st = part :: rest -> exists e, AsJSON part = Err e) ->
  exists err,
    fst (handleUpload s c st) = Fail err /\
    same_session st (snd (handleUpload s c st)).
Proof.
  intros Hinfo.
  assert (Hrun : exists err st',
            handleUpload s c st = (Fail err, st') /\ same_session st st').
  { unfold handleUpload.
    destruct (MediaType c) as [[ctype params]|e];
      [|eexists; eexists; split; [reflexivity | apply same_session_refl]].
    destruct (negb (String.eqb ctype "multipart/form-data"));
      [eexists; eexists; split; [reflexivity | apply same_session_refl]|].
    destruct (params !! "boundary") as [boundary|];
      [|eexists; eexists; split; [reflexivity | apply same_session_refl]].
    destruct (GetUser s) as [user|e];
      [|eexists; eexists; split; [reflexivity | apply same_session_refl]].
    unfold bind at 1.
    assert (Hlimit : exists st0, limitBody user st = (Val tt, st0) /\
                      same_session st st0 /\ pending st0 = pending st).
    { unfold limitBody. destruct (negb (domain.IsSuperuser user)).
      - eexists. split; [reflexivity|]. split; [|reflexivity].
        unfold same_session. cbn. repeat split.
      - exists st. split; [reflexivity|]. split; [apply same_session_refl | reflexivity]. }
    destruct Hlimit as (st0 & -> & Hs0 & Hp0).
    unfold bind at 1.
    pose proof (NextPart_session st0) as Hs1.
    pose proof (fun why => NextPart_never_panics st0 why) as Hnp.
    destruct (multipart.NextPart st0) as [[part|e|why] st1] eqn:Hnext;
      cbn [fst snd] in Hs1, Hnp.
    2:{ eexists. eexists. split; [reflexivity|]. eapply same_session_trans; eauto. }
    2:{ exfalso. exact (Hnp why eq_refl). }
    destruct (NextPart_yields_first_pending st0 part st1 Hnext) as [rest Hpend].
    rewrite Hp0 in Hpend. destruct (Hinfo part rest Hpend) as [e He].
    unfold bind at 1.
    destruct (decodeInfo_outcome part st1) as (r & st2 & Hdecode & Hs2 & Hcases).
    rewrite Hdecode.
    assert (Hs : same_session st st2).
    { eapply same_session_trans; [exact Hs0|]. eapply same_session_trans; eauto. }
    destruct Hcases as [(e' & ->)|(info & -> & Hok)].
    - eexists. eexists. split; [reflexivity | exact Hs].
    - rewrite He in Hok. discriminate Hok. }
  destruct Hrun as (err & st' & -> & Hsame). exists err. split; [reflexivity | exact Hsame].
Qed.

Lemma X19_handleUpload_needs_upload_info_witness :
  let st := UploadState_init [example.smallPart; example.bigPart] 40 [] in
  exists err,
    fst (handleUpload (example.fileServer example.admin) example.uploadRequest st)
      = Fail err /\
    files (snd (handleUpload (example.fileServer example.admin)
                  example.uploadRequest st)) = [].
Proof.
  intros st.
  destruct (X19_handleUpload_needs_upload_info (example.fileServer example.admin)
              example.uploadRequest st) as (err & Hrun & Hsame).
  - intros part rest [= <- _]. eexists. reflexivity.
  - exists err. split; [exact Hrun|]. destruct Hsame as (_ & _ & _ & _ & Hfiles).
    exact Hfiles.
Defined.

(** * Properties of the other project handlers *)

(** Decoding through the limiter: a document longer than the limit fails
    with the size error, any other document decodes as it would without
    the limiter. *)
Lemma decodeLimited_spec (limit : Z) (body : JSONBody) :
  0 <= limit -> 0 < DocLen body ->
  decodeLimited limit body =
    if limit <? DocLen body then Err ErrBodyTooLarge else Doc body.
Proof.
  intros Hlimit Hlen. unfold decodeLimited, Body_Read, bind, get.
  cbn [limiter set_limiter set_wire_left UploadState_init].
  unfold http.maxBytesReader_Read. cbn [mb_err mb_n http.MaxBytesReader].
  destruct (DocLen body =? 0) eqn:H0; [apply Z.eqb_eq in H0; lia|].
  unfold bind, conn_Read, bind, get. cbn [wire_left set_limiter set_wire_left].
  destruct (DocLen body <=? 0) eqn:H1; [apply Z.leb_le in H1; lia|].
  unfold modify, ret. cbn [fst snd].
  destruct (limit <? DocLen body) eqn:Hbig.
  - apply Z.ltb_lt in Hbig.
    destruct (limit + 1 <? DocLen body) eqn:Hcut.
    + replace (Z.min (limit + 1) (DocLen body) <=? limit) with false
        by (symmetry; apply Z.leb_gt; lia).
      reflexivity.
    + apply Z.ltb_ge in Hcut.
      replace (Z.min (DocLen body) (DocLen body) <=? limit) with false
        by (symmetry; apply Z.leb_gt; lia).
      reflexivity.
  - apply Z.ltb_ge in Hbig.
    replace (limit + 1 <? DocLen body) with false by (symmetry; apply Z.ltb_ge; lia).
    replace (Z.min (DocLen body) (DocLen body) <=? limit) with true
      by (symmetry; apply Z.leb_le; lia).
    reflexivity.
Qed.

(** X20: the three handlers that take a JSON document read it through a
    limiter of 1 MiB (1048576 bytes): a document that is longer is
    answered 400 [Invalid request data] and the project service is not
    called. *)
Theorem X20_json_documents_over_1MiB_refused
    (p : Projects) (c : Context) (projectName : string) (body : JSONBody)
    (calls : list ServiceCall) :
  MaxJSONSize < DocLen body ->
  MaxJSONSize = 1048576 /\
  handleCreateProject p c body calls =
    (Fail (HTTPError 400 "Invalid request data"), calls) /\
  handleUpdateProjectMeta p projectName body calls =
    (Fail (HTTPError 400 "Invalid request data"), calls) /\
  handleSaveProjectSettings p projectName body calls =
    (Fail (HTTPError 400 "Invalid request data"), calls).
Proof.
  intros Hbig.
  assert (Hdec : decodeLimited MaxJSONSize body = Err ErrBodyTooLarge).
  { rewrite decodeLimited_spec by (unfold MaxJSONSize, MB in *; lia).
    apply Z.ltb_lt in Hbig. rewrite Hbig. reflexivity. }
  unfold handleCreateProject, handleUpdateProjectMeta, handleSaveProjectSettings.
  rewrite Hdec. repeat split.
Qed.

Lemma X20_json_documents_witness :
  handleCreateProject (sample.projects "empty") (example.context "POST" "")
    {| DocLen := 1048577; Doc := Ok "{}" |} [] =
    (Fail (HTTPError 400 "Invalid request data"), []).
Proof.
  apply (X20_json_documents_over_1MiB_refused (sample.projects "empty")
           (example.context "POST" "") "admin/world"
           {| DocLen := 1048577; Doc := Ok "{}" |} []).
  reflexivity.
Defined.

(** X21: a document of at most 1 MiB that decodes is given to [Create]
    as it is, with the [user] and [name] parameters of the path; the
    answer is 200 with the new project's info, 409 [Project already
    exists] when the service reports that error, and any other error of
    the service as it is. *)
Theorem X21_handleCreateProject_outcome
    (p : Projects) (c : Context) (body : JSONBody) (data : string)
    (calls : list ServiceCall) :
  0 < DocLen body <= MaxJSONSize ->
  Doc body = Ok data ->
  handleCreateProject p c body calls =
    (match svc_Create p calls (Param_user c) (Param_name c) data with
     | Ok info => Val (AnswerInfo 200 info)
     | Err err =>
         if errors_Is err ErrProjectAlreadyExists
         then Fail (HTTPError 409 "Project already exists")
         else Fail err
     end,
     (calls ++ [SvcCreate (Param_user c) (Param_name c) data])%list).
Proof.
  intros Hlen Hdoc. unfold handleCreateProject.
  rewrite decodeLimited_spec by (unfold MaxJSONSize, MB in *; lia).
  replace (MaxJSONSize <? DocLen body) with false by (symmetry; apply Z.ltb_ge; lia).
  rewrite Hdoc. unfold bind, invoke. cbn zeta.
  destruct (svc_Create p calls (Param_user c) (Param_name c) data) as [info|err];
    [reflexivity|].
  destruct (errors_Is err ErrProjectAlreadyExists); reflexivity.
Qed.

Lemma X21_handleCreateProject_witness :
  handleCreateProject (sample.projects "empty") (example.context "POST" "")
    {| DocLen := 1048576; Doc := Ok "{}" |} [] =
    (Val (AnswerInfo 200 (sample.info "empty")), [SvcCreate "admin" "world" "{}"]).
Proof.
  apply (X21_handleCreateProject_outcome (sample.projects "empty")
           (example.context "POST" "") {| DocLen := 1048576; Doc := Ok "{}" |} "{}" []).
  - unfold MaxJSONSize, MB. cbn [DocLen]. lia.
  - reflexivity.
Defined.

Lemma errors_Is_refl (err : error) : errors_Is err err = true.
Proof. destruct err; cbn; rewrite bool_decide_eq_true_2; reflexivity. Qed.

Lemma errors_Is_Wrapped (message : string) (err target : error) :
  errors_Is err target = true -> errors_Is (Wrapped message err) target = true.
Proof. intros H. cbn. rewrite H. apply orb_true_r. Qed.

(** X22: a project the service does not know, reported by the error
    [ErrProjectNotExists] or an error wrapping it, is answered 400
    [Project does not exists] by [handleGetProjectFiles],
    [handleDeleteProject], [handleGetProjectInfo],
    [handleGetProjectFullInfo] and [handleProjectReload], 409 by
    [handleUpdateProjectMeta] and 404 by [handleGetProject]. *)
Theorem X22_missing_project_status_codes
    (p : Projects) (encode : Values -> string) (c : Context) (user : domain.User)
    (projectName : string) (body : JSONBody) (data : string) (err : error) :
  errors_Is err ErrProjectNotExists = true ->
  (svc_ListProjectFiles p [] projectName true = Err err ->
   fst (handleGetProjectFiles p projectName []) = Fail ErrProjectMissing) /\
  (svc_Delete p [] projectName = Some err ->
   fst (handleDeleteProject p projectName []) = Fail ErrProjectMissing) /\
  (svc_GetProjectInfo p [] projectName = Err err ->
   fst (handleGetProjectInfo p projectName []) = Fail ErrProjectMissing /\
   fst (handleGetProjectFullInfo p projectName []) = Fail ErrProjectMissing /\
   fst (handleProjectReload p encode projectName []) = Fail ErrProjectMissing) /\
  (decodeLimited MaxJSONSize body = Ok data ->
   svc_UpdateMeta p [] projectName data = Some err ->
   fst (handleUpdateProjectMeta p projectName body []) =
     Fail (HTTPError 409 "Project does not exists")) /\
  (svc_GetProjectInfo p [] (getProjectName c) = Err err ->
   fst (handleGetProject p c user []) = Fail ErrNotFound).
Proof.
  intros His. repeat split.
  - intros H. unfold handleGetProjectFiles, bind, invoke. rewrite H, His. reflexivity.
  - intros H. unfold handleDeleteProject, bind, invoke. rewrite H, His. reflexivity.
  - unfold handleGetProjectInfo, bind, invoke. rewrite H, His. reflexivity.
  - unfold handleGetProjectFullInfo, bind, invoke. rewrite H, His. reflexivity.
  - unfold handleProjectReload, bind, invoke. rewrite H, His. reflexivity.
  - intros Hdec H. unfold handleUpdateProjectMeta. rewrite Hdec.
    unfold bind, invoke. rewrite H, His. reflexivity.
  - intros H. unfold handleGetProject, bind, invoke. cbn zeta. rewrite H, His. reflexivity.
Qed.

Lemma X22_missing_project_witness :
  fst (handleGetProjectInfo (sample.projects "published") "admin/moon" []) =
    Fail ErrProjectMissing /\
  fst (handleGetProject (sample.projects "published")
         {| Param_user := "admin"; Param_name := "moon";
            Req := Req (example.context "GET" "") |} example.editor []) =
    Fail ErrNotFound.
Proof.
  destruct (X22_missing_project_status_codes (sample.projects "published")
              example.encode
              {| Param_user := "admin"; Param_name := "moon";
                 Req := Req (example.context "GET" "") |}
              example.editor "admin/moon" {| DocLen := 2; Doc := Ok "{}" |} "{}"
              (Wrapped "loading project" ErrProjectNotExists) eq_refl)
    as (_ & _ & H3 & _ & H5).
  split.
  - apply H3. reflexivity.
  - apply H5. reflexivity.
Defined.

(** X23: an error of [ListProjectFiles] other than a missing project is
    returned wrapped, and the wrapping keeps the cause: whatever error
    [errors.Is] finds in the service's error it finds in the handler's. *)
Theorem X23_handleGetProjectFiles_keeps_cause
    (p : Projects) (projectName : string) (calls : list ServiceCall)
    (err target : error) :
  svc_ListProjectFiles p calls projectName true = Err err ->
  errors_Is err ErrProjectNotExists = false ->
  exists returned,
    fst (handleGetProjectFiles p projectName calls) = Fail returned /\
    errors_Is returned err = true /\
    (errors_Is err target = true -> errors_Is returned target = true).
Proof.
  intros Hlist Hother. exists (Wrapped "handleGetProjectFiles" err). split; [|split].
  - unfold handleGetProjectFiles, bind, invoke. rewrite Hlist, Hother. reflexivity.
  - apply errors_Is_Wrapped, errors_Is_refl.
  - apply errors_Is_Wrapped.
Qed.

Lemma X23_handleGetProjectFiles_witness :
  exists returned,
    fst (handleGetProjectFiles (sample.projects "published") "admin/moon" []) =
      Fail returned /\
    errors_Is returned (ErrOther "permission denied") = true.
Proof.
  destruct (X23_handleGetProjectFiles_keeps_cause (sample.projects "published")
              "admin/moon" [] (ErrOther "permission denied")
              (ErrOther "permission denied") eq_refl eq_refl)
    as (returned & Hrun & His & _).
  exists returned. split; [exact Hrun | exact His].
Defined.

(** X24: once the project info and the QGIS metadata load,
    [handleGetProjectFullInfo] answers 200 whatever happens to the
    settings and the scripts: the settings are asked for only when the
    project's state is not [empty], a failure to load them leaves them
    nil, and a failure to load the scripts leaves the scripts nil. *)
Theorem X24_handleGetProjectFullInfo_tolerates_missing_parts
    (p : Projects) (projectName : string) (info : project.Info) (meta : string) :
  svc_GetProjectInfo p [] projectName = Ok info ->
  svc_GetQgisMetadata p [SvcGetProjectInfo projectName] projectName = Ok meta ->
  exists data calls,
    handleGetProjectFullInfo p projectName [] = (Val (AnswerFullInfo 200 data), calls) /\
    project.Name data = projectName /\
    project.FState data = domain.State (project.Core info) /\
    project.Meta data = meta /\
    (domain.State (project.Core info) = "empty" ->
     project.Settings data = None /\ SvcGetSettings projectName ∉ calls) /\
    (domain.State (project.Core info) <> "empty" ->
     SvcGetSettings projectName ∈ calls /\
     forall err,
       svc_GetSettings p [SvcGetProjectInfo projectName; SvcGetQgisMetadata projectName]
         projectName = Err err ->
       project.Settings data = None).
Proof.
  intros Hinfo Hmeta. unfold handleGetProjectFullInfo.
  unfold bind at 1. unfold invoke at 1. cbn [app]. rewrite Hinfo.
  unfold bind at 1. unfold invoke at 1. cbn [app]. rewrite Hmeta.
  destruct (String.eqb (domain.State (project.Core info)) "empty") eqn:Hstate.
  - apply String.eqb_eq in Hstate. cbn [negb]. unfold bind, ret, invoke. cbn [app].
    eexists. eexists. split; [reflexivity|]. cbn [project.Name project.FState project.Meta project.Settings].
    split; [reflexivity|]. split; [reflexivity|]. split; [reflexivity|]. split.
    + intros _. split; [reflexivity|]. intros Hin.
      repeat (apply elem_of_cons in Hin; destruct Hin as [Hin|Hin]; [discriminate Hin|]).
      inversion Hin.
    + intros Hne. contradiction.
  - apply String.eqb_neq in Hstate. cbn [negb]. unfold bind, ret, invoke. cbn [app].
    destruct (svc_GetSettings p _ projectName) as [settings|err] eqn:Hsettings;
      eexists; eexists; (split; [reflexivity|]);
      cbn [project.Name project.FState project.Meta project.Settings];
      (split; [reflexivity|]); (split; [reflexivity|]); (split; [reflexivity|]);
      (split; [intros Heq; contradiction|]); intros _;
      (split; [apply list_elem_of_further, list_elem_of_further, list_elem_of_here|]).
    + intros err Herr. discriminate Herr.
    + intros err' _. reflexivity.
Qed.

Lemma X24_handleGetProjectFullInfo_witness :
  exists data calls,
    handleGetProjectFullInfo (sample.projects "published") "admin/world" [] =
      (Val (AnswerFullInfo 200 data), calls) /\
    project.Settings data = None /\ SvcGetSettings "admin/world" ∈ calls.
Proof.
  destruct (X24_handleGetProjectFullInfo_tolerates_missing_parts
              (sample.projects "published") "admin/world" (sample.info "published")
              "{}" eq_refl eq_refl)
    as (data & calls & Hrun & _ & _ & _ & _ & Hloaded).
  destruct Hloaded as [Hin Hnil]; [discriminate|].
  exists data, calls. split; [exact Hrun|]. split; [|exact Hin].
  apply (Hnil (ErrOther "settings file missing")). reflexivity.
Defined.

(** ** Script modules and reload *)

(** The manifest entry [handleScriptUpload] declares for a file of the
    form. *)
Lemma collectFiles_inner (fhs : list FileHeader)
    (acc : list domain.ProjectFile * list FileHeader) :
  fold_left
    (fun acc fh =>
       let path := filepath.Join ["web"; "components"; Filename fh] in
       ((fst acc ++ [{| domain.Path := path; domain.Size := FileSize fh |}])%list,
        (snd acc ++ [fh])%list))
    fhs acc =
  ((fst acc ++ map (fun fh => {| domain.Path := filepath.Join ["web"; "components"; Filename fh];
                                  domain.Size := FileSize fh |}) fhs)%list,
   (snd acc ++ fhs)%list).
Proof.
  revert acc. induction fhs as [|fh fhs IH]; intros [metas files].
  - cbn. rewrite !app_nil_r. reflexivity.
  - cbn [fold_left map]. rewrite IH. cbn [fst snd]. rewrite <- !app_assoc. reflexivity.
Qed.

(** The two lists [handleScriptUpload] builds hold, in the order of the
    form, its files and one manifest entry for each. *)
Lemma collectFiles_spec (form : list (string * list FileHeader)) :
  collectFiles form =
  (map (fun fh => {| domain.Path := filepath.Join ["web"; "components"; Filename fh];
                     domain.Size := FileSize fh |}) (concat (map snd form)),
   concat (map snd form)).
Proof.
  unfold collectFiles.
  assert (Hgen : forall acc,
    fold_left
      (fun acc nf =>
         fold_left
           (fun acc fh =>
              let path := filepath.Join ["web"; "components"; Filename fh] in
              ((fst acc ++ [{| domain.Path := path; domain.Size := FileSize fh |}])%list,
               (snd acc ++ [fh])%list))
           (snd nf) acc)
      form acc =
    ((fst acc ++ map (fun fh => {| domain.Path := filepath.Join ["web"; "components"; Filename fh];
                                    domain.Size := FileSize fh |}) (concat (map snd form)))%list,
     (snd acc ++ concat (map snd form))%list)).
  { induction form as [|[name fhs] form IH]; intros [metas files].
    - cbn. rewrite !app_nil_r. reflexivity.
    - cbn [fold_left map concat snd]. rewrite collectFiles_inner, IH. cbn [fst snd].
      rewrite map_app, <- !app_assoc. reflexivity. }
  rewrite Hgen. reflexivity.
Qed.

(** X25: the content provider of [handleScriptUpload] hands out the files
    of the form in their order, each under [web/components] joined with
    its file name: at an index below the number of files it yields that
    file and moves on when the file opens, returns the error of [Open]
    and stays when it does not; from the number of files on it returns
    [io.EOF]. It never indexes out of range. *)
Theorem X25_script_provider_yields_form_files
    (form : list (string * list FileHeader)) (findex : nat) :
  let files := snd (collectFiles form) in
  let filesMeta := fst (collectFiles form) in
  files = concat (map snd form) /\
  length filesMeta = length files /\
  match files !! findex with
  | Some fh =>
      scriptNextFile files filesMeta findex =
        match Open fh with
        | Ok content =>
            (Val (filepath.Join ["web"; "components"; Filename fh], content), S findex)
        | Err err => (Fail err, findex)
        end
  | None => scriptNextFile files filesMeta findex = (Fail EOF, findex)
  end.
Proof.
  intros files filesMeta. unfold files, filesMeta. rewrite collectFiles_spec. cbn [fst snd].
  split; [reflexivity|]. split; [apply length_map|].
  unfold scriptNextFile. rewrite length_map, orb_diag.
  destruct (concat (map snd form) !! findex) as [fh|] eqn:Hfile.
  - pose proof (lookup_lt_Some _ _ _ Hfile) as Hlt.
    replace (length (concat (map snd form)) <=? findex)%nat with false
      by (symmetry; apply Nat.leb_gt; exact Hlt).
    rewrite list_lookup_fmap, Hfile. cbn [fmap option_fmap option_map domain.Path].
    destruct (Open fh); reflexivity.
  - apply lookup_ge_None in Hfile.
    replace (length (concat (map snd form)) <=? findex)%nat with true
      by (symmetry; apply Nat.leb_le; exact Hfile).
    reflexivity.
Qed.

(** X26: once the form of the request is parsed, [handleScriptUpload]
    refuses script data without a module name or without components with
    the error 400 [Invalid script module data], and it does so without
    any call to the project service: no file of the form is saved and
    the scripts of the project are not touched. *)
Theorem X26_handleScriptUpload_validates_module
    (p : Projects) (projectName : string) (c : ScriptUpload) (info : ScriptData)
    (calls : list ServiceCall) :
  ParseMultipartForm c = None ->
  InfoValue c = Ok info ->
  ModuleName info = "" \/ project.Components (Script info) = [] ->
  handleScriptUpload p projectName c calls =
    (Fail (HTTPError 400 "Invalid script module data"), calls).
Proof.
  intros Hparse Hinfo Hbad. unfold handleScriptUpload. rewrite Hparse, Hinfo.
  replace (String.eqb (ModuleName info) ""
           || (length (project.Components (Script info)) <? 1)%nat) with true.
  - reflexivity.
  - symmetry. destruct Hbad as [-> | ->]; [reflexivity|]. apply orb_true_r.
Qed.

Lemma X26_handleScriptUpload_validates_witness :
  let c := {| ParseMultipartForm := None;
              InfoValue := Ok {| ModuleName := "charts";
                                 Script := {| project.ScriptPath := "charts.umd.js";
                                              project.Components := [] |} |};
              MultipartForm := Ok sample.chartFiles |} in
  handleScriptUpload (sample.projects "published") "admin/world" c [] =
    (Fail (HTTPError 400 "Invalid script module data"), []).
Proof.
  intros c.
  apply (X26_handleScriptUpload_validates_module (sample.projects "published")
           "admin/world" c
           {| ModuleName := "charts";
              Script := {| project.ScriptPath := "charts.umd.js";
                           project.Components := [] |} |} []).
  - reflexivity.
  - reflexivity.
  - right. reflexivity.
Defined.

(** X27: when the files are saved and the scripts load and are stored,
    [handleScriptUpload] answers 200 with the scripts of the project in
    which the uploaded module is registered under its name, with its
    path joined to [components]; every other module is as it was, and
    this map is the one given to [UpdateScripts]. *)
Theorem X27_handleScriptUpload_registers_module
    (p : Projects) (projectName : string) (c : ScriptUpload) (info : ScriptData)
    (form : list (string * list FileHeader)) (existing : option project.Scripts)
    (saved : list domain.ProjectFile) :
  ParseMultipartForm c = None ->
  InfoValue c = Ok info ->
  ModuleName info <> "" -> project.Components (Script info) <> [] ->
  MultipartForm c = Ok form ->
  let changes := {| domain.Updates := fst (collectFiles form); domain.Removes := [] |} in
  fst (svc_UpdateFiles p [] projectName changes
         (scriptNextFile (snd (collectFiles form)) (fst (collectFiles form))) 0%nat)
    = Val saved ->
  svc_GetScripts p [SvcUpdateFiles projectName changes] projectName = Ok existing ->
  (forall scripts,
     svc_UpdateScripts p [SvcUpdateFiles projectName changes; SvcGetScripts projectName]
       projectName scripts = None) ->
  exists scripts,
    handleScriptUpload p projectName c [] =
      (Val (AnswerScripts 200 scripts),
       [SvcUpdateFiles projectName changes; SvcGetScripts projectName;
        SvcUpdateScripts projectName scripts]) /\
    scripts !! ModuleName info =
      Some {| project.ScriptPath :=
                filepath.Join ["components"; project.ScriptPath (Script info)];
              project.Components := project.Components (Script info) |} /\
    forall name, name <> ModuleName info ->
                 scripts !! name = default ∅ existing !! name.
Proof.
  intros Hparse Hinfo Hname Hcomp Hform changes Hsave Hscripts Hstore.
  eexists. split; [|split].
  - unfold handleScriptUpload. rewrite Hparse, Hinfo.
    replace (String.eqb (ModuleName info) ""
             || (length (project.Components (Script info)) <? 1)%nat) with false.
    2:{ symmetry. apply orb_false_iff. split.
        - apply String.eqb_neq. exact Hname.
        - destruct (project.Components (Script info)); [contradiction | reflexivity]. }
    rewrite Hform. cbv zeta. fold changes.
    unfold bind at 1. unfold invoke at 1. cbn [app]. rewrite Hsave.
    unfold bind at 1. unfold invoke at 1. cbn [app]. rewrite Hscripts.
    unfold bind at 1. unfold invoke at 1. cbn [app]. rewrite Hstore.
    reflexivity.
  - apply lookup_insert_eq.
  - intros name Hne. apply lookup_insert_ne. congruence.
Qed.

Lemma X27_handleScriptUpload_registers_witness :
  exists scripts,
    fst (handleScriptUpload (sample.projects "published") "admin/world"
           sample.chartsUpload []) = Val (AnswerScripts 200 scripts) /\
    scripts !! "charts" =
      Some {| project.ScriptPath := "components/charts.umd.js";
              project.Components := ["Charts"] |}.
Proof.
  destruct (X27_handleScriptUpload_registers_module (sample.projects "published")
              "admin/world" sample.chartsUpload
              {| ModuleName := "charts";
                 Script := {| project.ScriptPath := "charts.umd.js";
                              project.Components := ["Charts"] |} |}
              sample.chartFiles None
              [{| domain.Path := "web/components/charts.umd.js"; domain.Size := 18 |};
               {| domain.Path := "web/components/charts.css"; domain.Size := 9 |}])
    as (scripts & Hrun & Hmodule & _).
  - reflexivity.
  - reflexivity.
  - discriminate.
  - discriminate.
  - reflexivity.
  - reflexivity.
  - reflexivity.
  - intros scripts. reflexivity.
  - exists scripts. rewrite Hrun. split; [reflexivity | exact Hmodule].
Defined.

(** X28: [handleProjectReload] posts to the configured map server
    address with [/reload] joined to its path and, as the [project]
    parameter, the path of the definition file that the map handlers send
    as [MAP]; it answers 200 exactly when the map server answers with
    the status 200 and otherwise returns an error that carries the
    message of the map server. *)
Theorem X28_handleProjectReload_outcome
    (p : Projects) (encode : Values -> string) (projectName : string)
    (info : project.Info) (target : URL) :
  svc_GetProjectInfo p [] projectName = Ok info ->
  svc_url_Parse p (svc_MapserverURL p) = Ok target ->
  let url := {| Scheme := Scheme target; Host := Host target;
                Path := filepath.Join [Path target; "/reload"];
                RawQuery := encode {["project" :=
                  [filepath.Join ["/publish"; projectName;
                                  domain.QgisFile (project.Core info)]]]} |} in
  let calls := [SvcGetProjectInfo projectName; SvcReload url] in
  forall resp,
    svc_Reload p [SvcGetProjectInfo projectName] url = Ok resp ->
    handleProjectReload p encode projectName [] =
      (if StatusCode resp =? 200 then Val (AnswerNoContent 200)
       else Fail (ErrOther ("reloading project on qgis server: " ++ ResponseBody resp)),
       calls).
Proof.
  intros Hinfo Hparse url calls resp Hresp.
  unfold handleProjectReload. unfold bind at 1. unfold invoke at 1. cbn [app].
  rewrite Hinfo, Hparse. cbv zeta. rewrite Join_publish_slash. fold url.
  unfold bind, invoke. cbn [app]. rewrite Hresp.
  destruct (StatusCode resp =? 200); reflexivity.
Qed.

Lemma X28_handleProjectReload_witness :
  fst (handleProjectReload (sample.projects "published") example.encode
         "admin/world" []) =
    Fail (ErrOther "reloading project on qgis server: project not found").
Proof.
  pose proof (X28_handleProjectReload_outcome (sample.projects "published")
                example.encode "admin/world" (sample.info "published")
                example.target eq_refl eq_refl
                {| StatusCode := 500; ResponseBody := "project not found" |} eq_refl) as H.
  rewrite H. reflexivity.
Defined.
